(** * k-hostel: the user-registration endpoint

    A shallow embedding of the two [POST] handlers of the repository
    (the Supabase-client handler and [src/app/api/auth/register/route.ts],
    the Drizzle handler) and the properties of the registration workflow.

    The handlers are sequential glue around collaborators that are not in the
    source tree ([@/lib/db], [@/lib/schema], [@/lib/email], bcryptjs, the
    clock and the random source).  They are embedded as programs of a small
    free monad: a collaborator call is a node of the program, the answer of
    the collaborator comes from a [World], and running a program yields the
    trace of what was called and logged together with the completion of the
    handler (a response, or an exception leaving the handler). *)

From stdpp Require Import gmap strings list fin_maps pretty.
From Stdlib Require Import Ascii QArith Qround Qpower Qabs Lqa.

#[local] Set Warnings "-register-all".
#[local] Close Scope Q_scope.
#[local] Open Scope string_scope.
#[local] Open Scope Z_scope.

(** ** JavaScript values *)

(** The values the handlers manipulate.  The numbers found in values are
    integers; the one computation on doubles, the verification code of line
    81, is in the section Numbers below.  Objects are finite maps from
    property names to values; there are no function values. *)
Inductive value : Type :=
| VUndefined
| VNull
| VBool (b : bool)
| VNum (n : Z)
| VStr (s : string)
| VArr (l : list value)
| VObj (m : gmap string value).

(** An object literal [{k1: v1, ..., kn: vn}]: later keys override earlier ones. *)
Definition object_literal (fields : list (string * value)) : gmap string value :=
  foldl (fun m kv => <[kv.1 := kv.2]> m) ∅ fields.

Definition obj (fields : list (string * value)) : value :=
  VObj (object_literal fields).

(** ToBoolean. *)
Definition truthy (v : value) : bool :=
  match v with
  | VUndefined | VNull => false
  | VBool b => b
  | VNum n => negb (Z.eqb n 0)
  | VStr s => negb (String.eqb s "")
  | VArr _ | VObj _ => true
  end.

Definition nullish (v : value) : bool :=
  match v with
  | VUndefined | VNull => true
  | _ => false
  end.

(** [v === 'lit'] for a string literal. *)
Definition strict_eq_string (v : value) (lit : string) : bool :=
  match v with
  | VStr s => String.eqb s lit
  | _ => false
  end.

(** [String.prototype.includes]: [needle] occurs in [hay]. *)
Fixpoint includes (needle hay : string) : bool :=
  String.prefix needle hay ||
  match hay with
  | EmptyString => false
  | String _ rest => includes needle rest
  end.

(** [Number.prototype.toString] on an integer below 10^21 in magnitude: its
    decimal notation (from 10^21 on JavaScript prints an exponent; the only
    number the handlers print is the verification code, below 10^7). *)
Definition Number_toString (n : Z) : string := pretty n.

(** A decimal digit, and a string of decimal digits. *)
Definition digit (c : ascii) : bool :=
  match c with
  | "0" | "1" | "2" | "3" | "4" | "5" | "6" | "7" | "8" | "9" => true
  | _ => false
  end%char.

Definition numeric (s : string) : bool :=
  forallb digit (String.list_ascii_of_string s).

(** The own enumerable properties of a value, as object spread and rest
    destructuring see them (strings are byte sequences here, so a string
    spreads into its bytes). *)
Definition indexed (l : list value) : gmap string value :=
  list_to_map (imap (fun i v => (pretty i, v)) l).

Definition chars (s : string) : list value :=
  (fun c => VStr (String c EmptyString)) <$> String.list_ascii_of_string s.

Definition own_props (v : value) : gmap string value :=
  match v with
  | VObj m => m
  | VArr l => indexed l
  | VStr s => indexed (chars s)
  | _ => ∅
  end.

(** The value of property [k] of a non-nullish value [v], [undefined] when
    [v] has no such property. *)
Definition field (v : value) (k : string) : value :=
  default VUndefined (own_props v !! k).

(** Error objects, with the two properties the handlers read. *)
Definition js_error (name message : string) : value :=
  obj [("name", VStr name); ("message", VStr message)].

Definition TypeError (message : string) : value := js_error "TypeError" message.

(** [new Error(message)]. *)
Definition Error (message : string) : value := js_error "Error" message.

(** ** Numbers

    A JavaScript number is a double (IEEE 754 binary64).  The finite doubles
    are the rationals [m * 2^e] with [|m| < 2^53] and [-1074 <= e <= 971], and
    an arithmetic operation answers its exact result rounded to the nearest
    double, to the one of even significand when two doubles are equally near.
    The doubles are represented by their rational value.  The arithmetic of
    the handlers (line 81 of the Supabase handler) stays below 2^20, so the
    overflow to an infinity, beyond 2^1024, is not part of [round64]. *)

Definition precision : Z := 53.
Definition emin : Z := -1074.
Definition emax : Z := 971.

Definition binary64 (q : Q) : Prop :=
  ∃ m e : Z, Z.abs m < 2 ^ precision ∧ emin ≤ e ≤ emax ∧ (q == inject_Z m * 2 ^ e)%Q.

(** [Number.MAX_VALUE]. *)
Definition largest : Q := (inject_Z (2 ^ precision - 1) * 2 ^ emax)%Q.

(** The integer nearest to [q], the even one when [q] is halfway between two
    integers. *)
Definition round_half_even (q : Q) : Z :=
  let n := Qfloor q in
  match (q - inject_Z n ?= 1 # 2)%Q with
  | Lt => n
  | Gt => n + 1
  | Eq => if Z.even n then n else n + 1
  end.

(** The integer part of the binary logarithm of a positive rational. *)
Definition Qlog2 (q : Q) : Z :=
  let e := Z.log2 (Qnum q) - Z.log2 (Z.pos (Qden q)) in
  if Qle_bool (2 ^ e)%Q q then e else e - 1.

(** The exponent of the last bit of the significand of the double nearest to
    a positive [q]: 52 binary places below the leading bit of [q], and never
    below the exponent of the subnormal doubles. *)
Definition ulp_exponent (q : Q) : Z := Z.max emin (Qlog2 q - (precision - 1)).

Definition round_positive (q : Q) : Q :=
  let e := ulp_exponent q in
  (inject_Z (round_half_even (q / 2 ^ e)) * 2 ^ e)%Q.

(** The double nearest to [q], ties to even. *)
Definition round64 (q : Q) : Q :=
  match Qnum q with
  | Z0 => 0%Q
  | Z.pos _ => round_positive q
  | Z.neg _ => (- round_positive (- q))%Q
  end.

(** [x * y] and [x + y] on doubles. *)
Definition Number_multiply (x y : Q) : Q := round64 (x * y)%Q.

Definition Number_add (x y : Q) : Q := round64 (x + y)%Q.

(** [Math.floor] on a finite double: the integer it answers is a double, so
    nothing is rounded. *)
Definition Math_floor (x : Q) : Z := Qfloor x.

(** The range of [Math.random()]: the doubles from 0 inclusive to 1
    exclusive. *)
Definition unit_interval (q : Q) : Prop := (0 <= q)%Q ∧ (q < 1)%Q.

(** The distance between two neighbouring doubles from 2^19 to 2^20, the
    binade of 900000 and of 1000000. *)
Definition ulp : Q := (2 ^ (-33))%Q.

(** ** The data of a registration *)

(** Modelled from the spec: the output type of [registerUserSchema], whose
    declaration ([@/lib/schema]) is not in the source tree.  The fields are the
    RegistrationRequest of the data model: three required strings, the role,
    the terms flag, and six optional strings. *)
Record RegisterData : Type := {
  email : string;
  password : string;
  firstName : string;
  lastName : option string;
  phone : option string;
  role : string;
  schoolId : option string;
  businessRegNumber : option string;
  address : option string;
  profileImageUrl : option string;
  termsAccepted : bool
}.

(** Modelled from the spec: the result of [registerUserSchema.parse], "a schema
    validator (throws a structured validation error with an issues list on
    failure)".  A failure carries at least one issue (the validator only fails
    when it has recorded an issue) and the message of the error object. *)
Inductive schema_result : Type :=
| Valid (data : RegisterData)
| Invalid (issue : value) (more : list value) (message : string).

(** The ZodError object thrown on a validation failure. *)
Definition ZodError (issues : list value) (message : string) : value :=
  obj [("name", VStr "ZodError"); ("issues", VArr issues); ("message", VStr message)].

(** An optional field as a value: absent fields read as [undefined]. *)
Definition optional (o : option string) : value :=
  match o with
  | Some s => VStr s
  | None => VUndefined
  end.

(** [x || y] on values; the right operand is a value here because both uses
    in the handlers have a literal on the right. *)
Definition or_value (x y : value) : value := if truthy x then x else y.

(** ** Collaborators, programs and their runs *)

Inductive completion (A : Type) : Type :=
| Normal (a : A)
| Throw (e : value).
Arguments Normal {A} a.
Arguments Throw {A} e.

(** The calls that leave the handler.  The first ten are those of the Supabase
    handler, the last four those of the Drizzle handler (which also uses
    [request_json] and [bcrypt_hash]). *)
Inductive call : Type :=
| request_json
| db_users_findByEmail (email : string)
| bcrypt_hash (data : string) (saltRounds : Z)
| new_Date
| db_users_create (user : value)
| Math_random
| Date_now
| supabase_users_update (fields : value) (id : value)
| generateVerificationEmail (code userName : string)
| sendEmail (message : value)
| getDb
| db_select_users_limit_1
| db_select_users_where_email (email : string)
| db_insert_users_returning (values : value).

(** What a call answers when it does not throw: timestamps are milliseconds
    since the epoch, a reading of [Math.random()] is the rational value of the
    double it answers, the Drizzle queries answer a list of rows. *)
Definition answer_type (c : call) : Type :=
  match c with
  | request_json => value
  | db_users_findByEmail _ => value
  | bcrypt_hash _ _ => string
  | new_Date => Z
  | db_users_create _ => value
  | Math_random => Q
  | Date_now => Z
  | supabase_users_update _ _ => value
  | generateVerificationEmail _ _ => string
  | sendEmail _ => value
  | getDb => unit
  | db_select_users_limit_1 => list value
  | db_select_users_where_email _ => list value
  | db_insert_users_returning _ => list value
  end.

Inductive level : Type := console_log | console_warn | console_error.

(** Programs: return, throw, call a collaborator and continue with its
    completion, or write to the console and continue. *)
Inductive Prog (A : Type) : Type :=
| Ret (a : A)
| Raise (e : value)
| Call (c : call) (k : completion (answer_type c) -> Prog A)
| Console (lvl : level) (text : string) (args : list value) (k : Prog A).
Arguments Ret {A} a.
Arguments Raise {A} e.
Arguments Call {A} c k.
Arguments Console {A} lvl text args k.

Fixpoint bind {A B : Type} (f : A -> Prog B) (p : Prog A) : Prog B :=
  match p with
  | Ret a => f a
  | Raise e => Raise e
  | Call c k => Call c (fun r => bind f (k r))
  | Console lvl text args k => Console lvl text args (bind f k)
  end.

(** The handlers are written with the monad notations of stdpp:
    [x ← p; q] and [p;; q]. *)
#[global] Instance Prog_ret : MRet Prog := @Ret.
#[global] Instance Prog_bind : MBind Prog := @bind.

(** A call of a collaborator (awaited when the collaborator is asynchronous):
    its answer, or its exception. *)
Definition invoke (c : call) : Prog (answer_type c) :=
  Call c (fun r => match r with Normal a => Ret a | Throw e => Raise e end).

Definition console (lvl : level) (text : string) (args : list value) : Prog unit :=
  Console lvl text args (Ret tt).

(** [try { p } catch (e) { handler e }]. *)
Fixpoint try_catch {A : Type} (p : Prog A) (handler : value -> Prog A) : Prog A :=
  match p with
  | Ret a => Ret a
  | Raise e => handler e
  | Call c k => Call c (fun r => try_catch (k r) handler)
  | Console lvl text args k => Console lvl text args (try_catch k handler)
  end.

(** Everything a request meets outside the source tree: the process
    environment, the registration schema, the answer of every collaborator
    call, the two built-ins whose result is only passed on
    ([Date.prototype.toISOString] on a time value and [String.prototype.trim]),
    and the conversion to a string of the values whose conversion is not fixed
    by the language: for an object or an array it runs the [toString] and
    [valueOf] methods the value defines or inherits, which answer any string
    or throw, and a value without such a method cannot be converted (a
    TypeError); for a number it is the notation of the number.
    The answer to a call depends on the call only: a request never repeats a
    call (lemma [calls_once]), so this describes every behaviour of the
    collaborators during one request. *)
Record World : Type := {
  process_env : string -> option string;
  registerUserSchema : value -> schema_result;
  answer : forall c : call, completion (answer_type c);
  toISOString : Z -> string;
  trim : string -> string;
  toString : value -> completion string
}.

Inductive event : Type :=
| ECall (c : call)
| ELog (lvl : level) (text : string) (args : list value).

Fixpoint run {A : Type} (w : World) (p : Prog A) : list event * completion A :=
  match p with
  | Ret a => ([], Normal a)
  | Raise e => ([], Throw e)
  | Call c k => let '(tr, r) := run w (k (answer w c)) in (ECall c :: tr, r)
  | Console lvl text args k => let '(tr, r) := run w k in (ELog lvl text args :: tr, r)
  end.

(** The collaborator calls of a trace, in order. *)
Fixpoint calls (tr : list event) : list call :=
  match tr with
  | [] => []
  | ECall c :: tr' => c :: calls tr'
  | ELog _ _ _ :: tr' => calls tr'
  end.

(** The console lines of a given level, in order. *)
Fixpoint logged (lvl : level) (tr : list event) : list string :=
  match tr with
  | [] => []
  | ECall _ :: tr' => logged lvl tr'
  | ELog l text _ :: tr' =>
      match lvl, l with
      | console_log, console_log | console_warn, console_warn
      | console_error, console_error => text :: logged lvl tr'
      | _, _ => logged lvl tr'
      end
  end.

(** ** Operations of the language that can throw *)

(** [v.k]: a TypeError on [undefined] and [null], the property otherwise.
    The handlers read [name], [message], [issues], [email], [id] and [success],
    none of which is a built-in member of a primitive or of an array. *)
Definition get (v : value) (k : string) : Prog value :=
  match v with
  | VUndefined =>
      Raise (TypeError ("Cannot read properties of undefined (reading '" +:+ k +:+ "')"))
  | VNull =>
      Raise (TypeError ("Cannot read properties of null (reading '" +:+ k +:+ "')"))
  | _ => Ret (field v k)
  end.

(** [const { k: x } = v]. *)
Definition destructure (v : value) (k : string) : Prog value :=
  match v with
  | VUndefined =>
      Raise (TypeError ("Cannot destructure property '" +:+ k +:+ "' of 'undefined' as it is undefined."))
  | VNull =>
      Raise (TypeError ("Cannot destructure property '" +:+ k +:+ "' of 'null' as it is null."))
  | _ => Ret (field v k)
  end.

(** [const { k: _, ...rest } = v]: the own properties of [v] but [k]. *)
Definition destructure_rest (v : value) (k : string) : Prog value :=
  match v with
  | VUndefined =>
      Raise (TypeError ("Cannot destructure property '" +:+ k +:+ "' of 'undefined' as it is undefined."))
  | VNull =>
      Raise (TypeError ("Cannot destructure property '" +:+ k +:+ "' of 'null' as it is null."))
  | _ => Ret (VObj (delete k (own_props v)))
  end.

(** [error.message?.includes(needle)]: short-circuits to [undefined] on a
    nullish message, searches a string, looks an array up for the element, and
    throws on every other message, which has no [includes] to call. *)
Definition message_includes (err : value) (needle : string) : Prog value :=
  m ← get err "message";
  match m with
  | VUndefined | VNull => Ret VUndefined
  | VStr s => Ret (VBool (includes needle s))
  | VArr l => Ret (VBool (existsb (fun x => strict_eq_string x needle) l))
  | _ => Raise (TypeError "error.message?.includes is not a function")
  end.

(** ToString, the conversion a template literal applies to the value it
    interpolates: fixed by the language on [undefined], [null], the booleans
    and the strings, the conversion of the world on every other value. *)
Definition ToString (w : World) (v : value) : completion string :=
  match v with
  | VUndefined => Normal "undefined"
  | VNull => Normal "null"
  | VBool b => Normal (if b then "true" else "false")
  | VStr s => Normal s
  | VNum _ | VArr _ | VObj _ => toString w v
  end.

(** [`${v}`]: the text of [v] in a template literal, or the exception of its
    conversion. *)
Definition interpolate (w : World) (v : value) : Prog string :=
  match ToString w v with
  | Normal text => Ret text
  | Throw e => Raise e
  end.

(** [p || q] and [p && q], the right operand evaluated only when needed. *)
Definition or_else (p q : Prog value) : Prog value :=
  x ← p; if truthy x then Ret x else q.

Definition and_then (p q : Prog value) : Prog value :=
  x ← p; if truthy x then q else Ret x.

(** ** Responses *)

Record response : Type := {
  status : Z;
  json : value
}.

(** [NextResponse.json(body, { status })]. *)
Definition NextResponse_json (body : value) (status : Z) : response :=
  {| status := status; json := body |}.

(** [process.env.NAME]. *)
Definition env (w : World) (name : string) : value :=
  match process_env w name with
  | Some s => VStr s
  | None => VUndefined
  end.

(** [registerUserSchema.parse(body)]. *)
Definition registerUserSchema_parse (w : World) (body : value) : Prog RegisterData :=
  match registerUserSchema w body with
  | Valid data => Ret data
  | Invalid issue more message => Raise (ZodError (issue :: more) message)
  end.

(** ** The catch block

    The two handlers end in the same catch block (lines 125-175 of the
    Supabase handler, lines 98-148 of [route.ts]). *)
Definition catch_block (w : World) (error : value) : Prog response :=
  console console_error "❌ Registration error details:" [error];;
  (* Handle Zod validation errors *)
  name ← get error "name";
  if strict_eq_string name "ZodError" then
    issues ← get error "issues";
    console console_error "❌ Validation error:" [issues];;
    mret (NextResponse_json
            (obj [("success", VBool false);
                  ("message", VStr "Invalid input data");
                  ("details", issues)])
            400)
  else
  (* Handle database connection errors *)
  connection ← or_else (message_includes error "connect")
                       (message_includes error "ENOTFOUND");
  if truthy connection then
    console console_error "❌ Database connection error" [];;
    mret (NextResponse_json
            (obj [("success", VBool false);
                  ("message", VStr "Database connection failed. Please check your DATABASE_URL.")])
            500)
  else
  (* Handle database constraint errors *)
  constraint ← or_else (message_includes error "duplicate key")
                       (message_includes error "unique constraint");
  if truthy constraint then
    console console_error "❌ Duplicate email error" [];;
    mret (NextResponse_json
            (obj [("success", VBool false);
                  ("message", VStr "Email already exists")])
            400)
  else
  (* Handle missing table errors *)
  missing ← and_then (message_includes error "relation")
                     (message_includes error "does not exist");
  if truthy missing then
    console console_error "❌ Database tables not found - SQL schema may not have been run" [];;
    mret (NextResponse_json
            (obj [("success", VBool false);
                  ("message", VStr "Database tables not found. Please run the SQL schema in Supabase first.")])
            500)
  else
  underlying ← (if strict_eq_string (env w "NODE_ENV") "development"
                then get error "message" else Ret VUndefined);
  mret (NextResponse_json
          (obj [("success", VBool false);
                ("message", VStr "Internal server error");
                ("error", underlying)])
          500).

(** ** The Supabase handler *)

Module Supabase.

Definition saltRounds : Z := 12.

(** Line 81: [Math.floor(100000 + Math.random() * 900000).toString()], the
    product and the sum rounded as the doubles they are. *)
Definition verificationCode (random : Q) : string :=
  Number_toString (Math_floor (Number_add 100000 (Number_multiply random 900000))).

(** Line 82: the time value of [new Date(Date.now() + 15 * 60 * 1000)]. *)
Definition expiresAt (now : Z) : Z := now + 15 * 60 * 1000.

(** Lines 61-76: the record handed to [db.users.create]. *)
Definition new_user_record (validatedData : RegisterData) (passwordHash : string)
    (terms_accepted_at : string) : value :=
  obj [("email", VStr (email validatedData));
       ("password_hash", VStr passwordHash);
       ("first_name", VStr (firstName validatedData));
       ("last_name", or_value (optional (lastName validatedData)) VNull);
       ("phone", or_value (optional (phone validatedData)) VNull);
       ("role", VStr (role validatedData));
       ("school_id", or_value (optional (schoolId validatedData)) VNull);
       ("business_reg_number", or_value (optional (businessRegNumber validatedData)) VNull);
       ("address", or_value (optional (address validatedData)) VNull);
       ("profile_image_url", or_value (optional (profileImageUrl validatedData)) VNull);
       ("terms_accepted", VBool (termsAccepted validatedData));
       ("terms_accepted_at", VStr terms_accepted_at);
       ("verified_status",
         VBool (if String.eqb (role validatedData) "agent" then false else true));
       ("email_verified", VBool false)].

(** Lines 87-90: the fields of the verification-code update. *)
Definition verification_fields (w : World) (code : string) (expires : Z) : value :=
  obj [("verification_code", VStr code);
       ("verification_code_expires", VStr (toISOString w expires))].

(** Line 98. *)
Definition userName (w : World) (validatedData : RegisterData) : string :=
  trim w (firstName validatedData +:+ " " +:+ default "" (lastName validatedData)).

(** Lines 100-103. *)
Definition verification_mail (validatedData : RegisterData) (html : string) : value :=
  obj [("to", VStr (email validatedData));
       ("subject", VStr "Verify Your k-H Account");
       ("html", VStr html)].

Definition message : string :=
  "Registration successful! Please check your email to verify your account before signing in.".

(** Lines 11-123: the body of the [try]. *)
Definition try_block (w : World) : Prog response :=
  (* Check environment variables first *)
  if negb (truthy (env w "SUPABASE_URL")) then
    console console_error "❌ SUPABASE_URL not set" [];;
    mret (NextResponse_json
            (obj [("success", VBool false);
                  ("message", VStr "Supabase configuration missing")])
            500)
  else
  if negb (truthy (env w "SUPABASE_ANON_KEY")) then
    console console_error "❌ SUPABASE_ANON_KEY not set" [];;
    mret (NextResponse_json
            (obj [("success", VBool false);
                  ("message", VStr "Supabase anon key missing")])
            500)
  else
  console console_log "✅ Environment variables check passed" [];;
  body ← invoke request_json;
  console console_log "📝 Request body received:"
    [VObj (<["password" := VStr "[HIDDEN]"]> (own_props body))];;
  (* Validate input *)
  validatedData ← registerUserSchema_parse w body;
  console console_log "✅ Input validation passed" [];;
  console console_log "✅ Using Supabase client for database operations" [];;
  (* Check if user already exists *)
  console console_log "🔍 Checking if user exists..." [];;
  existingUser ← invoke (db_users_findByEmail (email validatedData));
  if truthy existingUser then
    console console_log "❌ User already exists:" [VStr (email validatedData)];;
    mret (NextResponse_json
            (obj [("success", VBool false);
                  ("message", VStr "User with this email already exists")])
            400)
  else
  console console_log "✅ Email is available" [];;
  (* Hash password *)
  console console_log "🔐 Hashing password..." [];;
  passwordHash ← invoke (bcrypt_hash (password validatedData) saltRounds);
  console console_log "✅ Password hashed" [];;
  (* Create user *)
  console console_log "👤 Creating user in database..." [];;
  terms_accepted_at ← invoke new_Date;
  newUser ← invoke (db_users_create
                     (new_user_record validatedData passwordHash
                        (toISOString w terms_accepted_at)));
  newUser_email ← get newUser "email";
  console console_log "✅ User created successfully:" [newUser_email];;
  (* Generate verification code and send email *)
  random ← invoke Math_random;
  now ← invoke Date_now;
  (* Update user with verification code *)
  newUser_id ← get newUser "id";
  updated ← invoke (supabase_users_update
                     (verification_fields w (verificationCode random) (expiresAt now))
                     newUser_id);
  updateError ← destructure updated "error";
  (if truthy updateError
   then console console_warn "⚠️ Could not store verification code:" [updateError]
   else mret tt);;
  (* Send verification email *)
  html ← invoke (generateVerificationEmail (verificationCode random)
                  (userName w validatedData));
  emailResult ← invoke (sendEmail (verification_mail validatedData html));
  emailResult_success ← get emailResult "success";
  (if negb (truthy emailResult_success)
   then console console_warn "⚠️ Could not send verification email" []
   else mret tt);;
  (* For agents, the trigger should automatically add them to verification queue *)
  (if String.eqb (role validatedData) "agent"
   then console console_log
          "🔄 Agent registered - should be added to verification queue by trigger" []
   else mret tt);;
  (* Remove password hash from response *)
  userWithoutPassword ← destructure_rest newUser "password_hash";
  mret (NextResponse_json
          (obj [("success", VBool true);
                ("user", userWithoutPassword);
                ("message", VStr message)])
          201).

(** Lines 7-177. *)
Definition POST (w : World) : Prog response :=
  console console_log "🔍 Registration API called" [];;
  try_catch (try_block w) (catch_block w).

(** One request: the trace and the completion of the handler. *)
Definition handle (w : World) : list event * completion response :=
  run w (POST w).

(** The values one request meets on its way to a created user, named as
    the handler names them. *)
Record steps : Type := {
  body : value;
  validatedData : RegisterData;
  existingUser : value;
  passwordHash : string;
  terms_accepted_at : Z;
  newUser : value;
  random : Q;
  now : Z;
  updated : value;
  html : string;
  emailResult : value
}.

(** Lines 12 and 20: both settings are present. *)
Definition configured (w : World) : Prop :=
  truthy (env w "SUPABASE_URL") = true ∧ truthy (env w "SUPABASE_ANON_KEY") = true.

(** The request carries [body], which the schema accepts as [data]. *)
Definition validates (w : World) (body : value) (data : RegisterData) : Prop :=
  configured w ∧
  answer w request_json = Normal body ∧
  registerUserSchema w body = Valid data.

(** The record of the insert. *)
Definition stored (w : World) (s : steps) : value :=
  new_user_record (validatedData s) (passwordHash s)
    (toISOString w (terms_accepted_at s)).

(** The request reaches the insert and the insert answers a row. *)
Definition inserts (w : World) (s : steps) : Prop :=
  validates w (body s) (validatedData s) ∧
  answer w (db_users_findByEmail (email (validatedData s))) = Normal (existingUser s) ∧
  truthy (existingUser s) = false ∧
  answer w (bcrypt_hash (password (validatedData s)) saltRounds) = Normal (passwordHash s) ∧
  answer w new_Date = Normal (terms_accepted_at s) ∧
  answer w (db_users_create (stored w s)) = Normal (newUser s) ∧
  nullish (newUser s) = false.

(** The fields of the update of the request. *)
Definition verification (w : World) (s : steps) : value :=
  verification_fields w (verificationCode (random s)) (expiresAt (now s)).

(** After the insert every collaborator answers: the update and the email
    helper report their outcome in the result they return. *)
Definition completes (w : World) (s : steps) : Prop :=
  inserts w s ∧
  answer w Math_random = Normal (random s) ∧
  answer w Date_now = Normal (now s) ∧
  answer w (supabase_users_update (verification w s) (field (newUser s) "id"))
    = Normal (updated s) ∧
  nullish (updated s) = false ∧
  answer w (generateVerificationEmail (verificationCode (random s))
              (userName w (validatedData s))) = Normal (html s) ∧
  answer w (sendEmail (verification_mail (validatedData s) (html s)))
    = Normal (emailResult s) ∧
  nullish (emailResult s) = false.

(** Lines 115-123: the response of a registration. *)
Definition created (s : steps) : response :=
  NextResponse_json
    (obj [("success", VBool true);
          ("user", VObj (delete "password_hash" (own_props (newUser s))));
          ("message", VStr message)])
    201.

(** Lines 93-95 and 105-107: the warnings of a registration. *)
Definition warnings (s : steps) : list string :=
  (if truthy (field (updated s) "error")
   then ["⚠️ Could not store verification code:"] else []) ++
  (if truthy (field (emailResult s) "success")
   then [] else ["⚠️ Could not send verification email"]).

(** The collaborator calls of a registration, in order. *)
Definition registration_calls (w : World) (s : steps) : list call :=
  [request_json;
   db_users_findByEmail (email (validatedData s));
   bcrypt_hash (password (validatedData s)) saltRounds;
   new_Date;
   db_users_create (stored w s);
   Math_random;
   Date_now;
   supabase_users_update (verification w s) (field (newUser s) "id");
   generateVerificationEmail (verificationCode (random s)) (userName w (validatedData s));
   sendEmail (verification_mail (validatedData s) (html s))].

End Supabase.

(** ** The Drizzle handler, [src/app/api/auth/register/route.ts] *)

Module Drizzle.

Definition saltRounds : Z := 12.

(** Lines 74-84: the values of the insert. *)
Definition new_user_values (validatedData : RegisterData) (passwordHash : string) : value :=
  obj [("email", VStr (email validatedData));
       ("passwordHash", VStr passwordHash);
       ("firstName", VStr (firstName validatedData));
       ("lastName", optional (lastName validatedData));
       ("phone", optional (phone validatedData));
       ("role", VStr (role validatedData));
       ("schoolId", optional (schoolId validatedData));
       ("businessRegNumber", optional (businessRegNumber validatedData));
       ("verifiedStatus",
         VBool (if String.eqb (role validatedData) "agent" then false else true))].

(** [const [x] = rows]. *)
Definition first (rows : list value) : value := default VUndefined (head rows).

(** Lines 40-47: the connection test and its own catch block. *)
Definition connection_test (w : World) : Prog unit :=
  try_catch
    (invoke db_select_users_limit_1;;
     console console_log "✅ Database query test successful" [])
    (fun dbError =>
       console console_error "❌ Database query test failed:" [dbError];;
       dbError_message ← get dbError "message";
       text ← interpolate w dbError_message;
       Raise (Error ("Database connection test failed: " +:+ text))).

(** Lines 11-96: the body of the [try]. *)
Definition try_block (w : World) : Prog response :=
  (* Check environment variables first *)
  if negb (truthy (env w "DATABASE_URL")) then
    console console_error "❌ DATABASE_URL not set" [];;
    mret (NextResponse_json
            (obj [("success", VBool false);
                  ("message", VStr "Database configuration missing")])
            500)
  else
  if negb (truthy (env w "SUPABASE_URL")) then
    console console_error "❌ SUPABASE_URL not set" [];;
    mret (NextResponse_json
            (obj [("success", VBool false);
                  ("message", VStr "Supabase configuration missing")])
            500)
  else
  console console_log "✅ Environment variables check passed" [];;
  body ← invoke request_json;
  console console_log "📝 Request body received:"
    [VObj (<["password" := VStr "[HIDDEN]"]> (own_props body))];;
  (* Validate input *)
  validatedData ← registerUserSchema_parse w body;
  console console_log "✅ Input validation passed" [];;
  invoke getDb;;
  console console_log "✅ Database connection established" [];;
  (* Test connection with a simple query *)
  connection_test w;;
  (* Check if user already exists *)
  existing ← invoke (db_select_users_where_email (email validatedData));
  let existingUser := first existing in
  if truthy existingUser then
    console console_log "❌ User already exists:" [VStr (email validatedData)];;
    mret (NextResponse_json
            (obj [("success", VBool false);
                  ("message", VStr "User with this email already exists")])
            400)
  else
  console console_log "✅ Email is available" [];;
  (* Hash password *)
  passwordHash ← invoke (bcrypt_hash (password validatedData) saltRounds);
  console console_log "✅ Password hashed" [];;
  (* Create user *)
  inserted ← invoke (db_insert_users_returning
                      (new_user_values validatedData passwordHash));
  let newUser := first inserted in
  newUser_email ← get newUser "email";
  console console_log "✅ User created successfully:" [newUser_email];;
  (* Remove password hash from response *)
  userWithoutPassword ← destructure_rest newUser "passwordHash";
  mret (NextResponse_json
          (obj [("success", VBool true);
                ("user", userWithoutPassword);
                ("message", VStr "Registration successful")])
          201).

(** Lines 7-149. *)
Definition POST (w : World) : Prog response :=
  console console_log "🔍 Registration API called" [];;
  try_catch (try_block w) (catch_block w).

Definition handle (w : World) : list event * completion response :=
  run w (POST w).

Record steps : Type := {
  body : value;
  validatedData : RegisterData;
  probe : list value;
  existing : list value;
  passwordHash : string;
  inserted : list value
}.

(** Lines 12 and 20: both settings are present. *)
Definition configured (w : World) : Prop :=
  truthy (env w "DATABASE_URL") = true ∧ truthy (env w "SUPABASE_URL") = true.

Definition validates (w : World) (body : value) (data : RegisterData) : Prop :=
  configured w ∧
  answer w request_json = Normal body ∧
  registerUserSchema w body = Valid data.

(** Lines 37-47: the database handle and the test query. *)
Definition connects (w : World) (probe : list value) : Prop :=
  answer w getDb = Normal tt ∧
  answer w db_select_users_limit_1 = Normal probe.

Definition stored (s : steps) : value :=
  new_user_values (validatedData s) (passwordHash s).

(** The request reaches the insert and the insert answers a row. *)
Definition completes (w : World) (s : steps) : Prop :=
  validates w (body s) (validatedData s) ∧
  connects w (probe s) ∧
  answer w (db_select_users_where_email (email (validatedData s))) = Normal (existing s) ∧
  truthy (first (existing s)) = false ∧
  answer w (bcrypt_hash (password (validatedData s)) saltRounds) = Normal (passwordHash s) ∧
  answer w (db_insert_users_returning (stored s)) = Normal (inserted s) ∧
  nullish (first (inserted s)) = false.

(** Lines 90-96: the response of a registration. *)
Definition created (s : steps) : response :=
  NextResponse_json
    (obj [("success", VBool true);
          ("user", VObj (delete "passwordHash" (own_props (first (inserted s)))));
          ("message", VStr "Registration successful")])
    201.

Definition registration_calls (s : steps) : list call :=
  [request_json;
   getDb;
   db_select_users_limit_1;
   db_select_users_where_email (email (validatedData s));
   bcrypt_hash (password (validatedData s)) saltRounds;
   db_insert_users_returning (stored s)].

End Drizzle.

(** ** The two handlers side by side *)

Inductive variant : Type := supabase | drizzle.

Definition try_block (v : variant) : World -> Prog response :=
  match v with
  | supabase => Supabase.try_block
  | drizzle => Drizzle.try_block
  end.

Definition handle (v : variant) : World -> list event * completion response :=
  match v with
  | supabase => Supabase.handle
  | drizzle => Drizzle.handle
  end.

(** The try block of the request throws [e]. *)
Definition throws (v : variant) (w : World) (e : value) : Prop :=
  (run w (try_block v w)).2 = Throw e.

(** The collaborator of a call, as the source names it. *)
Definition call_name (c : call) : string :=
  match c with
  | request_json => "request.json"
  | db_users_findByEmail _ => "db.users.findByEmail"
  | bcrypt_hash _ _ => "bcrypt.hash"
  | new_Date => "new Date"
  | db_users_create _ => "db.users.create"
  | Math_random => "Math.random"
  | Date_now => "Date.now"
  | supabase_users_update _ _ => "db.supabase.from('users').update"
  | generateVerificationEmail _ _ => "generateVerificationEmail"
  | sendEmail _ => "sendEmail"
  | getDb => "getDb"
  | db_select_users_limit_1 => "db.select().from(users).limit"
  | db_select_users_where_email _ => "db.select().from(users).where"
  | db_insert_users_returning _ => "db.insert(users).values"
  end.

(** The calls that change something outside the handler or that the
    duplicate-email branch must not reach: hashing, the insert, the
    verification-code update and the email. *)
Definition side_effect (c : call) : bool :=
  match c with
  | bcrypt_hash _ _
  | db_users_create _
  | supabase_users_update _ _
  | sendEmail _
  | db_insert_users_returning _ => true
  | _ => false
  end.


(** ** The responses of the catch block *)

Definition invalid_input (issues : value) : response :=
  NextResponse_json
    (obj [("success", VBool false);
          ("message", VStr "Invalid input data");
          ("details", issues)])
    400.

Definition connection_failed : response :=
  NextResponse_json
    (obj [("success", VBool false);
          ("message", VStr "Database connection failed. Please check your DATABASE_URL.")])
    500.

Definition email_already_exists : response :=
  NextResponse_json
    (obj [("success", VBool false);
          ("message", VStr "Email already exists")])
    400.

Definition tables_not_found : response :=
  NextResponse_json
    (obj [("success", VBool false);
          ("message", VStr "Database tables not found. Please run the SQL schema in Supabase first.")])
    500.

Definition internal_server_error (underlying : value) : response :=
  NextResponse_json
    (obj [("success", VBool false);
          ("message", VStr "Internal server error");
          ("error", underlying)])
    500.

(** The responses of the early exits of the try blocks. *)
Definition failure (text : string) (status : Z) : response :=
  NextResponse_json (obj [("success", VBool false); ("message", VStr text)]) status.

(** Whether [error.message?.includes(needle)] is truthy, for a message that
    can be searched. *)
Definition mentions (e : value) (needle : string) : bool :=
  match field e "message" with
  | VStr s => includes needle s
  | VArr l => existsb (fun x => strict_eq_string x needle) l
  | _ => false
  end.

Definition is_ZodError (e : value) : bool :=
  strict_eq_string (field e "name") "ZodError".

(** The messages [?.includes] can be applied to without throwing. *)
Definition searchable (m : value) : bool :=
  match m with
  | VUndefined | VNull | VStr _ | VArr _ => true
  | _ => false
  end.

(** The thrown values the catch block maps to a response: not [null] or
    [undefined], and either named ZodError or with a searchable message. *)
Definition classifiable (e : value) : bool :=
  negb (nullish e) && (is_ZodError e || searchable (field e "message")).

(** The classification in the words of the specification: an ordered list of
    rules; the first rule whose condition holds decides the response. *)
Definition rules (w : World) (e : value) : list (bool * response) :=
  [(is_ZodError e, invalid_input (field e "issues"));
   (mentions e "connect" || mentions e "ENOTFOUND", connection_failed);
   (mentions e "duplicate key" || mentions e "unique constraint", email_already_exists);
   (mentions e "relation" && mentions e "does not exist", tables_not_found);
   (true,
    internal_server_error
      (if strict_eq_string (env w "NODE_ENV") "development"
       then field e "message" else VUndefined))].

Fixpoint first_match (rs : list (bool * response)) : option response :=
  match rs with
  | [] => None
  | (true, r) :: _ => Some r
  | (false, _) :: rs' => first_match rs'
  end.

(** ** A concrete world

    A deployment to run the handlers on: a schema that requires the five
    mandatory fields of the data model, a store that knows a list of
    registered emails, and collaborators that succeed or fail as told. *)

Module Sample.

Definition string_field (m : gmap string value) (k : string) : option string :=
  match m !! k with
  | Some (VStr s) => Some s
  | _ => None
  end.

Definition bool_field (m : gmap string value) (k : string) : option bool :=
  match m !! k with
  | Some (VBool b) => Some b
  | _ => None
  end.

Definition issue (k : string) : value :=
  obj [("path", VArr [VStr k]); ("message", VStr "Required")].

Definition missing_strings (m : gmap string value) (ks : list string) : list value :=
  flat_map (fun k => if string_field m k is Some _ then [] else [issue k]) ks.

Definition issues (m : gmap string value) : list value :=
  missing_strings m ["email"; "password"; "firstName"; "role"] ++
  (if bool_field m "termsAccepted" is Some _ then [] else [issue "termsAccepted"]).

Definition data (m : gmap string value) : RegisterData :=
  {| email := default "" (string_field m "email");
     password := default "" (string_field m "password");
     firstName := default "" (string_field m "firstName");
     lastName := string_field m "lastName";
     phone := string_field m "phone";
     role := default "" (string_field m "role");
     schoolId := string_field m "schoolId";
     businessRegNumber := string_field m "businessRegNumber";
     address := string_field m "address";
     profileImageUrl := string_field m "profileImageUrl";
     termsAccepted := default false (bool_field m "termsAccepted") |}.

(** Modelled from the spec: a registration schema with the required fields
    of the RegistrationRequest of the data model. *)
Definition schema (body : value) : schema_result :=
  match issues (own_props body) with
  | [] => Valid (data (own_props body))
  | i :: more => Invalid i more "Required"
  end.

Record setup : Type := {
  variables : list (string * string);
  request : completion value;
  registered : list string;
  insert_error : option value;
  update_result : completion value;
  send_result : completion value;
  random : Q;
  clock : Z
}.

Definition stored_row (user : value) : value :=
  VObj (<["id" := VStr "u-1"]> (own_props user)).

Definition collaborators (s : setup) (c : call) : completion (answer_type c) :=
  match c with
  | request_json => request s
  | db_users_findByEmail e =>
      Normal (if bool_decide (e ∈ registered s) then obj [("email", VStr e)] else VNull)
  | bcrypt_hash data rounds => Normal ("$2b$" +:+ pretty rounds +:+ "$" +:+ String.rev data)
  | new_Date => Normal (clock s)
  | db_users_create user =>
      match insert_error s with
      | Some e => Throw e
      | None => Normal (stored_row user)
      end
  | Math_random => Normal (random s)
  | Date_now => Normal (clock s + 1)
  | supabase_users_update _ _ => update_result s
  | generateVerificationEmail code name => Normal ("<p>" +:+ name +:+ ": " +:+ code +:+ "</p>")
  | sendEmail _ => send_result s
  | getDb => Normal tt
  | db_select_users_limit_1 => Normal []
  | db_select_users_where_email e =>
      Normal (if bool_decide (e ∈ registered s) then [obj [("email", VStr e)]] else [])
  | db_insert_users_returning user =>
      match insert_error s with
      | Some e => Throw e
      | None => Normal [stored_row user]
      end
  end.

Fixpoint trim_start (s : string) : string :=
  match s with
  | String " " rest => trim_start rest
  | _ => s
  end.

Definition trim_spaces (s : string) : string :=
  String.rev (trim_start (String.rev (trim_start s))).

(** The conversion to a string of the sample world: the decimal notation of
    an integer, the elements of an array joined by commas, [[object Object]]
    for an object, and a TypeError for an object with an own [toString]
    property, which is not a function (no value of the model is). *)
Definition element_text (x : value) : string :=
  match x with
  | VBool b => if b then "true" else "false"
  | VNum n => pretty n
  | VStr s => s
  | _ => ""
  end.

Definition to_text (v : value) : completion string :=
  match v with
  | VNum n => Normal (pretty n)
  | VArr l => Normal (String.concat "," (element_text <$> l))
  | VObj m =>
      if m !! "toString" is Some _
      then Throw (TypeError "Cannot convert object to primitive value")
      else Normal "[object Object]"
  | _ => Normal ""
  end.

Definition world (s : setup) : World :=
  {| process_env := fun name => list_to_map (M := gmap string string) (variables s) !! name;
     registerUserSchema := schema;
     answer := collaborators s;
     toISOString := fun ms => pretty ms;
     trim := trim_spaces;
     toString := to_text |}.

Definition configured : list (string * string) :=
  [("SUPABASE_URL", "https://project.supabase.co");
   ("SUPABASE_ANON_KEY", "anon");
   ("DATABASE_URL", "postgres://db")].

(** The payload of the concrete scenario of the specification. *)
Definition payload : value :=
  obj [("email", VStr "a@b.com");
       ("password", VStr "Secret123!");
       ("firstName", VStr "A");
       ("role", VStr "buyer");
       ("termsAccepted", VBool true)].

Definition ok : value := obj [("error", VNull)].
Definition sent : value := obj [("success", VBool true)].

Definition fresh : setup :=
  {| variables := configured;
     request := Normal payload;
     registered := [];
     insert_error := None;
     update_result := Normal ok;
     send_result := Normal sent;
     random := 1 # 2;
     clock := 1700000000000 |}.

(** The same request when the email is already registered. *)
Definition taken : setup :=
  {| variables := configured;
     request := Normal payload;
     registered := ["a@b.com"];
     insert_error := None;
     update_result := Normal ok;
     send_result := Normal sent;
     random := 1 # 2;
     clock := 1700000000000 |}.

(** The update reports an error and the email helper reports a failure. *)
Definition degraded : setup :=
  {| variables := configured;
     request := Normal payload;
     registered := [];
     insert_error := None;
     update_result := Normal (obj [("error", obj [("message", VStr "column not found")])]);
     send_result := Normal (obj [("success", VBool false)]);
     random := 0;
     clock := 1700000000000 |}.

(** The email helper throws instead of reporting. *)
Definition email_throws : setup :=
  {| variables := configured;
     request := Normal payload;
     registered := [];
     insert_error := None;
     update_result := Normal ok;
     send_result := Throw (Error "SMTP timeout");
     random := 1 # 2;
     clock := 1700000000000 |}.

(** No environment variable is set. *)
Definition unconfigured : setup :=
  {| variables := [];
     request := Normal payload;
     registered := [];
     insert_error := None;
     update_result := Normal ok;
     send_result := Normal sent;
     random := 1 # 2;
     clock := 1700000000000 |}.


(** The insert throws [e]. *)
Definition insert_throws (e : value) : setup :=
  {| variables := ("NODE_ENV", "development") :: configured;
     request := Normal payload;
     registered := [];
     insert_error := Some e;
     update_result := Normal ok;
     send_result := Normal sent;
     random := 1 # 2;
     clock := 1700000000000 |}.

(** Reading the body of the request throws [e]. *)
Definition request_throws (e : value) : setup :=
  {| variables := configured;
     request := Throw e;
     registered := [];
     insert_error := None;
     update_result := Normal ok;
     send_result := Normal sent;
     random := 1 # 2;
     clock := 1700000000000 |}.

Definition answered {A : Type} (d : A) (r : completion A) : A :=
  match r with
  | Normal a => a
  | Throw _ => d
  end.

(** The steps of the Supabase handler in the world of a setup. *)
Definition supabase_steps (s : setup) : Supabase.steps :=
  let body := answered VUndefined (request s) in
  let validatedData := data (own_props body) in
  let passwordHash :=
    answered "" (collaborators s
                   (bcrypt_hash (password validatedData) Supabase.saltRounds)) in
  let newUser :=
    stored_row (Supabase.new_user_record validatedData passwordHash (pretty (clock s))) in
  let html :=
    answered "" (collaborators s
                   (generateVerificationEmail (Supabase.verificationCode (random s))
                      (Supabase.userName (world s) validatedData))) in
  {| Supabase.body := body;
     Supabase.validatedData := validatedData;
     Supabase.existingUser := VNull;
     Supabase.passwordHash := passwordHash;
     Supabase.terms_accepted_at := clock s;
     Supabase.newUser := newUser;
     Supabase.random := random s;
     Supabase.now := clock s + 1;
     Supabase.updated := answered VUndefined (update_result s);
     Supabase.html := html;
     Supabase.emailResult := answered VUndefined (send_result s) |}.

(** The steps of the Drizzle handler in the world of a setup. *)
Definition drizzle_steps (s : setup) : Drizzle.steps :=
  let body := answered VUndefined (request s) in
  let validatedData := data (own_props body) in
  let passwordHash :=
    answered "" (collaborators s
                   (bcrypt_hash (password validatedData) Drizzle.saltRounds)) in
  {| Drizzle.body := body;
     Drizzle.validatedData := validatedData;
     Drizzle.probe := [];
     Drizzle.existing := [];
     Drizzle.passwordHash := passwordHash;
     Drizzle.inserted := [stored_row (Drizzle.new_user_values validatedData passwordHash)] |}.

End Sample.


(** ** The order of the calls *)

(** The collaborators of a handler in the order of its source. *)
Definition pipeline (v : variant) : list string :=
  match v with
  | supabase =>
      ["request.json"; "db.users.findByEmail"; "bcrypt.hash"; "new Date";
       "db.users.create"; "Math.random"; "Date.now";
       "db.supabase.from('users').update"; "generateVerificationEmail"; "sendEmail"]
  | drizzle =>
      ["request.json"; "getDb"; "db.select().from(users).limit";
       "db.select().from(users).where"; "bcrypt.hash"; "db.insert(users).values"]
  end.

(** The number of the verification code: line 81 before [toString()]. *)
Definition code_number (random : Q) : Z :=
  Math_floor (Number_add 100000 (Number_multiply random 900000)).

(** [!process.env.NAME]: the variable is unset or set to the empty string. *)
Definition missing (w : World) (name : string) : Prop :=
  process_env w name = None ∨ process_env w name = Some "".

(** The request of the Supabase handler reaches the insert with the record of
    [s]: whatever the insert then answers. *)
Definition supabase_reaches_insert (w : World) (s : Supabase.steps) : Prop :=
  Supabase.validates w (Supabase.body s) (Supabase.validatedData s) ∧
  answer w (db_users_findByEmail (email (Supabase.validatedData s)))
    = Normal (Supabase.existingUser s) ∧
  truthy (Supabase.existingUser s) = false ∧
  answer w (bcrypt_hash (password (Supabase.validatedData s)) Supabase.saltRounds)
    = Normal (Supabase.passwordHash s) ∧
  answer w new_Date = Normal (Supabase.terms_accepted_at s).

(** The same for the Drizzle handler. *)
Definition drizzle_reaches_insert (w : World) (s : Drizzle.steps) : Prop :=
  Drizzle.validates w (Drizzle.body s) (Drizzle.validatedData s) ∧
  Drizzle.connects w (Drizzle.probe s) ∧
  answer w (db_select_users_where_email (email (Drizzle.validatedData s)))
    = Normal (Drizzle.existing s) ∧
  truthy (Drizzle.first (Drizzle.existing s)) = false ∧
  answer w (bcrypt_hash (password (Drizzle.validatedData s)) Drizzle.saltRounds)
    = Normal (Drizzle.passwordHash s).

(** Lines 12 and 20 of either handler: both settings are present. *)
Definition configured (v : variant) : World -> Prop :=
  match v with
  | supabase => Supabase.configured
  | drizzle => Drizzle.configured
  end.

(** What [field || null] stores for an optional field [o] of the validated
    data: null when the field is absent or the empty string, the text of the
    field otherwise. *)
Definition null_unless_text (o : option string) (stored : value) : Prop :=
  (o = None ∨ o = Some "" → stored = VNull) ∧
  (∀ text, o = Some text → text ≠ "" → stored = VStr text) ∧
  stored ≠ VUndefined ∧
  stored ≠ VStr "".

(** What passing an optional field [o] on as it is stores: undefined when the
    field is absent, its text otherwise, the empty string included. *)
Definition passed_on (o : option string) (stored : value) : Prop :=
  (o = None → stored = VUndefined) ∧
  (∀ text, o = Some text → stored = VStr text).

(** ** The substrings of the classification

    [needle] occurs in [hay], said without the search of [includes]. *)
Definition contains (needle hay : string) : Prop :=
  ∃ pre post, hay = pre +:+ needle +:+ post.

(** The three conditions on the message of an error, in the words of the
    specification. *)
Definition connectivity_message (m : string) : Prop :=
  contains "connect" m ∨ contains "ENOTFOUND" m.

Definition uniqueness_message (m : string) : Prop :=
  contains "duplicate key" m ∨ contains "unique constraint" m.

Definition missing_relation_message (m : string) : Prop :=
  contains "relation" m ∧ contains "does not exist" m.

(** ** More concrete worlds *)

(** The world of a setup with other answers of the collaborators. *)
Definition answering (s : Sample.setup)
    (answers : forall c : call, completion (answer_type c)) : World :=
  {| process_env := process_env (Sample.world s);
     registerUserSchema := Sample.schema;
     answer := answers;
     toISOString := toISOString (Sample.world s);
     trim := Sample.trim_spaces;
     toString := Sample.to_text |}.

(** The test query of the Drizzle handler throws [e]. *)
Definition failing_probe (s : Sample.setup) (e : value) (c : call) :
    completion (answer_type c) :=
  match c with
  | db_select_users_limit_1 => Throw e
  | c' => Sample.collaborators s c'
  end.

(** The insert answers without a row. *)
Definition empty_insert (s : Sample.setup) (c : call) : completion (answer_type c) :=
  match c with
  | db_users_create _ => Normal VNull
  | db_insert_users_returning _ => Normal []
  | c' => Sample.collaborators s c'
  end.

(** SUPABASE_URL is set to the empty string. *)
Definition empty_url : Sample.setup :=
  {| Sample.variables := [("SUPABASE_URL", ""); ("DATABASE_URL", "postgres://db")];
     Sample.request := Normal Sample.payload;
     Sample.registered := [];
     Sample.insert_error := None;
     Sample.update_result := Normal Sample.ok;
     Sample.send_result := Normal Sample.sent;
     Sample.random := 1 # 2;
     Sample.clock := 1700000000000 |}.

(** The verification-code update throws. *)
Definition update_throws : Sample.setup :=
  {| Sample.variables := Sample.configured;
     Sample.request := Normal Sample.payload;
     Sample.registered := [];
     Sample.insert_error := None;
     Sample.update_result := Throw (Error "connect ETIMEDOUT");
     Sample.send_result := Normal Sample.sent;
     Sample.random := 1 # 2;
     Sample.clock := 1700000000000 |}.

(** The verification-code update answers null instead of a result. *)
Definition update_answers_null : Sample.setup :=
  {| Sample.variables := Sample.configured;
     Sample.request := Normal Sample.payload;
     Sample.registered := [];
     Sample.insert_error := None;
     Sample.update_result := Normal VNull;
     Sample.send_result := Normal Sample.sent;
     Sample.random := 1 # 2;
     Sample.clock := 1700000000000 |}.

(** An error named ZodError whose message has a connectivity substring and a
    uniqueness substring. *)
Definition validation_error_about_the_store : value :=
  js_error "ZodError" "could not connect: duplicate key users_email_key".

(** An error whose message cannot be converted to a string. *)
Definition error_without_text : value :=
  obj [("name", VStr "Error"); ("message", obj [("toString", VNum 1)])].

(** * Properties *)

(** ** The definitions at work *)

Example includes_examples :
  includes "connect" "connect ECONNREFUSED 127.0.0.1:5432" = true ∧
  includes "connect" "ECONNREFUSED" = false ∧
  includes "ENOTFOUND" "getaddrinfo ENOTFOUND db.example.com" = true ∧
  includes "does not exist" "relation users does not exist" = true ∧
  includes "" "" = true.
Proof. repeat split; reflexivity. Qed.

(** The double written 0.7 is 6305039478318694 / 2^53, a little below 7/10:
    its exact product by 900000 is below 630000, and the product the handler
    computes is the double 630000. *)
Example round64_examples :
  (round64 (7 # 10) == 6305039478318694 # 9007199254740992)%Q ∧
  ((6305039478318694 # 9007199254740992) * 900000 < 630000)%Q ∧
  (Number_multiply (6305039478318694 # 9007199254740992) 900000 == 630000)%Q ∧
  (round64 (1 # 3) == 6004799503160661 # 18014398509481984)%Q ∧
  (round64 (9007199254740993 # 1) == 9007199254740992 # 1)%Q ∧
  (round64 (2 ^ (-1075)) == 0)%Q ∧
  (round64 (- (3) * 2 ^ (-1075)) == - 2 ^ (-1073))%Q.
Proof. repeat split; vm_compute; reflexivity. Qed.

Example verificationCode_examples :
  Supabase.verificationCode 0 = "100000" ∧
  Supabase.verificationCode (1 # 2) = "550000" ∧
  Supabase.verificationCode (6305039478318694 # 9007199254740992) = "730000" ∧
  Supabase.verificationCode (9007199254740991 # 9007199254740992) = "999999" ∧
  Supabase.expiresAt 1700000000000 = 1700000900000.
Proof. repeat split; vm_compute; reflexivity. Qed.

Example ToString_examples (w : World) :
  ToString w VUndefined = Normal "undefined" ∧
  ToString w (VStr "timeout") = Normal "timeout" ∧
  ToString (Sample.world Sample.fresh) (obj [("toString", VNum 1)])
    = Throw (TypeError "Cannot convert object to primitive value").
Proof. repeat split; reflexivity. Qed.

(** The concrete scenario of the specification: the first POST of the payload
    creates the user and answers 201 with the email and without password hash;
    the same POST once the email is registered answers 400. *)
Example scenario_first_post :
  ∃ r, (Supabase.handle (Sample.world Sample.fresh)).2 = Normal r ∧
       status r = 201 ∧
       field (field (json r) "user") "email" = VStr "a@b.com" ∧
       field (field (json r) "user") "password_hash" = VUndefined ∧
       field (field (json r) "user") "verified_status" = VBool true ∧
       field (field (json r) "user") "email_verified" = VBool false.
Proof. eexists. repeat split; vm_compute; reflexivity. Qed.

Example scenario_repeated_post :
  ∃ r, (Supabase.handle (Sample.world Sample.taken)).2 = Normal r ∧
       status r = 400 ∧
       field (json r) "message" = VStr "User with this email already exists" ∧
       call_name <$> calls (Supabase.handle (Sample.world Sample.taken)).1
         = ["request.json"; "db.users.findByEmail"].
Proof. eexists. repeat split; vm_compute; reflexivity. Qed.

Example scenario_drizzle :
  ∃ r, (Drizzle.handle (Sample.world Sample.fresh)).2 = Normal r ∧
       status r = 201 ∧
       field (field (json r) "user") "email" = VStr "a@b.com" ∧
       field (field (json r) "user") "passwordHash" = VUndefined ∧
       call_name <$> calls (Drizzle.handle (Sample.world Sample.fresh)).1
         = ["request.json"; "getDb"; "db.select().from(users).limit";
            "db.select().from(users).where"; "bcrypt.hash"; "db.insert(users).values"].
Proof. eexists. repeat split; vm_compute; reflexivity. Qed.

(** ** Runs *)

Lemma run_bind {A B : Type} (w : World) (p : Prog A) (f : A → Prog B) :
  run w (p ≫= f) =
  match run w p with
  | (tr, Normal a) => let '(tr', r) := run w (f a) in ((tr ++ tr')%list, r)
  | (tr, Throw e) => (tr, Throw e)
  end.
Proof.
  unfold mbind, Prog_bind.
  induction p as [a|e|c k IH|lvl text args k IH]; simpl.
  - by destruct (run w (f a)).
  - done.
  - rewrite IH. destruct (run w (k (answer w c))) as [tr [a|e]]; [|done].
    by destruct (run w (f a)).
  - rewrite IH. destruct (run w k) as [tr [a|e]]; [|done].
    by destruct (run w (f a)).
Qed.

Lemma run_try_catch {A : Type} (w : World) (p : Prog A) (h : value → Prog A) :
  run w (try_catch p h) =
  match run w p with
  | (tr, Normal a) => (tr, Normal a)
  | (tr, Throw e) => let '(tr', r) := run w (h e) in ((tr ++ tr')%list, r)
  end.
Proof.
  induction p as [a|e|c k IH|lvl text args k IH]; simpl.
  - done.
  - by destruct (run w (h e)).
  - rewrite IH. destruct (run w (k (answer w c))) as [tr [a|e]]; [done|].
    by destruct (run w (h e)).
  - rewrite IH. destruct (run w k) as [tr [a|e]]; [done|].
    by destruct (run w (h e)).
Qed.

Lemma get_field (v : value) (k : string) :
  nullish v = false → get v k = Ret (field v k).
Proof. by destruct v. Qed.

Lemma destructure_field (v : value) (k : string) :
  nullish v = false → destructure v k = Ret (field v k).
Proof. by destruct v. Qed.

Lemma destructure_rest_delete (v : value) (k : string) :
  nullish v = false → destructure_rest v k = Ret (VObj (delete k (own_props v))).
Proof. by destruct v. Qed.

Lemma get_cases (v : value) (k : string) :
  (nullish v = true ∧ ∃ e, get v k = Raise e) ∨
  (nullish v = false ∧ get v k = Ret (field v k)).
Proof. destruct v; simpl; eauto. Qed.

Lemma destructure_cases (v : value) (k : string) :
  (nullish v = true ∧ ∃ e, destructure v k = Raise e) ∨
  (nullish v = false ∧ destructure v k = Ret (field v k)).
Proof. destruct v; simpl; eauto. Qed.

(** Symbolic execution of a run: [exec] follows the program as far as the
    hypotheses tell what the world answers, [exec_all] also splits on the
    conditions of the program, [exec_inv] on the answers of the world, closing
    the runs that cannot end in the completion of the goal. *)
Ltac exec_cbn :=
  cbn [run try_catch bind mbind mret Prog_bind Prog_ret invoke console negb fst snd
       or_else and_then truthy interpolate].

Ltac exec_step :=
  match goal with
  | H : answer ?w ?c = _ |- context [answer ?w ?c] => rewrite H
  | H : truthy ?v = _ |- context [truthy ?v] => rewrite H
  | H : registerUserSchema ?w ?b = _ |- context [registerUserSchema ?w ?b] => rewrite H
  | H : ToString ?w ?v = _ |- context [interpolate ?w ?v] => unfold interpolate; rewrite H
  | H : nullish ?v = false |- context [get ?v ?k] => rewrite (get_field v k H)
  | H : nullish ?v = false |- context [destructure ?v ?k] => rewrite (destructure_field v k H)
  | H : nullish ?v = false |- context [destructure_rest ?v ?k] =>
      rewrite (destructure_rest_delete v k H)
  end.

Ltac exec_case b :=
  lazymatch b with
  | negb ?c => destruct c eqn:?
  | _ => destruct b eqn:?
  end.

Ltac exec_branch :=
  match goal with
  | |- context [run _ (mbind _ (if ?b then _ else _))] => exec_case b
  | |- context [run _ (try_catch (mbind _ (if ?b then _ else _)) _)] => exec_case b
  | |- context [run _ (if ?b then _ else _)] => exec_case b
  | |- context [run _ (try_catch (if ?b then _ else _) _)] => exec_case b
  end.

Ltac exec_unknown :=
  match goal with
  | |- context [answer ?w ?c] => destruct (answer w c) eqn:?
  | |- context [registerUserSchema ?w ?b] => destruct (registerUserSchema w b) eqn:?
  | |- context [interpolate ?w ?v] => unfold interpolate; destruct (ToString w v) eqn:?
  | |- context [get ?v ?k] =>
      let H := fresh in
      destruct (get_cases v k) as [[? [? H]]|[? H]]; rewrite H; clear H
  | |- context [destructure ?v ?k] =>
      let H := fresh in
      destruct (destructure_cases v k) as [[? [? H]]|[? H]]; rewrite H; clear H
  end.

Ltac exec_dead :=
  solve [ intros [=]
        | let H := fresh in intros [= _ <-]; cbn; intros H; discriminate H ].

Ltac exec := repeat (exec_cbn; try exec_step).
Ltac exec_all := exec; repeat (exec_branch; exec).
Ltac exec_inv :=
  exec; try exec_dead;
  repeat (first [exec_branch | exec_unknown]; exec; try exec_dead).

(** ** Strings *)

Lemma prefix_append (needle hay : string) :
  String.prefix needle hay = true ↔ ∃ post, hay = needle +:+ post.
Proof.
  revert needle. induction hay as [|c' hay IH]; intros [|c needle]; simpl.
  - split; [|done]. intros _. by exists "".
  - split; [done|]. by intros [post [=]].
  - split; [|done]. intros _. by exists (String c' hay).
  - destruct (Ascii.ascii_dec c c') as [<-|Hne].
    + rewrite IH.
      change (String c needle +:+ ?post) with (String c (needle +:+ post)).
      split; intros [post Hpost]; exists post; congruence.
    + split; [done|]. intros [post [=]]. congruence.
Qed.

(** [includes] is the substring test: [hay] is [needle] between two strings. *)
Lemma includes_substring (needle hay : string) :
  includes needle hay = true ↔ ∃ pre post, hay = pre +:+ needle +:+ post.
Proof.
  induction hay as [|c hay IH]; cbn [includes].
  - rewrite orb_false_r, prefix_append. split.
    + intros [post ->]. by exists "", post.
    + intros ([|c pre] & post & H); [eauto|done].
  - rewrite orb_true_iff, prefix_append, IH. split.
    + intros [[post ->]|(pre & post & ->)]; [by exists "", post|].
      by exists (String c pre), post.
    + intros ([|c' pre] & post & H); [left; eauto|right].
      injection H as -> ->. eauto.
Qed.

Lemma pretty_N_char_digit (d : N) : digit (pretty_N_char d) = true.
Proof. unfold pretty_N_char. by repeat case_match. Qed.

Lemma pretty_N_go_numeric (x : N) (s : string) :
  numeric s = true → numeric (pretty_N_go x s) = true.
Proof.
  revert s. induction (N.lt_wf_0 x) as [x _ IH]; intros s Hs.
  destruct (decide (x = 0)%N) as [->|Hx]; [by rewrite pretty_N_go_0|].
  rewrite pretty_N_go_step by lia. apply IH.
  - apply N.div_lt; lia.
  - unfold numeric in *. simpl. by rewrite pretty_N_char_digit.
Qed.

Lemma pretty_nat_numeric (i : nat) : numeric (pretty i) = true.
Proof.
  unfold pretty, pretty_nat, pretty, pretty_N.
  case_decide; [done|]. by apply pretty_N_go_numeric.
Qed.

(** The properties of a string or of an array are its indices: it has no
    property of a name that is not a number. *)
Lemma indexed_lookup_None (l : list value) (k : string) :
  numeric k = false → indexed l !! k = None.
Proof.
  intros Hk. apply not_elem_of_list_to_map_1.
  intros ([k' x] & -> & (i & y & Heq & _)%elem_of_lookup_imap)%list_elem_of_fmap.
  injection Heq as -> _. simpl in Hk. by rewrite pretty_nat_numeric in Hk.
Qed.

Lemma field_of_string (s k : string) :
  numeric k = false → field (VStr s) k = VUndefined.
Proof. intros Hk. unfold field. simpl. by rewrite indexed_lookup_None. Qed.

Lemma field_of_array (l : list value) (k : string) :
  numeric k = false → field (VArr l) k = VUndefined.
Proof. intros Hk. unfold field. simpl. by rewrite indexed_lookup_None. Qed.

(** ** The catch block *)

Lemma handle_unfold (v : variant) (w : World) :
  handle v w =
  let '(tr, r) := run w (try_catch (try_block v w) (catch_block w)) in
  (ELog console_log "🔍 Registration API called" [] :: tr, r).
Proof. by destruct v. Qed.

Lemma handle_returns (v : variant) (w : World) (r : response) :
  (run w (try_block v w)).2 = Normal r → (handle v w).2 = Normal r.
Proof.
  rewrite handle_unfold, run_try_catch.
  destruct (run w (try_block v w)) as [tr [a|e]]; cbn [snd]; congruence.
Qed.

Lemma handle_throws (v : variant) (w : World) (e : value) :
  throws v w e → (handle v w).2 = (run w (catch_block w e)).2.
Proof.
  unfold throws. rewrite handle_unfold, run_try_catch.
  destruct (run w (try_block v w)) as [tr [a|e']]; cbn [snd]; intros [= ->].
  by destruct (run w (catch_block w e)).
Qed.

(** The catch block answers a classifiable error with the response of the
    first rule that applies. *)
Lemma catch_block_first_match (w : World) (e : value) :
  classifiable e = true →
  ∃ r, first_match (rules w e) = Some r ∧ (run w (catch_block w e)).2 = Normal r.
Proof.
  unfold classifiable. intros [He Hm]%andb_prop. apply negb_true_iff in He.
  unfold catch_block, rules, message_includes, mentions, is_ZodError in *.
  rewrite !(get_field e _ He).
  exec.
  destruct (strict_eq_string (field e "name") "ZodError") eqn:Hname.
  - exec. eexists. split; reflexivity.
  - simpl in Hm. destruct (field e "message") eqn:Hmsg; try discriminate Hm.
    all: exec_all; eexists; split; reflexivity.
Qed.

(** On every other thrown value the catch block itself throws. *)
Lemma catch_block_throws (w : World) (e : value) :
  classifiable e = false → ∃ x, (run w (catch_block w e)).2 = Throw x.
Proof.
  unfold classifiable, catch_block, message_includes, is_ZodError.
  destruct (nullish e) eqn:He.
  { destruct e; try discriminate He; intros _; eexists; reflexivity. }
  rewrite !(get_field e _ He). exec.
  destruct (strict_eq_string (field e "name") "ZodError"); [done|].
  destruct (field e "message"); try done; intros _; exec; eexists; reflexivity.
Qed.

(** Whatever is thrown, a response of the catch block is a failure. *)
Lemma catch_block_failure (w : World) (e : value) (tr : list event) (r : response) :
  run w (catch_block w e) = (tr, Normal r) →
  (status r = 400 ∨ status r = 500) ∧ field (json r) "success" = VBool false.
Proof.
  unfold catch_block, message_includes.
  destruct (nullish e) eqn:He.
  { destruct e; try discriminate He; intros [=]. }
  rewrite !(get_field e _ He).
  destruct (field e "message"); exec_inv.
  all: intros [= _ <-]; split; [cbn; auto | reflexivity].
Qed.

(** A response with status 201 comes from the try block. *)
Lemma handle_created (v : variant) (w : World) (r : response) :
  (handle v w).2 = Normal r →
  status r = 201 →
  ∃ tr, run w (try_block v w) = (tr, Normal r).
Proof.
  rewrite handle_unfold, run_try_catch.
  destruct (run w (try_block v w)) as [tr [a|e]]; cbn [snd].
  - intros [= ->]. eauto.
  - destruct (run w (catch_block w e)) as [tr' [a|e']] eqn:Hcatch; cbn [snd]; [|done].
    intros [= ->] Hstatus.
    apply catch_block_failure in Hcatch as [[H|H] _]; rewrite H in Hstatus; discriminate.
Qed.

(** ** No call is repeated

    A request calls each collaborator at most once, so that a world that
    gives one answer per call describes all that the collaborators can do
    during one request; there are no retries. *)

Lemma catch_block_calls (w : World) (e : value) :
  calls (run w (catch_block w e)).1 = [].
Proof.
  unfold catch_block, message_includes.
  destruct (nullish e) eqn:He.
  { by destruct e. }
  rewrite !(get_field e _ He).
  destruct (field e "message"); exec_all; reflexivity.
Qed.

Lemma calls_app (tr tr' : list event) :
  calls (tr ++ tr') = (calls tr ++ calls tr')%list.
Proof. induction tr as [|[c|lvl text args] tr IH]; simpl; by rewrite ?IH. Qed.

Lemma handle_calls (v : variant) (w : World) :
  calls (handle v w).1 = calls (run w (try_block v w)).1.
Proof.
  rewrite handle_unfold, run_try_catch.
  destruct (run w (try_block v w)) as [tr [a|e]]; [done|].
  pose proof (catch_block_calls w e) as Hcatch.
  destruct (run w (catch_block w e)) as [tr' r]. cbn in *.
  by rewrite calls_app, Hcatch, app_nil_r.
Qed.

Ltac exec_any := exec; repeat (first [exec_branch | exec_unknown]; exec).

Ltac distinct_names :=
  apply (NoDup_fmap_1 call_name); cbn [calls fst fmap list_fmap call_name];
  apply (bool_decide_unpack _); vm_compute; reflexivity.

Lemma calls_once (v : variant) (w : World) : NoDup (calls (handle v w).1).
Proof.
  rewrite handle_calls. destruct v; cbn [try_block].
  - unfold Supabase.try_block, registerUserSchema_parse.
    exec_any; distinct_names.
  - unfold Drizzle.try_block, Drizzle.connection_test, registerUserSchema_parse.
    exec_any; distinct_names.
Qed.

(** ** The way to a created user *)

Lemma supabase_registers (w : World) (s : Supabase.steps) :
  Supabase.completes w s →
  (Supabase.handle w).2 = Normal (Supabase.created s) ∧
  calls (Supabase.handle w).1 = Supabase.registration_calls w s ∧
  logged console_warn (Supabase.handle w).1 = Supabase.warnings s.
Proof.
  intros ((((Hurl & Hkey) & Hjson & Hvalid) & Hfind & Hfresh & Hhash & Hdate & Hcreate & Hrow)
          & Hrandom & Hnow & Hupdate & Hupdated & Hhtml & Hsend & Hsent).
  unfold Supabase.handle, Supabase.POST, Supabase.try_block, registerUserSchema_parse.
  unfold Supabase.stored, Supabase.verification, Supabase.warnings in *.
  exec_all.
  all: repeat split; reflexivity.
Qed.

Lemma drizzle_registers (w : World) (s : Drizzle.steps) :
  Drizzle.completes w s →
  (Drizzle.handle w).2 = Normal (Drizzle.created s) ∧
  calls (Drizzle.handle w).1 = Drizzle.registration_calls s.
Proof.
  intros (((Hdb & Hurl) & Hjson & Hvalid) & (Hget & Hprobe) & Hfind & Hfresh & Hhash
          & Hinsert & Hrow).
  unfold Drizzle.handle, Drizzle.POST, Drizzle.try_block, Drizzle.connection_test,
    registerUserSchema_parse.
  unfold Drizzle.stored in *.
  exec_all. split; reflexivity.
Qed.

Lemma supabase_try_block_created (w : World) (tr : list event) (r : response) :
  run w (Supabase.try_block w) = (tr, Normal r) →
  status r = 201 →
  ∃ s, Supabase.completes w s.
Proof.
  unfold Supabase.try_block, registerUserSchema_parse.
  exec_inv.
  all: intros _ _; eexists (Supabase.Build_steps _ _ _ _ _ _ _ _ _ _ _).
  all: unfold Supabase.completes, Supabase.inserts, Supabase.validates, Supabase.configured,
         Supabase.stored, Supabase.verification; cbn.
  all: repeat split; eassumption.
Qed.

Lemma drizzle_try_block_created (w : World) (tr : list event) (r : response) :
  run w (Drizzle.try_block w) = (tr, Normal r) →
  status r = 201 →
  ∃ s, Drizzle.completes w s.
Proof.
  unfold Drizzle.try_block, Drizzle.connection_test, registerUserSchema_parse.
  exec_inv.
  all: intros _ _; eexists (Drizzle.Build_steps _ _ _ _ _ _).
  all: unfold Drizzle.completes, Drizzle.validates, Drizzle.configured, Drizzle.connects,
         Drizzle.stored; cbn.
  all: repeat match goal with u : answer_type getDb |- _ => destruct u end.
  all: repeat split; eassumption.
Qed.

(** Every response with status 201 is the response of a completed
    registration. *)
Lemma supabase_created_inv (w : World) (r : response) :
  (Supabase.handle w).2 = Normal r →
  status r = 201 →
  ∃ s, Supabase.completes w s ∧ r = Supabase.created s.
Proof.
  intros Hr Hstatus.
  destruct (handle_created supabase w r Hr Hstatus) as [tr Htry].
  destruct (supabase_try_block_created w tr r Htry Hstatus) as [s Hs].
  exists s. split; [done|].
  destruct (supabase_registers w s Hs) as (Hcreated & _). congruence.
Qed.

Lemma drizzle_created_inv (w : World) (r : response) :
  (Drizzle.handle w).2 = Normal r →
  status r = 201 →
  ∃ s, Drizzle.completes w s ∧ r = Drizzle.created s.
Proof.
  intros Hr Hstatus.
  destruct (handle_created drizzle w r Hr Hstatus) as [tr Htry].
  destruct (drizzle_try_block_created w tr r Htry Hstatus) as [s Hs].
  exists s. split; [done|].
  destruct (drizzle_registers w s Hs) as (Hcreated & _). congruence.
Qed.

(** ** Early exits *)

Lemma unset_falsy (w : World) (name : string) :
  process_env w name = None → truthy (env w name) = false.
Proof. unfold env. by intros ->. Qed.

Lemma supabase_configuration_missing (w : World) :
  truthy (env w "SUPABASE_URL") = false ∨ truthy (env w "SUPABASE_ANON_KEY") = false →
  ∃ text,
    (Supabase.handle w).2 = Normal (failure text 500) ∧
    text ∈ ["Supabase configuration missing"; "Supabase anon key missing"] ∧
    calls (Supabase.handle w).1 = [].
Proof.
  unfold Supabase.handle, Supabase.POST, Supabase.try_block.
  destruct (truthy (env w "SUPABASE_URL")) eqn:Hurl; intros [?|Hkey]; try discriminate.
  all: exec; eexists; (split; [reflexivity|]); (split; [|reflexivity]); set_solver.
Qed.

Lemma drizzle_configuration_missing (w : World) :
  truthy (env w "DATABASE_URL") = false ∨ truthy (env w "SUPABASE_URL") = false →
  ∃ text,
    (Drizzle.handle w).2 = Normal (failure text 500) ∧
    text ∈ ["Database configuration missing"; "Supabase configuration missing"] ∧
    calls (Drizzle.handle w).1 = [].
Proof.
  unfold Drizzle.handle, Drizzle.POST, Drizzle.try_block.
  destruct (truthy (env w "DATABASE_URL")) eqn:Hurl; intros [?|Hkey]; try discriminate.
  all: exec; eexists; (split; [reflexivity|]); (split; [|reflexivity]); set_solver.
Qed.



Lemma supabase_existing_user (w : World) (body : value) (data : RegisterData)
    (existingUser : value) :
  Supabase.validates w body data →
  answer w (db_users_findByEmail (email data)) = Normal existingUser →
  truthy existingUser = true →
  (Supabase.handle w).2 = Normal (failure "User with this email already exists" 400) ∧
  calls (Supabase.handle w).1 = [request_json; db_users_findByEmail (email data)].
Proof.
  intros ((Hurl & Hkey) & Hjson & Hvalid) Hfind Hexists.
  unfold Supabase.handle, Supabase.POST, Supabase.try_block, registerUserSchema_parse.
  exec. split; reflexivity.
Qed.

Lemma drizzle_existing_user (w : World) (body : value) (data : RegisterData)
    (probe existing : list value) :
  Drizzle.validates w body data →
  Drizzle.connects w probe →
  answer w (db_select_users_where_email (email data)) = Normal existing →
  truthy (Drizzle.first existing) = true →
  (Drizzle.handle w).2 = Normal (failure "User with this email already exists" 400) ∧
  calls (Drizzle.handle w).1 =
    [request_json; getDb; db_select_users_limit_1; db_select_users_where_email (email data)].
Proof.
  intros ((Hurl & Hkey) & Hjson & Hvalid) (Hdb & Hprobe) Hfind Hexists.
  unfold Drizzle.handle, Drizzle.POST, Drizzle.try_block, Drizzle.connection_test,
    registerUserSchema_parse.
  exec. split; reflexivity.
Qed.

(** ** Doubles

    Powers of two, the binary logarithm and the rounding to an integer; then
    the two facts about [round64] the verification code needs: it is monotone,
    and it leaves a double unchanged. *)

Lemma pow2_pos (e : Z) : (0 < 2 ^ e)%Q.
Proof. by apply Qpower_0_lt. Qed.

Lemma pow2_plus (a b : Z) : (2 ^ (a + b) == 2 ^ a * 2 ^ b)%Q.
Proof. by apply Qpower_plus. Qed.

Lemma pow2_le (a b : Z) : a ≤ b → (2 ^ a <= 2 ^ b)%Q.
Proof. intros H. by apply Qpower_le_compat_l. Qed.

Lemma pow2_lt_inv (a b : Z) : (2 ^ a < 2 ^ b)%Q → a < b.
Proof. intros H. by apply (Qpower_lt_compat_l_inv 2). Qed.

Lemma pow2_Z (n : Z) : 0 ≤ n → (2 ^ n == inject_Z (2 ^ n))%Q.
Proof. intros H. by rewrite (Zpower_Qpower 2 n H). Qed.

Lemma pow2_div (a b : Z) : (2 ^ a / 2 ^ b == 2 ^ (a - b))%Q.
Proof.
  unfold Z.sub. rewrite pow2_plus, Qpower_opp. reflexivity.
Qed.

Lemma Qlog2_spec (q : Q) :
  (0 < q)%Q → (2 ^ Qlog2 q <= q)%Q ∧ (q < 2 ^ (Qlog2 q + 1))%Q.
Proof.
  destruct q as [n d]. intros Hq.
  assert (0 < n) as Hn by (unfold Qlt in Hq; simpl in Hq; lia).
  unfold Qlog2. cbn [Qnum Qden].
  set (a := Z.log2 n). set (b := Z.log2 (Z.pos d)).
  destruct (Z.log2_spec n Hn) as [Ha1 Ha2]. fold a in Ha1, Ha2.
  destruct (Z.log2_spec (Z.pos d) eq_refl) as [Hb1 Hb2]. fold b in Hb1, Hb2.
  assert (0 ≤ a) as Ha0 by apply Z.log2_nonneg.
  assert (0 ≤ b) as Hb0 by apply Z.log2_nonneg.
  assert (n # d == inject_Z n / inject_Z (Z.pos d))%Q as Hdiv by (by rewrite Qmake_Qdiv).
  assert (2 ^ (a - b - 1) <= n # d)%Q as Hlow.
  { replace (a - b - 1) with (a - (b + 1)) by lia.
    rewrite <- pow2_div, !pow2_Z by lia.
    unfold Qle, Qdiv, Qmult, Qinv, inject_Z; simpl.
    destruct (2 ^ (b + 1)) as [|p|p] eqn:Hp; try lia. simpl. nia. }
  assert (n # d < 2 ^ (a - b + 1))%Q as Hup.
  { replace (a - b + 1) with ((a + 1) - b) by lia.
    rewrite <- pow2_div, !pow2_Z by lia.
    unfold Qlt, Qdiv, Qmult, Qinv, inject_Z; simpl.
    destruct (2 ^ b) as [|p|p] eqn:Hp; try lia. simpl.
    change (Z.succ a) with (a + 1) in Ha2. nia. }
  destruct (Qle_bool (2 ^ (a - b)) (n # d)) eqn:Htest.
  - apply Qle_bool_iff in Htest. done.
  - split; [done|]. replace (a - b - 1 + 1) with (a - b) by lia.
    apply Qnot_le_lt. intros H%Qle_bool_iff. congruence.
Qed.

Lemma Qlog2_le (q : Q) (k : Z) : (0 < q)%Q → (2 ^ k <= q)%Q → k ≤ Qlog2 q.
Proof.
  intros Hq Hk. destruct (Qlog2_spec q Hq) as [_ Hup].
  assert (k < Qlog2 q + 1); [|lia].
  apply pow2_lt_inv. by eapply Qle_lt_trans.
Qed.

Lemma Qlog2_lt (q : Q) (k : Z) : (0 < q)%Q → (q < 2 ^ k)%Q → Qlog2 q < k.
Proof.
  intros Hq Hk. destruct (Qlog2_spec q Hq) as [Hlow _].
  apply pow2_lt_inv. by eapply Qle_lt_trans.
Qed.

Lemma Qlog2_mono (x y : Q) : (0 < x)%Q → (x <= y)%Q → Qlog2 x ≤ Qlog2 y.
Proof.
  intros Hx Hxy. apply Qlog2_le; [by eapply Qlt_le_trans|].
  destruct (Qlog2_spec x Hx) as [Hlow _]. by eapply Qle_trans.
Qed.

Lemma round_half_even_comp (x y : Q) :
  (x == y)%Q → round_half_even x = round_half_even y.
Proof.
  intros H. unfold round_half_even.
  assert (Qfloor x = Qfloor y) as -> by (by apply Qfloor_comp).
  assert ((x - inject_Z (Qfloor y) ?= 1 # 2)%Q = (y - inject_Z (Qfloor y) ?= 1 # 2)%Q) as ->;
    [|done].
  apply Qcompare_comp; [|done]. by apply Qplus_comp.
Qed.

Lemma round_half_even_Z (n : Z) : round_half_even (inject_Z n) = n.
Proof.
  unfold round_half_even. rewrite Qfloor_Z.
  destruct (Qcompare_spec (inject_Z n - inject_Z n) (1 # 2)) as [H|H|H]; [|done|]; lra.
Qed.

Lemma round_half_even_mono (x y : Q) :
  (x <= y)%Q → round_half_even x ≤ round_half_even y.
Proof.
  intros Hxy. pose proof (Qfloor_resp_le x y Hxy) as Hfloor.
  unfold round_half_even.
  destruct (Qcompare_spec (x - inject_Z (Qfloor x)) (1 # 2)) as [Hx|Hx|Hx];
    destruct (Qcompare_spec (y - inject_Z (Qfloor y)) (1 # 2)) as [Hy|Hy|Hy];
    repeat case_match; try lia.
  all: assert (Qfloor x < Qfloor y ∨ Qfloor x = Qfloor y) as [Hlt|Heq] by lia; [lia|].
  all: try (rewrite Heq in *; first [congruence | exfalso; lra]).
Qed.

Lemma ulp_exponent_mono (x y : Q) :
  (0 < x)%Q → (x <= y)%Q → ulp_exponent x ≤ ulp_exponent y.
Proof.
  intros Hx Hxy. pose proof (Qlog2_mono x y Hx Hxy). unfold ulp_exponent. lia.
Qed.

(** The significand of a positive number is below 2^53, and at least 2^52
    unless the number is subnormal. *)
Lemma significand_lt (q : Q) :
  (0 < q)%Q → (q / 2 ^ ulp_exponent q < 2 ^ precision)%Q.
Proof.
  intros Hq. destruct (Qlog2_spec q Hq) as [_ Hup].
  apply Qlt_shift_div_r; [apply pow2_pos|].
  rewrite <- pow2_plus. eapply Qlt_le_trans; [exact Hup|].
  apply pow2_le. unfold ulp_exponent, precision. lia.
Qed.

Lemma significand_ge (q : Q) :
  (0 < q)%Q → emin < ulp_exponent q →
  (2 ^ (precision - 1) <= q / 2 ^ ulp_exponent q)%Q.
Proof.
  intros Hq He. destruct (Qlog2_spec q Hq) as [Hlow _].
  apply Qle_shift_div_l; [apply pow2_pos|].
  rewrite <- pow2_plus. eapply Qle_trans; [|exact Hlow].
  apply pow2_le. unfold ulp_exponent, precision in *. lia.
Qed.

Lemma round_positive_mono (x y : Q) :
  (0 < x)%Q → (x <= y)%Q → (round_positive x <= round_positive y)%Q.
Proof.
  intros Hx Hxy.
  assert (0 < y)%Q as Hy by (by eapply Qlt_le_trans).
  pose proof (ulp_exponent_mono x y Hx Hxy) as He.
  unfold round_positive.
  destruct (decide (ulp_exponent x = ulp_exponent y)) as [Heq|Hne].
  - rewrite Heq. apply Qmult_le_compat_r; [|apply Qlt_le_weak, pow2_pos].
    rewrite <- Zle_Qle. apply round_half_even_mono.
    apply Qmult_le_compat_r; [done|]. apply Qlt_le_weak, Qinv_lt_0_compat, pow2_pos.
  - apply Qle_trans with (2 ^ precision * 2 ^ ulp_exponent x)%Q.
    { apply Qmult_le_compat_r; [|apply Qlt_le_weak, pow2_pos].
      rewrite (pow2_Z precision) by done. rewrite <- Zle_Qle.
      rewrite <- (round_half_even_Z (2 ^ precision)).
      apply round_half_even_mono. rewrite <- (pow2_Z precision) by done.
      apply Qlt_le_weak. by apply significand_lt. }
    apply Qle_trans with (2 ^ (precision - 1) * 2 ^ ulp_exponent y)%Q.
    { rewrite <- !pow2_plus. apply pow2_le. lia. }
    apply Qmult_le_compat_r; [|apply Qlt_le_weak, pow2_pos].
    rewrite (pow2_Z (precision - 1)) by done. rewrite <- Zle_Qle.
    rewrite <- (round_half_even_Z (2 ^ (precision - 1))).
    apply round_half_even_mono. rewrite <- (pow2_Z (precision - 1)) by done.
    apply significand_ge; [done|]. unfold ulp_exponent in *. lia.
Qed.

Lemma round_positive_nonneg (q : Q) : (0 < q)%Q → (0 <= round_positive q)%Q.
Proof.
  intros Hq. unfold round_positive.
  apply Qmult_le_0_compat; [|apply Qlt_le_weak, pow2_pos].
  change 0%Q with (inject_Z 0). rewrite <- Zle_Qle.
  rewrite <- (round_half_even_Z 0). apply round_half_even_mono.
  apply Qlt_le_weak, Qlt_shift_div_l; [apply pow2_pos|].
  change (inject_Z 0) with 0%Q. by rewrite Qmult_0_l.
Qed.

Lemma round64_positive (q : Q) : (0 < q)%Q → round64 q = round_positive q.
Proof.
  destruct q as [[|n|n] d]; unfold Qlt; simpl; intros H; try lia. done.
Qed.

Lemma round64_zero (q : Q) : (q == 0)%Q → round64 q = 0%Q.
Proof.
  destruct q as [[|n|n] d]; unfold Qeq; simpl; intros H; try lia. done.
Qed.

(** Rounding is monotone (stated on the numbers that are not negative, which
    is where the handlers compute). *)
Lemma round64_mono (x y : Q) :
  (0 <= x)%Q → (x <= y)%Q → (round64 x <= round64 y)%Q.
Proof.
  intros Hx Hxy.
  destruct (Qlt_le_dec 0 x) as [Hpos|Hzero].
  - rewrite !round64_positive by (done || by eapply Qlt_le_trans).
    by apply round_positive_mono.
  - rewrite (round64_zero x) by lra.
    destruct (Qlt_le_dec 0 y) as [Hy|Hy].
    + rewrite round64_positive by done. by apply round_positive_nonneg.
    + rewrite (round64_zero y) by lra. lra.
Qed.

(** A number [m * 2^e] with [m] below 2^53 and [e] from -1074 on is not
    changed by rounding. *)
Lemma round64_exact (q : Q) (m e : Z) :
  0 ≤ m < 2 ^ precision → emin ≤ e → (q == inject_Z m * 2 ^ e)%Q → (round64 q == q)%Q.
Proof.
  intros Hm He Hq.
  destruct (decide (m = 0)) as [->|Hm0].
  { rewrite round64_zero; rewrite Hq; ring. }
  assert (0 < q)%Q as Hpos.
  { rewrite Hq. apply Qmult_lt_0_compat; [|apply pow2_pos].
    change 0%Q with (inject_Z 0). rewrite <- Zlt_Qlt. lia. }
  rewrite round64_positive by done. unfold round_positive.
  set (e' := ulp_exponent q).
  assert (e' ≤ e) as He'.
  { assert (Qlog2 q < precision + e); [|unfold e', ulp_exponent, precision in *; lia].
    apply Qlog2_lt; [done|]. rewrite Hq, pow2_plus.
    apply Qmult_lt_compat_r; [apply pow2_pos|].
    rewrite (pow2_Z precision) by done. rewrite <- Zlt_Qlt. lia. }
  assert (q / 2 ^ e' == inject_Z (m * 2 ^ (e - e')))%Q as Hint.
  { rewrite inject_Z_mult, <- pow2_Z by lia. rewrite <- pow2_div, Hq.
    field. apply Qpower_not_0. done. }
  rewrite (round_half_even_comp _ _ Hint), round_half_even_Z, <- Hint.
  field. apply Qpower_not_0. done.
Qed.

(** *** [round64] is the rounding to nearest

    The two lemmas below say that [round64] is the rounding of IEEE 754: its
    result is a double, and no double is nearer to the number rounded (the
    choice between two doubles equally near is that of [round_half_even]). *)

(** [round_half_even] answers a nearest integer. *)
Lemma round_half_even_nearest (x : Q) (y : Z) :
  (Qabs (inject_Z (round_half_even x) - x) <= Qabs (inject_Z y - x))%Q.
Proof.
  pose proof (Qfloor_le x) as Hlow. pose proof (Qlt_floor x) as Hup.
  rewrite inject_Z_plus in Hup. change (inject_Z 1) with 1%Q in Hup.
  assert (inject_Z y <= inject_Z (Qfloor x) ∨ inject_Z (Qfloor x) + 1 <= inject_Z y)%Q
    as Hy.
  { destruct (Z_le_gt_dec y (Qfloor x)) as [H|H]; [left; by rewrite <- Zle_Qle|right].
    change 1%Q with (inject_Z 1). rewrite <- inject_Z_plus, <- Zle_Qle. lia. }
  unfold round_half_even.
  destruct (Qcompare_spec (x - inject_Z (Qfloor x)) (1 # 2)) as [Hx|Hx|Hx];
    repeat case_match; rewrite ?inject_Z_plus; change (inject_Z 1) with 1%Q.
  all: apply Qabs_case; intros ?; apply Qabs_case; intros ?; destruct Hy; lra.
Qed.

Lemma round_half_even_error (x : Q) :
  (Qabs (inject_Z (round_half_even x) - x) <= 1 # 2)%Q.
Proof.
  pose proof (round_half_even_nearest x (Qfloor x)) as H1.
  pose proof (round_half_even_nearest x (Qfloor x + 1)) as H2.
  pose proof (Qfloor_le x) as Hlow. pose proof (Qlt_floor x) as Hup.
  rewrite inject_Z_plus in *. change (inject_Z 1) with 1%Q in *.
  revert H1 H2. apply Qabs_case; intros ?; apply Qabs_case; intros ?;
    apply Qabs_case; intros ?; lra.
Qed.

(** No double is nearer to [q] than [round64 q]. *)
Lemma round64_nearest (q d : Q) :
  (0 <= q)%Q → binary64 d → (Qabs (round64 q - q) <= Qabs (d - q))%Q.
Proof.
  intros H0 (m & k & Hm & [Hk _] & Hd).
  destruct (Qlt_le_dec 0 q) as [Hpos|Hzero].
  2: { rewrite (round64_zero q) by lra. apply Qabs_case; intros ?; apply Qabs_case; intros ?; lra. }
  rewrite round64_positive by done. unfold round_positive.
  set (e := ulp_exponent q). set (x := (q / 2 ^ e)%Q).
  pose proof (pow2_pos e) as Hu.
  assert (q == x * 2 ^ e)%Q as Hq by (unfold x; field; lra).
  assert (∀ a b : Q, Qabs (a * 2 ^ e - b * 2 ^ e) == Qabs (a - b) * 2 ^ e)%Q as Hscale.
  { intros a b. rewrite <- (Qabs_pos (2 ^ e)) at 3 by lra. rewrite <- Qabs_Qmult.
    apply Qabs_wd. ring. }
  set (z := round_half_even x).
  assert (Qabs (inject_Z z * 2 ^ e - q) == Qabs (inject_Z z - x) * 2 ^ e)%Q as ->.
  { rewrite <- Hscale. apply Qabs_wd. unfold x. field. lra. }
  assert (Qabs (d - q) == Qabs (d / 2 ^ e - x) * 2 ^ e)%Q as ->.
  { rewrite <- Hscale. apply Qabs_wd. unfold x. field. lra. }
  apply Qmult_le_compat_r; [|lra]. subst z.
  destruct (Z_le_gt_dec e k) as [Hek|Hek].
  - assert (d / 2 ^ e == inject_Z (m * 2 ^ (k - e)))%Q as ->.
    { rewrite inject_Z_mult, <- pow2_Z by lia. rewrite <- pow2_div, Hd. field. lra. }
    apply round_half_even_nearest.
  - eapply Qle_trans; [apply round_half_even_error|].
    assert (2 ^ (precision - 1) <= x)%Q as Hx.
    { apply significand_ge; [done|]. fold e. lia. }
    assert (d / 2 ^ e <= 2 ^ (precision - 1) - (1 # 2))%Q as Hy.
    { apply Qle_shift_div_r; [done|]. rewrite Hd.
      apply Qle_trans with (inject_Z (2 ^ precision - 1) * 2 ^ (e - 1))%Q.
      - apply Qle_trans with (inject_Z (2 ^ precision - 1) * 2 ^ k)%Q.
        + apply Qmult_le_compat_r; [|apply Qlt_le_weak, pow2_pos].
          rewrite <- Zle_Qle. lia.
        + apply Qmult_le_l; [reflexivity|]. apply pow2_le. lia.
      - unfold Z.sub at 2. rewrite pow2_plus.
        assert (inject_Z (2 ^ precision - 1) * (2 ^ e * 2 ^ (- (1)))
                == (2 ^ (precision - 1) - (1 # 2)) * 2 ^ e)%Q as ->; [|lra].
        change (inject_Z (2 ^ precision - 1)) with 9007199254740991%Q.
        change (2 ^ (precision - 1))%Q with 4503599627370496%Q.
        change (2 ^ (- (1)))%Q with (1 # 2)%Q. ring. }
    apply Qabs_case; intros ?; lra.
Qed.

(** The result of rounding is a double, up to the largest one. *)
Lemma round64_binary64 (q : Q) :
  (0 <= q)%Q → (q <= largest)%Q → binary64 (round64 q).
Proof.
  intros H0 Hmax.
  destruct (Qlt_le_dec 0 q) as [Hpos|Hzero].
  2: { rewrite (round64_zero q) by lra. exists 0, 0. by repeat split. }
  assert (round64 largest == largest)%Q as Hexact.
  { apply (round64_exact _ (2 ^ precision - 1) emax); [done..|reflexivity]. }
  pose proof (round64_mono q largest H0 Hmax) as Hle. rewrite Hexact in Hle.
  rewrite round64_positive in * by done. unfold round_positive in *.
  set (e := ulp_exponent q) in *. set (z := round_half_even (q / 2 ^ e)) in *.
  pose proof (pow2_pos e) as Hu.
  assert (emin ≤ e) as He by (unfold e, ulp_exponent; lia).
  assert (0 ≤ z) as Hz0.
  { rewrite <- (round_half_even_Z 0). apply round_half_even_mono.
    apply Qle_shift_div_l; [done|]. change (inject_Z 0) with 0%Q. lra. }
  assert (z ≤ 2 ^ precision) as Hz.
  { rewrite <- (round_half_even_Z (2 ^ precision)). apply round_half_even_mono.
    rewrite <- (pow2_Z precision) by done. apply Qlt_le_weak. by apply significand_lt. }
  assert (e ≤ emax ∨ (emax < e)) as [Hemax|Hbig] by lia.
  - destruct (decide (z = 2 ^ precision)) as [Hz53|Hz53].
    + (* the significand rounds up to 2^53: the next binade *)
      assert (e < emax) as Hlt.
      { destruct (decide (e = emax)) as [Heq|]; [|lia]. exfalso.
        rewrite Hz53, Heq in Hle. unfold largest in Hle.
        apply Qmult_le_r in Hle; [|apply pow2_pos]. rewrite <- Zle_Qle in Hle. lia. }
      exists (2 ^ (precision - 1)), (e + 1). split; [done|]. split; [lia|].
      rewrite Hz53, pow2_plus.
      change (inject_Z (2 ^ precision)) with 9007199254740992%Q.
      change (inject_Z (2 ^ (precision - 1))) with 4503599627370496%Q.
      change (2 ^ 1)%Q with 2%Q. ring.
    + exists z, e. split; [lia|]. split; [lia|]. reflexivity.
  - (* beyond the largest exponent the significand would be at least 2^52 *)
    exfalso.
    assert (2 ^ (precision - 1) ≤ z) as Hz52.
    { rewrite <- (round_half_even_Z (2 ^ (precision - 1))). apply round_half_even_mono.
      rewrite <- (pow2_Z (precision - 1)) by done.
      apply significand_ge; [done|]. fold e. unfold emin, emax in *. lia. }
    assert (largest < inject_Z z * 2 ^ e)%Q; [|lra].
    apply Qlt_le_trans with (2 ^ (precision - 1) * 2 ^ e)%Q.
    + unfold largest. apply Qlt_le_trans with (2 ^ precision * 2 ^ emax)%Q.
      * apply Qmult_lt_compat_r; [apply pow2_pos|]. reflexivity.
      * rewrite <- !pow2_plus. apply pow2_le. unfold precision in *. lia.
    + apply Qmult_le_compat_r; [|lra]. rewrite (pow2_Z (precision - 1)) by done.
      by rewrite <- Zle_Qle.
Qed.

(** ** The verification code *)

Lemma Qfloor_spec (q : Q) (n : Z) :
  Qfloor q = n ↔ (inject_Z n <= q)%Q ∧ (q < inject_Z (n + 1))%Q.
Proof.
  split.
  - intros <-. split; [apply Qfloor_le | apply Qlt_floor].
  - intros [Hle Hlt].
    assert (n ≤ Qfloor q) by (rewrite <- (Qfloor_Z n); by apply Qfloor_resp_le).
    assert (Qfloor q < n + 1); [|lia].
    rewrite Zlt_Qlt. eapply Qle_lt_trans; [apply Qfloor_le | done].
Qed.

(** The multiples of [ulp] below 2^20 are doubles. *)
Lemma round64_grid (q : Q) (m : Z) :
  0 ≤ m < 2 ^ precision → (q == inject_Z m * ulp)%Q → (round64 q == q)%Q.
Proof. intros Hm Hq. by apply (round64_exact q m (-33)). Qed.

Lemma round64_le_grid (x : Q) (m : Z) :
  0 ≤ m < 2 ^ precision → (0 <= x)%Q → (x <= inject_Z m * ulp)%Q →
  (round64 x <= inject_Z m * ulp)%Q.
Proof.
  intros Hm H0 Hx. rewrite <- (round64_grid (inject_Z m * ulp) m Hm) by reflexivity.
  by apply round64_mono.
Qed.

Lemma round64_ge_grid (x : Q) (m : Z) :
  0 ≤ m < 2 ^ precision → (inject_Z m * ulp <= x)%Q →
  (inject_Z m * ulp <= round64 x)%Q.
Proof.
  intros Hm Hx. rewrite <- (round64_grid (inject_Z m * ulp) m Hm) at 1 by reflexivity.
  apply round64_mono; [|done].
  apply Qmult_le_0_compat; [|done]. change 0%Q with (inject_Z 0). rewrite <- Zle_Qle. lia.
Qed.

Lemma grid (m : Z) : (inject_Z m * ulp == m # 8589934592)%Q.
Proof. unfold Qeq, Qmult, inject_Z, ulp; simpl. lia. Qed.

Lemma grid_int (n : Z) : (inject_Z n == inject_Z (n * 8589934592) * ulp)%Q.
Proof. unfold Qeq, Qmult, inject_Z, ulp; simpl. lia. Qed.

(** Both roundings of line 81 keep a number between two multiples of [ulp]. *)
Lemma code_ge (q : Q) (m : Z) :
  0 ≤ m ≤ 900000 * 2 ^ 33 →
  (inject_Z m * ulp <= q * 900000)%Q →
  (inject_Z (100000 * 2 ^ 33 + m) * ulp <= Number_add 100000 (Number_multiply q 900000))%Q.
Proof.
  intros Hm Hq. unfold Number_add, Number_multiply.
  apply round64_ge_grid; [unfold precision; lia|].
  pose proof (round64_ge_grid (q * 900000) m) as H.
  rewrite inject_Z_plus, Qmult_plus_distr_l, <- grid_int.
  change (inject_Z 100000) with 100000%Q.
  apply Qplus_le_r. apply H; [unfold precision; lia|done].
Qed.

Lemma code_le (q : Q) (m : Z) :
  0 ≤ m ≤ 900000 * 2 ^ 33 →
  (0 <= q * 900000)%Q →
  (q * 900000 <= inject_Z m * ulp)%Q →
  (Number_add 100000 (Number_multiply q 900000) <= inject_Z (100000 * 2 ^ 33 + m) * ulp)%Q.
Proof.
  intros Hm H0 Hq. unfold Number_add, Number_multiply.
  assert (0 <= round64 (q * 900000))%Q as Hp.
  { rewrite <- (round64_zero 0) by reflexivity. by apply round64_mono. }
  apply round64_le_grid; [unfold precision; lia|lra|].
  rewrite inject_Z_plus, Qmult_plus_distr_l, <- grid_int.
  change (inject_Z 100000) with 100000%Q.
  apply Qplus_le_r. apply round64_le_grid; [unfold precision; lia|done..].
Qed.

(** A double below 1 is at most 1 - 2^-53. *)
Lemma binary64_below_1 (q : Q) :
  binary64 q → (q < 1)%Q → (q <= 1 - 2 ^ (-53))%Q.
Proof.
  intros (m & e & Hm & [He _] & Hq) H1. unfold precision in Hm.
  destruct (Z_le_gt_dec m 0) as [Hneg|Hpos].
  { rewrite Hq. apply Qle_trans with 0%Q; [|done].
    rewrite <- (Qmult_0_l (2 ^ e)). apply Qmult_le_compat_r; [|apply Qlt_le_weak, pow2_pos].
    change 0%Q with (inject_Z 0). rewrite <- Zle_Qle. lia. }
  assert (e < 0) as Hneg.
  { destruct (Z_lt_ge_dec e 0) as [|He0]; [done|]. exfalso.
    rewrite Hq, (pow2_Z e), <- inject_Z_mult in H1 by lia.
    change 1%Q with (inject_Z 1) in H1. rewrite <- Zlt_Qlt in H1. nia. }
  apply Qmult_le_r with (2 ^ 53)%Q; [apply pow2_pos|].
  assert ((1 - 2 ^ (-53)) * 2 ^ 53 == inject_Z (2 ^ 53 - 1))%Q as -> by reflexivity.
  destruct (Z_le_gt_dec (-53) e) as [Hsmall|Hbig].
  - assert (q * 2 ^ 53 == inject_Z (m * 2 ^ (e + 53)))%Q as Hint.
    { rewrite inject_Z_mult, <- (pow2_Z (e + 53)), pow2_plus, Hq by lia. ring. }
    rewrite Hint. rewrite <- Zle_Qle.
    assert (m * 2 ^ (e + 53) < 2 ^ 53); [|lia].
    rewrite Zlt_Qlt, <- Hint. rewrite (pow2_Z 53) by done.
    change (inject_Z (2 ^ 53)) with (1 * inject_Z (2 ^ 53))%Q.
    apply Qmult_lt_compat_r; done.
  - rewrite Hq, <- Qmult_assoc, <- pow2_plus.
    apply Qle_trans with (inject_Z m * 1)%Q.
    + apply Qmult_le_l; [change 0%Q with (inject_Z 0); rewrite <- Zlt_Qlt; lia|].
      change 1%Q with (2 ^ 0)%Q. apply pow2_le. lia.
    + rewrite Qmult_1_r, <- Zle_Qle. lia.
Qed.

(** On a reading of [Math.random()] the number of the code is from 100000 to
    999999: the reading is at most 1 - 2^-53, its product by 900000 rounds to
    900000 - 2^-33 at most, and the sum stays below 1000000. *)
Lemma code_number_range (q : Q) :
  unit_interval q → binary64 q → 100000 ≤ code_number q ≤ 999999.
Proof.
  intros [H0 H1] Hq. apply binary64_below_1 in Hq; [|done].
  assert (0 <= q * 900000)%Q as Hx by (apply Qmult_le_0_compat; done).
  unfold code_number, Math_floor.
  split.
  - rewrite <- (Qfloor_Z 100000). apply Qfloor_resp_le.
    eapply Qle_trans; [|apply (code_ge q 0); [lia|]].
    + apply Qle_bool_iff. reflexivity.
    + by rewrite Qmult_0_l.
  - assert (Qfloor (Number_add 100000 (Number_multiply q 900000)) < 1000000); [|lia].
    rewrite Zlt_Qlt. eapply Qle_lt_trans; [apply Qfloor_le|].
    apply Qle_lt_trans with (inject_Z (100000 * 2 ^ 33 + (900000 * 2 ^ 33 - 1)) * ulp)%Q;
      [|reflexivity].
    unfold Number_add, Number_multiply.
    assert (round64 (q * 900000) <= inject_Z (900000 * 2 ^ 33 - 1) * ulp)%Q as Hp.
    { apply Qle_trans with (round64 ((1 - 2 ^ (-53)) * 900000))%Q.
      - apply round64_mono; [done|]. apply Qmult_le_compat_r; done.
      - apply Qle_bool_iff. vm_compute. reflexivity. }
    assert (0 <= round64 (q * 900000))%Q as Hp0.
    { rewrite <- (round64_zero 0) by reflexivity. by apply round64_mono. }
    apply round64_le_grid; [unfold precision; lia|lra|].
    rewrite inject_Z_plus, Qmult_plus_distr_l, <- grid_int.
    change (inject_Z 100000) with 100000%Q. by apply Qplus_le_r.
Qed.

Lemma grid_point (a b : Z) :
  (inject_Z (a * 2 ^ 33 + b) * ulp == inject_Z a + inject_Z b * ulp)%Q.
Proof. rewrite inject_Z_plus, Qmult_plus_distr_l, <- grid_int. reflexivity. Qed.

(** The readings that give the number [n]: all those whose exact product by
    900000 is from [n - 100000 + ulp] to [n - 100000 + 1 - ulp], and none
    whose product is outside of [n - 100000 - ulp, n - 100000 + 1). *)
Lemma code_number_inner (q : Q) (n : Z) :
  100000 ≤ n ≤ 999999 →
  (inject_Z (n - 100000) + ulp <= q * 900000)%Q →
  (q * 900000 <= inject_Z (n - 100000) + 1 - ulp)%Q →
  code_number q = n.
Proof.
  intros Hn Hlow Hup. unfold code_number, Math_floor. apply Qfloor_spec. split.
  - eapply Qle_trans; [|apply (code_ge q ((n - 100000) * 2 ^ 33 + 1)); [lia|]].
    + replace (100000 * 2 ^ 33 + ((n - 100000) * 2 ^ 33 + 1)) with (n * 2 ^ 33 + 1) by lia.
      rewrite grid_point. change (inject_Z 1 * ulp)%Q with ulp.
      assert (0 < ulp)%Q by reflexivity. lra.
    + rewrite grid_point. exact Hlow.
  - eapply Qle_lt_trans; [apply (code_le q ((n - 100000 + 1) * 2 ^ 33 - 1)); [lia| |]|].
    + eapply Qle_trans; [|exact Hlow].
      assert (0 <= inject_Z (n - 100000))%Q by (change 0%Q with (inject_Z 0); rewrite <- Zle_Qle; lia).
      assert (0 < ulp)%Q by reflexivity. lra.
    + unfold Z.sub at 1. rewrite grid_point, !inject_Z_plus.
      change (inject_Z (- (1)) * ulp)%Q with (- ulp)%Q. change (inject_Z 1) with 1%Q. lra.
    + replace (100000 * 2 ^ 33 + ((n - 100000 + 1) * 2 ^ 33 - 1))
        with ((n + 1) * 2 ^ 33 + - (1)) by lia.
      rewrite grid_point. change (inject_Z (- (1)) * ulp)%Q with (- ulp)%Q.
      assert (0 < ulp)%Q by reflexivity. lra.
Qed.

Lemma code_number_outer (q : Q) (n : Z) :
  (0 <= q)%Q → 100000 ≤ n ≤ 999999 →
  code_number q = n →
  (inject_Z (n - 100000) - ulp < q * 900000)%Q ∧ (q * 900000 < inject_Z (n - 100000) + 1)%Q.
Proof.
  unfold code_number, Math_floor. intros H0 Hn [Hlow Hup]%Qfloor_spec.
  assert (0 <= q * 900000)%Q as Hx by (apply Qmult_le_0_compat; done).
  assert (0 < ulp)%Q as Hulp by reflexivity.
  split; apply Qnot_le_lt; intros H.
  - assert (1 ≤ n - 100000) as Hk.
    { assert (0 < n - 100000); [|lia]. rewrite Zlt_Qlt. change (inject_Z 0) with 0%Q. lra. }
    pose proof (code_le q ((n - 100000) * 2 ^ 33 + - (1))) as Hle.
    rewrite grid_point in Hle. change (inject_Z (- (1)) * ulp)%Q with (- ulp)%Q in Hle.
    specialize (Hle ltac:(lia) Hx ltac:(lra)).
    replace (100000 * 2 ^ 33 + ((n - 100000) * 2 ^ 33 + - (1)))
      with (n * 2 ^ 33 + - (1)) in Hle by lia.
    rewrite grid_point in Hle. change (inject_Z (- (1)) * ulp)%Q with (- ulp)%Q in Hle.
    lra.
  - pose proof (code_ge q ((n - 100000 + 1) * 2 ^ 33)) as Hge.
    rewrite <- grid_int, inject_Z_plus in Hge. change (inject_Z 1) with 1%Q in Hge.
    specialize (Hge ltac:(lia) H).
    replace (100000 * 2 ^ 33 + (n - 100000 + 1) * 2 ^ 33) with ((n + 1) * 2 ^ 33) in Hge by lia.
    rewrite <- grid_int in Hge. lra.
Qed.

Lemma code_number_reachable (n : Z) :
  100000 ≤ n ≤ 999999 →
  ∃ q, unit_interval q ∧ binary64 q ∧ code_number q = n.
Proof.
  intros Hn.
  set (a := (n - 100000) * 2 ^ 33).
  pose proof (Z.mul_div_le a 900000 eq_refl) as Hd1.
  pose proof (Z.mul_succ_div_gt a 900000 eq_refl) as Hd2.
  set (j := a / 900000 + 1).
  assert (a < 900000 * j ≤ a + 900000) as Hj by (unfold j; lia).
  assert (0 < j < 2 ^ 33) as Hj33 by (unfold a in *; lia).
  exists (j # 8589934592)%Q. split; [|split].
  - unfold unit_interval, Qle, Qlt; simpl. lia.
  - exists j, (-33). split; [unfold precision; lia|]. split; [done|].
    by rewrite (grid j).
  - apply code_number_inner; [done|..].
    + fold (inject_Z (n - 100000)). unfold ulp, Qle, Qplus, Qmult, inject_Z; simpl. lia.
    + unfold ulp, Qle, Qplus, Qminus, Qopp, Qmult, inject_Z; simpl. lia.
Qed.

(** Without the granularity of the doubles the sum can reach 1000000. *)
Lemma code_number_bounds (q : Q) :
  unit_interval q → 100000 ≤ code_number q ≤ 1000000.
Proof.
  intros [H0 H1].
  assert (0 <= q * 900000)%Q as Hx by (apply Qmult_le_0_compat; done).
  unfold code_number, Math_floor. split.
  - rewrite <- (Qfloor_Z 100000). apply Qfloor_resp_le.
    eapply Qle_trans; [|apply (code_ge q 0); [lia|]].
    + apply Qle_bool_iff. reflexivity.
    + by rewrite Qmult_0_l.
  - rewrite <- (Qfloor_Z 1000000). apply Qfloor_resp_le.
    eapply Qle_trans; [apply (code_le q (900000 * 2 ^ 33)); [lia|done|]|].
    + rewrite <- grid_int. apply Qlt_le_weak in H1.
      apply (Qmult_le_compat_r _ _ 900000) in H1; [|done]. by rewrite Qmult_1_l in H1.
    + apply Qle_bool_iff. reflexivity.
Qed.

(** The decimal notation of a number from 100000 to 999999: six digits, the
    first of which is not zero. *)
Lemma pretty_six_digits (n : Z) :
  100000 ≤ n ≤ 999999 →
  ∃ d5 d4 d3 d2 d1 d0 : N,
    (1 ≤ d5 ≤ 9)%N ∧
    Number_toString n =
      String (pretty_N_char d5) (String (pretty_N_char d4) (String (pretty_N_char d3)
        (String (pretty_N_char d2) (String (pretty_N_char d1)
          (String (pretty_N_char d0) ""))))).
Proof.
  intros Hn. destruct n as [|p|p]; try lia.
  set (x := N.pos p). assert (100000 ≤ x ≤ 999999)%N as Hx by lia.
  change (Number_toString (Z.pos p)) with (pretty x).
  unfold pretty, pretty_N. rewrite decide_False by lia.
  exists (x / 100000)%N, ((x / 10000) mod 10)%N, ((x / 1000) mod 10)%N,
    ((x / 100) mod 10)%N, ((x / 10) mod 10)%N, (x mod 10)%N.
  split.
  { split.
    - apply N.div_le_lower_bound; lia.
    - apply N.lt_succ_r. apply N.Div0.div_lt_upper_bound; lia. }
  assert ((x / 10) / 10 = x / 100)%N as E2 by (rewrite N.Div0.div_div; done).
  assert ((x / 100) / 10 = x / 1000)%N as E3 by (rewrite N.Div0.div_div; done).
  assert ((x / 1000) / 10 = x / 10000)%N as E4 by (rewrite N.Div0.div_div; done).
  assert ((x / 10000) / 10 = x / 100000)%N as E5 by (rewrite N.Div0.div_div; done).
  assert ((x / 100000) / 10 = 0)%N as E6.
  { rewrite N.Div0.div_div. apply N.div_small. lia. }
  assert (0 < x / 10)%N by (apply N.div_str_pos; lia).
  assert (0 < x / 100)%N by (apply N.div_str_pos; lia).
  assert (0 < x / 1000)%N by (apply N.div_str_pos; lia).
  assert (0 < x / 10000)%N by (apply N.div_str_pos; lia).
  assert (0 < x / 100000)%N by (apply N.div_str_pos; lia).
  rewrite (pretty_N_go_step x) by lia.
  rewrite (pretty_N_go_step (x / 10)) by lia. rewrite E2.
  rewrite (pretty_N_go_step (x / 100)) by lia. rewrite E3.
  rewrite (pretty_N_go_step (x / 1000)) by lia. rewrite E4.
  rewrite (pretty_N_go_step (x / 10000)) by lia. rewrite E5.
  rewrite (pretty_N_go_step (x / 100000)) by lia. rewrite E6.
  rewrite pretty_N_go_0.
  rewrite (N.mod_small (x / 100000) 10); [done|].
  apply N.Div0.div_lt_upper_bound; lia.
Qed.

Lemma number_shape (n : Z) :
  100000 ≤ n ≤ 999999 →
  String.length (Number_toString n) = 6%nat ∧
  numeric (Number_toString n) = true ∧
  String.get 0 (Number_toString n) ≠ Some "0"%char.
Proof.
  intros Hn.
  destruct (pretty_six_digits _ Hn) as (d5 & d4 & d3 & d2 & d1 & d0 & Hd5 & Heq).
  rewrite Heq. split; [done|]. split.
  - unfold numeric. simpl. by rewrite !pretty_N_char_digit.
  - simpl. intros [= H].
    apply (pretty_N_char_inj d5 0) in H; lia.
Qed.

(** No reading gives a code that starts with the digit 0. *)
Lemma code_first_digit (q : Q) :
  unit_interval q → String.get 0 (Supabase.verificationCode q) ≠ Some "0"%char.
Proof.
  intros Hq. change (Supabase.verificationCode q) with (Number_toString (code_number q)).
  apply code_number_bounds in Hq.
  destruct (decide (code_number q = 1000000)) as [->|Hne]; [done|].
  apply number_shape. lia.
Qed.

(** The code is a given number exactly when its number is. *)
Lemma code_number_toString (q : Q) (n : Z) :
  Supabase.verificationCode q = Number_toString n ↔ code_number q = n.
Proof.
  change (Supabase.verificationCode q) with (Number_toString (code_number q)).
  unfold Number_toString. split; [apply (inj pretty) | by intros ->].
Qed.

(** * The claims *)

(** C1. For every valid registration payload whose email has no user record
    (and with the collaborators answering), the handler returns status 201 with
    success:true; the record handed to the insert carries as password hash the
    answer of [bcrypt.hash(password, 12)], so it differs from the plaintext
    password whenever that hash does; the user of the response has no
    password-hash field.  Stated for both handlers. *)
Theorem C1_registration_stores_the_hash_and_hides_it :
  (∀ (w : World) (s : Supabase.steps),
     Supabase.completes w s →
     (Supabase.handle w).2 = Normal (Supabase.created s) ∧
     status (Supabase.created s) = 201 ∧
     field (json (Supabase.created s)) "success" = VBool true ∧
     db_users_create (Supabase.stored w s) ∈ calls (Supabase.handle w).1 ∧
     answer w (bcrypt_hash (password (Supabase.validatedData s)) 12)
       = Normal (Supabase.passwordHash s) ∧
     field (Supabase.stored w s) "password_hash" = VStr (Supabase.passwordHash s) ∧
     (Supabase.passwordHash s ≠ password (Supabase.validatedData s) →
      field (Supabase.stored w s) "password_hash"
        ≠ VStr (password (Supabase.validatedData s))) ∧
     own_props (field (json (Supabase.created s)) "user") !! "password_hash" = None) ∧
  (∀ (w : World) (s : Drizzle.steps),
     Drizzle.completes w s →
     (Drizzle.handle w).2 = Normal (Drizzle.created s) ∧
     status (Drizzle.created s) = 201 ∧
     field (json (Drizzle.created s)) "success" = VBool true ∧
     db_insert_users_returning (Drizzle.stored s) ∈ calls (Drizzle.handle w).1 ∧
     answer w (bcrypt_hash (password (Drizzle.validatedData s)) 12)
       = Normal (Drizzle.passwordHash s) ∧
     field (Drizzle.stored s) "passwordHash" = VStr (Drizzle.passwordHash s) ∧
     (Drizzle.passwordHash s ≠ password (Drizzle.validatedData s) →
      field (Drizzle.stored s) "passwordHash"
        ≠ VStr (password (Drizzle.validatedData s))) ∧
     own_props (field (json (Drizzle.created s)) "user") !! "passwordHash" = None).
Proof.
  split; intros w s Hs.
  - destruct (supabase_registers w s Hs) as (Hcreated & Hcalls & _).
    split; [done|]. split; [done|]. split; [done|]. split.
    { rewrite Hcalls. unfold Supabase.registration_calls.
      do 4 apply list_elem_of_further. apply list_elem_of_here. }
    split; [apply Hs|]. split; [done|]. split; [intros Hne [= Heq]; done|].
    change (field (json (Supabase.created s)) "user")
      with (VObj (delete "password_hash" (own_props (Supabase.newUser s)))).
    apply lookup_delete_eq.
  - destruct (drizzle_registers w s Hs) as (Hcreated & Hcalls).
    split; [done|]. split; [done|]. split; [done|]. split.
    { rewrite Hcalls. unfold Drizzle.registration_calls.
      do 5 apply list_elem_of_further. apply list_elem_of_here. }
    split; [apply Hs|]. split; [done|]. split; [intros Hne [= Heq]; done|].
    change (field (json (Drizzle.created s)) "user")
      with (VObj (delete "passwordHash" (own_props (Drizzle.first (Drizzle.inserted s))))).
    apply lookup_delete_eq.
Qed.

Lemma C1_witness :
  (Supabase.handle (Sample.world Sample.fresh)).2
    = Normal (Supabase.created (Sample.supabase_steps Sample.fresh)) ∧
  (Drizzle.handle (Sample.world Sample.fresh)).2
    = Normal (Drizzle.created (Sample.drizzle_steps Sample.fresh)).
Proof.
  split.
  - apply (proj1 C1_registration_stores_the_hash_and_hides_it
             (Sample.world Sample.fresh) (Sample.supabase_steps Sample.fresh)).
    repeat split; vm_compute; reflexivity.
  - apply (proj2 C1_registration_stores_the_hash_and_hides_it
             (Sample.world Sample.fresh) (Sample.drizzle_steps Sample.fresh)).
    repeat split; vm_compute; reflexivity.
Defined.

(** C2. When the lookup that precedes the insert finds a user record for the
    email of the payload, the handler returns status 400 with the message
    "User with this email already exists", and the only collaborator calls of
    the request are reading the body and the lookups: no password hashing, no
    insert, no verification-code update and no email.  Stated for both
    handlers. *)
Theorem C2_existing_email_is_refused_without_side_effects :
  (∀ (w : World) (body : value) (data : RegisterData) (existingUser : value),
     Supabase.validates w body data →
     answer w (db_users_findByEmail (email data)) = Normal existingUser →
     truthy existingUser = true →
     (Supabase.handle w).2
       = Normal (failure "User with this email already exists" 400) ∧
     calls (Supabase.handle w).1 = [request_json; db_users_findByEmail (email data)] ∧
     existsb side_effect (calls (Supabase.handle w).1) = false) ∧
  (∀ (w : World) (body : value) (data : RegisterData) (probe existing : list value),
     Drizzle.validates w body data →
     Drizzle.connects w probe →
     answer w (db_select_users_where_email (email data)) = Normal existing →
     truthy (Drizzle.first existing) = true →
     (Drizzle.handle w).2
       = Normal (failure "User with this email already exists" 400) ∧
     calls (Drizzle.handle w).1
       = [request_json; getDb; db_select_users_limit_1;
          db_select_users_where_email (email data)] ∧
     existsb side_effect (calls (Drizzle.handle w).1) = false).
Proof.
  split.
  - intros w body data existingUser Hvalid Hfind Hexists.
    destruct (supabase_existing_user w body data existingUser Hvalid Hfind Hexists)
      as [Hresponse Hcalls].
    split; [done|]. split; [done|]. by rewrite Hcalls.
  - intros w body data probe existing Hvalid Hconnects Hfind Hexists.
    destruct (drizzle_existing_user w body data probe existing Hvalid Hconnects Hfind Hexists)
      as [Hresponse Hcalls].
    split; [done|]. split; [done|]. by rewrite Hcalls.
Qed.

Lemma C2_witness :
  (Supabase.handle (Sample.world Sample.taken)).2
    = Normal (failure "User with this email already exists" 400) ∧
  (Drizzle.handle (Sample.world Sample.taken)).2
    = Normal (failure "User with this email already exists" 400).
Proof.
  split.
  - apply (proj1 C2_existing_email_is_refused_without_side_effects
             (Sample.world Sample.taken) Sample.payload
             (Sample.data (own_props Sample.payload))
             (obj [("email", VStr "a@b.com")])).
    + repeat split; vm_compute; reflexivity.
    + vm_compute; reflexivity.
    + reflexivity.
  - apply (proj2 C2_existing_email_is_refused_without_side_effects
             (Sample.world Sample.taken) Sample.payload
             (Sample.data (own_props Sample.payload))
             [] [obj [("email", VStr "a@b.com")]]).
    + repeat split; vm_compute; reflexivity.
    + split; reflexivity.
    + vm_compute; reflexivity.
    + reflexivity.
Defined.



Lemma verified_status_agent (role : string) :
  (VBool (if String.eqb role "agent" then false else true) = VBool false ↔ role = "agent") ∧
  (role ≠ "agent" → VBool (if String.eqb role "agent" then false else true) = VBool true).
Proof.
  by destruct (String.eqb_spec role "agent") as [->|Hne].
Qed.

(** C4. For every successful registration (a response with status 201), the
    record handed to the insert has verified_status false exactly when the
    validated role is "agent", and true for every other role; in the Supabase
    handler it also has email_verified false, whatever the role.  The Drizzle
    handler sets verifiedStatus the same way and leaves emailVerified to the
    store. *)
Theorem C4_verification_flags_of_a_new_user :
  (∀ (w : World) (r : response),
     (Supabase.handle w).2 = Normal r →
     status r = 201 →
     ∃ s : Supabase.steps,
       Supabase.completes w s ∧
       calls (Supabase.handle w).1 = Supabase.registration_calls w s ∧
       field (Supabase.stored w s) "role" = VStr (role (Supabase.validatedData s)) ∧
       (field (Supabase.stored w s) "verified_status" = VBool false
          ↔ role (Supabase.validatedData s) = "agent") ∧
       (role (Supabase.validatedData s) ≠ "agent" →
        field (Supabase.stored w s) "verified_status" = VBool true) ∧
       field (Supabase.stored w s) "email_verified" = VBool false) ∧
  (∀ (w : World) (r : response),
     (Drizzle.handle w).2 = Normal r →
     status r = 201 →
     ∃ s : Drizzle.steps,
       Drizzle.completes w s ∧
       calls (Drizzle.handle w).1 = Drizzle.registration_calls s ∧
       field (Drizzle.stored s) "role" = VStr (role (Drizzle.validatedData s)) ∧
       (field (Drizzle.stored s) "verifiedStatus" = VBool false
          ↔ role (Drizzle.validatedData s) = "agent") ∧
       (role (Drizzle.validatedData s) ≠ "agent" →
        field (Drizzle.stored s) "verifiedStatus" = VBool true) ∧
       field (Drizzle.stored s) "emailVerified" = VUndefined).
Proof.
  split; intros w r Hr Hstatus.
  - destruct (supabase_created_inv w r Hr Hstatus) as (s & Hs & _).
    destruct (supabase_registers w s Hs) as (_ & Hcalls & _).
    exists s. split; [done|]. split; [done|]. split; [done|].
    destruct (verified_status_agent (role (Supabase.validatedData s))) as [Hiff Htrue].
    split; [exact Hiff|]. split; [exact Htrue|done].
  - destruct (drizzle_created_inv w r Hr Hstatus) as (s & Hs & _).
    destruct (drizzle_registers w s Hs) as (_ & Hcalls).
    exists s. split; [done|]. split; [done|]. split; [done|].
    destruct (verified_status_agent (role (Drizzle.validatedData s))) as [Hiff Htrue].
    split; [exact Hiff|]. split; [exact Htrue|done].
Qed.

Lemma C4_witness :
  (∃ s : Supabase.steps,
     Supabase.completes (Sample.world Sample.fresh) s ∧
     calls (Supabase.handle (Sample.world Sample.fresh)).1
       = Supabase.registration_calls (Sample.world Sample.fresh) s ∧
     field (Supabase.stored (Sample.world Sample.fresh) s) "role"
       = VStr (role (Supabase.validatedData s)) ∧
     (field (Supabase.stored (Sample.world Sample.fresh) s) "verified_status" = VBool false
        ↔ role (Supabase.validatedData s) = "agent") ∧
     (role (Supabase.validatedData s) ≠ "agent" →
      field (Supabase.stored (Sample.world Sample.fresh) s) "verified_status" = VBool true) ∧
     field (Supabase.stored (Sample.world Sample.fresh) s) "email_verified" = VBool false) ∧
  (∃ s : Drizzle.steps,
     Drizzle.completes (Sample.world Sample.fresh) s ∧
     calls (Drizzle.handle (Sample.world Sample.fresh)).1 = Drizzle.registration_calls s ∧
     field (Drizzle.stored s) "role" = VStr (role (Drizzle.validatedData s)) ∧
     (field (Drizzle.stored s) "verifiedStatus" = VBool false
        ↔ role (Drizzle.validatedData s) = "agent") ∧
     (role (Drizzle.validatedData s) ≠ "agent" →
      field (Drizzle.stored s) "verifiedStatus" = VBool true) ∧
     field (Drizzle.stored s) "emailVerified" = VUndefined).
Proof.
  split.
  - apply (proj1 C4_verification_flags_of_a_new_user (Sample.world Sample.fresh)
             (Supabase.created (Sample.supabase_steps Sample.fresh))).
    + vm_compute; reflexivity.
    + reflexivity.
  - apply (proj2 C4_verification_flags_of_a_new_user (Sample.world Sample.fresh)
             (Drizzle.created (Sample.drizzle_steps Sample.fresh))).
    + vm_compute; reflexivity.
    + reflexivity.
Defined.

(** C5, as the specification states it, fails: the code 000000 is a
    six-digit string that no value of the random source produces. *)
Lemma C5_counterexample_000000_is_never_generated :
  ¬ ∃ q : Q, unit_interval q ∧ Supabase.verificationCode q = "000000".
Proof.
  intros (q & Hq & Hcode). apply code_first_digit in Hq.
  rewrite Hcode in Hq. by apply Hq.
Qed.

(** C5, amended. For every successful registration, with [Math.random()]
    answering a double from 0 inclusive to 1 exclusive, the verification code
    of the update is the six-character decimal notation of a number from
    100000 to 999999, and the expiry of the update is the timestamp of exactly
    15 minutes (15 * 60 * 1000 ms) after the reading of [Date.now()].  Every
    number from 100000 to 999999 is the code of some double of the random
    source, and no code starts with the digit 0.  The code is computed in
    double arithmetic: it is [n] for every reading whose exact product by
    900000 is from [n - 100000 + 2^-33] to [n - 100000 + 1 - 2^-33], and only
    for readings whose product is above [n - 100000 - 2^-33] and below
    [n - 100000 + 1]; so the readings of one code fill an interval of length
    1/900000 up to the rounding at its two ends, whatever the code.  The
    margin is not empty: the double written 0.7 gives the code 730000 although
    its exact product by 900000 is below 630000. *)
Theorem C5_verification_code_and_expiry :
  (∀ (w : World) (r : response),
     (∀ q, answer w Math_random = Normal q → unit_interval q ∧ binary64 q) →
     (Supabase.handle w).2 = Normal r →
     status r = 201 →
     ∃ (s : Supabase.steps) (n : Z),
       Supabase.completes w s ∧
       supabase_users_update (Supabase.verification w s) (field (Supabase.newUser s) "id")
         ∈ calls (Supabase.handle w).1 ∧
       answer w Math_random = Normal (Supabase.random s) ∧
       Supabase.verificationCode (Supabase.random s) = Number_toString n ∧
       field (Supabase.verification w s) "verification_code" = VStr (Number_toString n) ∧
       100000 ≤ n ≤ 999999 ∧
       String.length (Number_toString n) = 6%nat ∧
       numeric (Number_toString n) = true ∧
       answer w Date_now = Normal (Supabase.now s) ∧
       field (Supabase.verification w s) "verification_code_expires"
         = VStr (toISOString w (Supabase.now s + 15 * 60 * 1000))) ∧
  (∀ n, 100000 ≤ n ≤ 999999 →
     ∃ q, unit_interval q ∧ binary64 q ∧
          Supabase.verificationCode q = Number_toString n) ∧
  (∀ q, unit_interval q →
     String.get 0 (Supabase.verificationCode q) ≠ Some "0"%char) ∧
  (∀ q n, (0 <= q)%Q → 100000 ≤ n ≤ 999999 →
     ((inject_Z (n - 100000) + ulp <= q * 900000)%Q →
      (q * 900000 <= inject_Z (n - 100000) + 1 - ulp)%Q →
      Supabase.verificationCode q = Number_toString n) ∧
     (Supabase.verificationCode q = Number_toString n →
      (inject_Z (n - 100000) - ulp < q * 900000)%Q ∧
      (q * 900000 < inject_Z (n - 100000) + 1)%Q)) ∧
  (∃ q, unit_interval q ∧ binary64 q ∧
        (q * 900000 < 630000)%Q ∧ Supabase.verificationCode q = "730000").
Proof.
  split; [|split; [|split; [|split]]].
  - intros w r Hrandom Hr Hstatus.
    destruct (supabase_created_inv w r Hr Hstatus) as (s & Hs & _).
    destruct (supabase_registers w s Hs) as (_ & Hcalls & _).
    assert (unit_interval (Supabase.random s) ∧ binary64 (Supabase.random s)) as [Hq Hdouble]
      by (apply Hrandom, Hs).
    exists s, (code_number (Supabase.random s)).
    split; [done|]. split.
    { rewrite Hcalls. unfold Supabase.registration_calls.
      do 7 apply list_elem_of_further. apply list_elem_of_here. }
    split; [apply Hs|]. split; [done|]. split; [done|].
    pose proof (code_number_range _ Hq Hdouble) as Hrange. split; [done|].
    destruct (number_shape _ Hrange) as (Hlength & Hnumeric & _).
    split; [exact Hlength|]. split; [exact Hnumeric|].
    split; [apply Hs|done].
  - intros n Hn. destruct (code_number_reachable n Hn) as (q & Hq & Hdouble & Hcode).
    exists q. split; [done|]. split; [done|]. by apply code_number_toString.
  - apply code_first_digit.
  - intros q n Hq Hn. rewrite code_number_toString. split.
    + by apply code_number_inner.
    + by apply code_number_outer.
  - exists (6305039478318694 # 9007199254740992)%Q.
    split; [split; [vm_compute; discriminate | reflexivity]|].
    split; [|split; [reflexivity | vm_compute; reflexivity]].
    exists 6305039478318694, (-53). split; [reflexivity|]. split; [|reflexivity].
    split; vm_compute; discriminate.
Qed.

Lemma C5_witness :
  ∃ (s : Supabase.steps) (n : Z),
    Supabase.completes (Sample.world Sample.fresh) s ∧
    supabase_users_update (Supabase.verification (Sample.world Sample.fresh) s)
        (field (Supabase.newUser s) "id")
      ∈ calls (Supabase.handle (Sample.world Sample.fresh)).1 ∧
    answer (Sample.world Sample.fresh) Math_random = Normal (Supabase.random s) ∧
    Supabase.verificationCode (Supabase.random s) = Number_toString n ∧
    field (Supabase.verification (Sample.world Sample.fresh) s) "verification_code"
      = VStr (Number_toString n) ∧
    100000 ≤ n ≤ 999999 ∧
    String.length (Number_toString n) = 6%nat ∧
    numeric (Number_toString n) = true ∧
    answer (Sample.world Sample.fresh) Date_now = Normal (Supabase.now s) ∧
    field (Supabase.verification (Sample.world Sample.fresh) s)
        "verification_code_expires"
      = VStr (toISOString (Sample.world Sample.fresh) (Supabase.now s + 15 * 60 * 1000)).
Proof.
  apply (proj1 C5_verification_code_and_expiry (Sample.world Sample.fresh)
           (Supabase.created (Sample.supabase_steps Sample.fresh))).
  - intros q Hq. change (Normal (Sample.random Sample.fresh) = Normal q) in Hq.
    injection Hq as <-. split.
    + split; [vm_compute; discriminate | reflexivity].
    + exists 1, (-1). split; [reflexivity|]. split; [|reflexivity].
      split; vm_compute; discriminate.
  - vm_compute; reflexivity.
  - reflexivity.
Defined.

(** C6, as the specification states it, fails: in an execution in which the
    insert succeeds, the handler returns 201 only if every collaborator called
    after the insert returns.  When the email helper throws instead of
    reporting its failure, or when the verification-code update answers null
    instead of a result, the exception reaches the catch block and the request
    that inserted the user is answered 500 with success:false. *)
Lemma C6_counterexample_failures_after_the_insert :
  (Supabase.inserts (Sample.world Sample.email_throws)
     (Sample.supabase_steps Sample.email_throws) ∧
   answer (Sample.world Sample.email_throws)
     (sendEmail (Supabase.verification_mail
                   (Supabase.validatedData (Sample.supabase_steps Sample.email_throws))
                   (Supabase.html (Sample.supabase_steps Sample.email_throws))))
     = Throw (Error "SMTP timeout") ∧
   call_name <$> calls (Supabase.handle (Sample.world Sample.email_throws)).1
     = ["request.json"; "db.users.findByEmail"; "bcrypt.hash"; "new Date";
        "db.users.create"; "Math.random"; "Date.now";
        "db.supabase.from('users').update"; "generateVerificationEmail"; "sendEmail"] ∧
   (Supabase.handle (Sample.world Sample.email_throws)).2
     = Normal (internal_server_error VUndefined)) ∧
  (Supabase.inserts (Sample.world update_answers_null)
     (Sample.supabase_steps update_answers_null) ∧
   call_name <$> calls (Supabase.handle (Sample.world update_answers_null)).1
     = ["request.json"; "db.users.findByEmail"; "bcrypt.hash"; "new Date";
        "db.users.create"; "Math.random"; "Date.now";
        "db.supabase.from('users').update"] ∧
   (Supabase.handle (Sample.world update_answers_null)).2
     = Normal (internal_server_error VUndefined)) ∧
  status (internal_server_error VUndefined) = 500 ∧
  field (json (internal_server_error VUndefined)) "success" = VBool false.
Proof.
  split; [|split; [|split]]; [| |reflexivity..].
  - split; [repeat split; vm_compute; reflexivity|].
    repeat split; vm_compute; reflexivity.
  - split; [repeat split; vm_compute; reflexivity|].
    repeat split; vm_compute; reflexivity.
Qed.

(** C6, amended. Once the insert has answered a row and every collaborator
    called after it returns (the random source, the clock and the email
    template answer, the verification-code update and the email helper return
    a result object), the handler returns status 201 with success:true
    whether or not the update reports an error and whether or not the email
    helper reports a failure: each of the two reported failures adds one
    warning to the console and nothing else; the calls and the response are
    those of a registration without failure, and the response depends on the
    inserted row only. *)
Theorem C6_reported_failures_do_not_fail_the_registration
    (w : World) (s : Supabase.steps) :
  Supabase.completes w s →
  (Supabase.handle w).2 = Normal (Supabase.created s) ∧
  status (Supabase.created s) = 201 ∧
  field (json (Supabase.created s)) "success" = VBool true ∧
  calls (Supabase.handle w).1 = Supabase.registration_calls w s ∧
  logged console_warn (Supabase.handle w).1 = Supabase.warnings s ∧
  (truthy (field (Supabase.updated s) "error") = true →
   truthy (field (Supabase.emailResult s) "success") = false →
   logged console_warn (Supabase.handle w).1
     = ["⚠️ Could not store verification code:"; "⚠️ Could not send verification email"]) ∧
  (∀ (w' : World) (s' : Supabase.steps),
     Supabase.completes w' s' →
     Supabase.newUser s' = Supabase.newUser s →
     (Supabase.handle w').2 = (Supabase.handle w).2).
Proof.
  intros Hs. destruct (supabase_registers w s Hs) as (Hcreated & Hcalls & Hwarn).
  split; [done|]. split; [done|]. split; [done|]. split; [done|]. split; [done|].
  split.
  - intros Herror Hsuccess. rewrite Hwarn. unfold Supabase.warnings.
    by rewrite Herror, Hsuccess.
  - intros w' s' Hs' Hrow. destruct (supabase_registers w' s' Hs') as (Hcreated' & _).
    rewrite Hcreated, Hcreated'. unfold Supabase.created. by rewrite Hrow.
Qed.

Lemma C6_witness :
  (Supabase.handle (Sample.world Sample.degraded)).2
    = Normal (Supabase.created (Sample.supabase_steps Sample.degraded)) ∧
  logged console_warn (Supabase.handle (Sample.world Sample.degraded)).1
    = ["⚠️ Could not store verification code:"; "⚠️ Could not send verification email"].
Proof.
  destruct (C6_reported_failures_do_not_fail_the_registration
              (Sample.world Sample.degraded) (Sample.supabase_steps Sample.degraded))
    as (Hcreated & _ & _ & _ & _ & Hwarn & _).
  - repeat split; vm_compute; reflexivity.
  - split; [exact Hcreated|]. apply Hwarn; reflexivity.
Defined.

(** ** Classification of the thrown values *)

Lemma handle_classifies (v : variant) (w : World) (e : value) :
  throws v w e →
  classifiable e = true →
  ∃ r, first_match (rules w e) = Some r ∧ (handle v w).2 = Normal r.
Proof.
  intros Hthrows Hclass. rewrite (handle_throws v w e Hthrows).
  by apply catch_block_first_match.
Qed.

Lemma handle_escapes (v : variant) (w : World) (e : value) :
  throws v w e →
  classifiable e = false →
  ∃ x, (handle v w).2 = Throw x.
Proof.
  intros Hthrows Hclass. rewrite (handle_throws v w e Hthrows).
  by apply catch_block_throws.
Qed.

Lemma mentions_string (e : value) (m needle : string) :
  field e "message" = VStr m → mentions e needle = includes needle m.
Proof. unfold mentions. by intros ->. Qed.

Lemma classifiable_string (e : value) (m : string) :
  nullish e = false → field e "message" = VStr m → classifiable e = true.
Proof.
  unfold classifiable. intros -> ->. simpl. apply orb_true_r.
Qed.

(** C7. An error thrown during the workflow is classified in this order: an
    error named ZodError gives 400 with its issues as details; otherwise a
    message containing "connect" or "ENOTFOUND" gives 500 "Database connection
    failed..."; otherwise a message containing "duplicate key" or "unique
    constraint" gives 400 "Email already exists"; otherwise a message
    containing both "relation" and "does not exist" gives 500; every other
    error gives the generic 500, whose error field is the underlying message
    when NODE_ENV is "development" and undefined otherwise.  Stated for both
    handlers. *)
Theorem C7_classification_of_thrown_errors (v : variant) (w : World) (e : value) :
  throws v w e →
  nullish e = false →
  (is_ZodError e = true →
   (handle v w).2 = Normal (invalid_input (field e "issues"))) ∧
  (is_ZodError e = false →
   ∀ m : string, field e "message" = VStr m →
     (includes "connect" m = true ∨ includes "ENOTFOUND" m = true →
      (handle v w).2 = Normal connection_failed) ∧
     (includes "connect" m = false → includes "ENOTFOUND" m = false →
      includes "duplicate key" m = true ∨ includes "unique constraint" m = true →
      (handle v w).2 = Normal email_already_exists) ∧
     (includes "connect" m = false → includes "ENOTFOUND" m = false →
      includes "duplicate key" m = false → includes "unique constraint" m = false →
      includes "relation" m = true → includes "does not exist" m = true →
      (handle v w).2 = Normal tables_not_found) ∧
     (includes "connect" m = false → includes "ENOTFOUND" m = false →
      includes "duplicate key" m = false → includes "unique constraint" m = false →
      includes "relation" m = false ∨ includes "does not exist" m = false →
      (handle v w).2
        = Normal (internal_server_error
                    (if strict_eq_string (env w "NODE_ENV") "development"
                     then VStr m else VUndefined)))) ∧
  (is_ZodError e = false →
   nullish (field e "message") = true →
   (handle v w).2
     = Normal (internal_server_error
                 (if strict_eq_string (env w "NODE_ENV") "development"
                  then field e "message" else VUndefined))).
Proof.
  intros Hthrows He. split; [|split].
  - intros Hzod.
    destruct (handle_classifies v w e Hthrows) as (r & Hr & ->).
    { unfold classifiable. by rewrite He, Hzod. }
    unfold rules in Hr. rewrite Hzod in Hr. by injection Hr as <-.
  - intros Hzod m Hm.
    destruct (handle_classifies v w e Hthrows) as (r & Hr & ->).
    { by apply (classifiable_string e m). }
    unfold rules in Hr. rewrite Hzod, !(mentions_string e m _ Hm), Hm in Hr.
    cbn [first_match] in Hr.
    split; [|split; [|split]].
    + intros [H|H]; rewrite H, ?orb_true_r in Hr; by injection Hr as <-.
    + intros H1 H2 [H|H]; rewrite H1, H2, H, ?orb_true_r in Hr; by injection Hr as <-.
    + intros H1 H2 H3 H4 H5 H6. rewrite H1, H2, H3, H4, H5, H6 in Hr. by injection Hr as <-.
    + intros H1 H2 H3 H4 [H|H]; rewrite H1, H2, H3, H4, H, ?andb_false_r in Hr;
        by injection Hr as <-.
  - intros Hzod Hm.
    destruct (handle_classifies v w e Hthrows) as (r & Hr & ->).
    { unfold classifiable. rewrite He, Hzod. by destruct (field e "message"). }
    unfold rules, mentions in Hr. rewrite Hzod in Hr.
    destruct (field e "message"); try discriminate Hm; by injection Hr as <-.
Qed.

Lemma C7_witness :
  (handle supabase
     (Sample.world
        (Sample.insert_throws
           (Error "duplicate key value violates unique constraint users_email_key")))).2
    = Normal email_already_exists ∧
  (handle drizzle
     (Sample.world (Sample.insert_throws (Error "relation users does not exist")))).2
    = Normal tables_not_found ∧
  (handle supabase (Sample.world (Sample.insert_throws (Error "out of memory")))).2
    = Normal (internal_server_error (VStr "out of memory")).
Proof.
  split; [|split].
  - destruct (C7_classification_of_thrown_errors supabase
                (Sample.world (Sample.insert_throws
                   (Error "duplicate key value violates unique constraint users_email_key")))
                (Error "duplicate key value violates unique constraint users_email_key"))
      as (_ & Hmessage & _); [vm_compute; reflexivity | reflexivity |].
    destruct (Hmessage eq_refl _ eq_refl) as (_ & Hduplicate & _).
    apply Hduplicate; [reflexivity | reflexivity | left; reflexivity].
  - destruct (C7_classification_of_thrown_errors drizzle
                (Sample.world (Sample.insert_throws (Error "relation users does not exist")))
                (Error "relation users does not exist"))
      as (_ & Hmessage & _); [vm_compute; reflexivity | reflexivity |].
    destruct (Hmessage eq_refl _ eq_refl) as (_ & _ & Hrelation & _).
    apply Hrelation; reflexivity.
  - destruct (C7_classification_of_thrown_errors supabase
                (Sample.world (Sample.insert_throws (Error "out of memory")))
                (Error "out of memory"))
      as (_ & Hmessage & _); [vm_compute; reflexivity | reflexivity |].
    destruct (Hmessage eq_refl _ eq_refl) as (_ & _ & _ & Hother).
    apply Hother; [reflexivity..|left; reflexivity].
Defined.

(** C8. When one of the two environment values the handler requires is unset,
    the handler returns a 500 response with success:false and a
    configuration-missing message, and no collaborator has been called: the
    body of the request has not been read and the database has not been
    reached.  Stated for both handlers. *)
Theorem C8_missing_configuration_fails_first :
  (∀ w : World,
     process_env w "SUPABASE_URL" = None ∨ process_env w "SUPABASE_ANON_KEY" = None →
     ∃ text,
       (Supabase.handle w).2 = Normal (failure text 500) ∧
       text ∈ ["Supabase configuration missing"; "Supabase anon key missing"] ∧
       calls (Supabase.handle w).1 = []) ∧
  (∀ w : World,
     process_env w "DATABASE_URL" = None ∨ process_env w "SUPABASE_URL" = None →
     ∃ text,
       (Drizzle.handle w).2 = Normal (failure text 500) ∧
       text ∈ ["Database configuration missing"; "Supabase configuration missing"] ∧
       calls (Drizzle.handle w).1 = []).
Proof.
  split; intros w Hunset.
  - apply supabase_configuration_missing.
    destruct Hunset as [H|H]; [left|right]; by apply unset_falsy.
  - apply drizzle_configuration_missing.
    destruct Hunset as [H|H]; [left|right]; by apply unset_falsy.
Qed.

Lemma C8_witness :
  (∃ text,
     (Supabase.handle (Sample.world Sample.unconfigured)).2 = Normal (failure text 500) ∧
     text ∈ ["Supabase configuration missing"; "Supabase anon key missing"] ∧
     calls (Supabase.handle (Sample.world Sample.unconfigured)).1 = []) ∧
  (∃ text,
     (Drizzle.handle (Sample.world Sample.unconfigured)).2 = Normal (failure text 500) ∧
     text ∈ ["Database configuration missing"; "Supabase configuration missing"] ∧
     calls (Drizzle.handle (Sample.world Sample.unconfigured)).1 = []).
Proof.
  split.
  - apply (proj1 C8_missing_configuration_fails_first (Sample.world Sample.unconfigured)).
    left. reflexivity.
  - apply (proj2 C8_missing_configuration_fails_first (Sample.world Sample.unconfigured)).
    left. reflexivity.
Defined.

(** C9, as stated, fails on a thrown [null]: the catch block reads
    [error.name], which throws a TypeError on [null], and that exception leaves
    the handler in place of a response. *)
Lemma C9_counterexample_thrown_null_escapes :
  throws supabase (Sample.world (Sample.request_throws VNull)) VNull ∧
  (handle supabase (Sample.world (Sample.request_throws VNull))).2
    = Throw (TypeError "Cannot read properties of null (reading 'name')") ∧
  ¬ ∃ r, (handle supabase (Sample.world (Sample.request_throws VNull))).2 = Normal r.
Proof.
  split; [vm_compute; reflexivity|].
  assert ((handle supabase (Sample.world (Sample.request_throws VNull))).2
          = Throw (TypeError "Cannot read properties of null (reading 'name')")) as H
    by (vm_compute; reflexivity).
  split; [exact H|]. rewrite H. by intros [r Hr].
Qed.

(** C9, amended. Every value thrown during the workflow that is not [null] or
    [undefined], and that is named ZodError or has a message that is
    undefined, null, a string or an array, is caught at the boundary of the
    handler and answered with one response, a failure with success:false and
    status 400 or 500; no exception leaves the handler.  Every error object
    with a string message and every thrown string, number or boolean is such a
    value.  Stated for both handlers. *)
Theorem C9_thrown_values_are_answered (v : variant) (w : World) (e : value) :
  throws v w e →
  nullish e = false →
  is_ZodError e = true ∨ searchable (field e "message") = true →
  ∃ r, (handle v w).2 = Normal r ∧
       (status r = 400 ∨ status r = 500) ∧
       field (json r) "success" = VBool false.
Proof.
  intros Hthrows He Hm.
  assert (classifiable e = true) as Hclass.
  { unfold classifiable. rewrite He. by apply orb_true_iff in Hm as ->. }
  destruct (handle_classifies v w e Hthrows Hclass) as (r & _ & Hr).
  exists r. split; [done|].
  rewrite (handle_throws v w e Hthrows) in Hr.
  destruct (run w (catch_block w e)) as [tr c] eqn:Hrun. cbn [snd] in Hr. subst c.
  by apply (catch_block_failure w e tr).
Qed.

Lemma C9_witness :
  ∃ r, (handle drizzle (Sample.world (Sample.request_throws (VStr "aborted")))).2 = Normal r ∧
       (status r = 400 ∨ status r = 500) ∧
       field (json r) "success" = VBool false.
Proof.
  apply (C9_thrown_values_are_answered drizzle
           (Sample.world (Sample.request_throws (VStr "aborted"))) (VStr "aborted")).
  - vm_compute; reflexivity.
  - reflexivity.
  - right. vm_compute; reflexivity.
Defined.

(** Which values are classifiable. *)
Lemma classifiable_values (e : value) :
  match e with
  | VUndefined | VNull => classifiable e = false
  | VBool _ | VNum _ | VStr _ | VArr _ => classifiable e = true
  | VObj m =>
      (∀ text, m !! "message" = Some (VStr text) → classifiable e = true) ∧
      (m !! "message" = None → classifiable e = true)
  end.
Proof.
  destruct e as [| | b | n | s | l | m]; try done.
  - unfold classifiable, is_ZodError. by rewrite !field_of_string.
  - unfold classifiable, is_ZodError. by rewrite !field_of_array.
  - unfold classifiable, field. simpl. split.
    + intros text ->. apply orb_true_r.
    + intros ->. apply orb_true_r.
Qed.

Lemma thrown_strings_are_answered (v : variant) (w : World) (text : string) :
  throws v w (VStr text) →
  (handle v w).2 = Normal (internal_server_error VUndefined).
Proof.
  intros Hthrows.
  destruct (handle_classifies v w (VStr text) Hthrows) as (r & Hr & ->).
  { unfold classifiable, is_ZodError. by rewrite !field_of_string. }
  unfold rules, mentions, is_ZodError in Hr. rewrite !field_of_string in Hr by done.
  cbn in Hr. injection Hr as <-.
  by destruct (strict_eq_string (env w "NODE_ENV") "development").
Qed.

Lemma is_ZodError_name (e : value) :
  is_ZodError e = true ↔ field e "name" = VStr "ZodError".
Proof.
  unfold is_ZodError, strict_eq_string.
  destruct (field e "name") as [| | | |name| |]; try (split; [done|discriminate]).
  rewrite String.eqb_eq. split; [by intros ->|by intros [= ->]].
Qed.

Lemma includes_contains (needle hay : string) :
  includes needle hay = true ↔ contains needle hay.
Proof. apply includes_substring. Qed.

Lemma includes_not_contains (needle hay : string) :
  includes needle hay = false ↔ ¬ contains needle hay.
Proof. rewrite <- includes_contains. by destruct (includes needle hay). Qed.

(** The rule that answers an error with a string message that is not a
    validation error. *)
Lemma first_match_string_message (w : World) (e : value) (m : string) :
  is_ZodError e = false →
  field e "message" = VStr m →
  first_match (rules w e) =
    Some (if includes "connect" m || includes "ENOTFOUND" m then connection_failed
          else if includes "duplicate key" m || includes "unique constraint" m
               then email_already_exists
          else if includes "relation" m && includes "does not exist" m
               then tables_not_found
          else internal_server_error
                 (if strict_eq_string (env w "NODE_ENV") "development"
                  then VStr m else VUndefined)).
Proof.
  intros Hzod Hm. unfold rules.
  rewrite Hzod, !(mentions_string e m _ Hm), Hm. cbn [first_match].
  by repeat case_match.
Qed.

Lemma connection_failed_is_not_email_already_exists :
  Normal connection_failed ≠ Normal email_already_exists.
Proof.
  intros H.
  apply (f_equal (fun c => match c with
                           | Normal r => status r
                           | Throw _ => 0
                           end)) in H.
  discriminate H.
Qed.

(** C10, as the specification states it, fails on an error named ZodError
    whose message contains a connectivity substring and a uniqueness
    substring: the validation rule comes first and answers 400 "Invalid input
    data", not the 500 connection-failed response. *)
Lemma C10_counterexample_validation_error_with_both_substrings :
  throws supabase (Sample.world (Sample.insert_throws validation_error_about_the_store))
    validation_error_about_the_store ∧
  field validation_error_about_the_store "message"
    = VStr "could not connect: duplicate key users_email_key" ∧
  connectivity_message "could not connect: duplicate key users_email_key" ∧
  uniqueness_message "could not connect: duplicate key users_email_key" ∧
  (handle supabase
     (Sample.world (Sample.insert_throws validation_error_about_the_store))).2
    = Normal (invalid_input VUndefined) ∧
  (handle supabase
     (Sample.world (Sample.insert_throws validation_error_about_the_store))).2
    ≠ Normal connection_failed.
Proof.
  split; [vm_compute; reflexivity|]. split; [reflexivity|].
  split; [left; by exists "could not ", ": duplicate key users_email_key"|].
  split; [left; by exists "could not connect: ", " users_email_key"|].
  assert ((handle supabase
             (Sample.world (Sample.insert_throws validation_error_about_the_store))).2
          = Normal (invalid_input VUndefined)) as H by (vm_compute; reflexivity).
  split; [exact H|]. rewrite H. intros H'.
  apply (f_equal (fun c => match c with
                           | Normal r => status r
                           | Throw _ => 0
                           end)) in H'.
  discriminate H'.
Qed.

(** C10, amended. The classification is a first-match cascade in a fixed
    order.  An error named ZodError is answered by the validation rule, 400
    with its issues, whatever its message.  An error of another name with a
    string message is answered by the connectivity rule when the message
    contains "connect" or "ENOTFOUND"; by the uniqueness rule when it contains
    neither but contains "duplicate key" or "unique constraint"; by the
    missing-relation rule when no earlier rule applies and it contains both
    "relation" and "does not exist"; by the generic rule otherwise.  So an
    error that is not named ZodError and whose message contains both a
    connectivity substring and a uniqueness substring gets the 500
    connection-failed response, not the 400 "Email already exists" response.
    Stated for both handlers, for every value thrown in the try block other
    than null and undefined. *)
Theorem C10_connectivity_is_matched_before_uniqueness
    (v : variant) (w : World) (e : value) :
  throws v w e →
  nullish e = false →
  (field e "name" = VStr "ZodError" →
   (handle v w).2 = Normal (invalid_input (field e "issues"))) ∧
  (field e "name" ≠ VStr "ZodError" →
   ∀ m : string, field e "message" = VStr m →
     (connectivity_message m →
      (handle v w).2 = Normal connection_failed) ∧
     (¬ connectivity_message m → uniqueness_message m →
      (handle v w).2 = Normal email_already_exists) ∧
     (¬ connectivity_message m → ¬ uniqueness_message m → missing_relation_message m →
      (handle v w).2 = Normal tables_not_found) ∧
     (¬ connectivity_message m → ¬ uniqueness_message m → ¬ missing_relation_message m →
      (handle v w).2
        = Normal (internal_server_error
                    (if strict_eq_string (env w "NODE_ENV") "development"
                     then VStr m else VUndefined))) ∧
     (connectivity_message m → uniqueness_message m →
      (handle v w).2 = Normal connection_failed ∧
      (handle v w).2 ≠ Normal email_already_exists)).
Proof.
  intros Hthrows He. split.
  - intros Hzod%is_ZodError_name.
    destruct (handle_classifies v w e Hthrows) as (r & Hr & ->).
    { unfold classifiable. by rewrite He, Hzod. }
    unfold rules in Hr. rewrite Hzod in Hr. by injection Hr as <-.
  - intros Hname m Hm.
    assert (is_ZodError e = false) as Hzod.
    { destruct (is_ZodError e) eqn:H; [|done]. by apply is_ZodError_name in H. }
    destruct (handle_classifies v w e Hthrows) as (r & Hr & ->).
    { by apply (classifiable_string e m). }
    rewrite (first_match_string_message w e m Hzod Hm) in Hr. injection Hr as <-.
    unfold connectivity_message, uniqueness_message, missing_relation_message.
    rewrite <- !includes_contains.
    pose proof connection_failed_is_not_email_already_exists as Hne.
    destruct (includes "connect" m), (includes "ENOTFOUND" m);
      destruct (includes "duplicate key" m), (includes "unique constraint" m);
      destruct (includes "relation" m), (includes "does not exist" m);
      cbn [orb andb]; intuition congruence.
Qed.

Lemma C10_witness :
  (handle supabase
     (Sample.world
        (Sample.insert_throws
           (Error "could not connect while checking duplicate key users_email_key")))).2
    = Normal connection_failed ∧
  (handle drizzle
     (Sample.world
        (Sample.insert_throws
           (Error "duplicate key value violates unique constraint users_email_key")))).2
    = Normal email_already_exists.
Proof.
  split.
  - destruct (C10_connectivity_is_matched_before_uniqueness supabase
                (Sample.world
                   (Sample.insert_throws
                      (Error "could not connect while checking duplicate key users_email_key")))
                (Error "could not connect while checking duplicate key users_email_key"))
      as [_ Hmessage]; [vm_compute; reflexivity | reflexivity |].
    destruct (Hmessage ltac:(discriminate) _ eq_refl) as (_ & _ & _ & _ & Hboth).
    apply Hboth.
    + left. by exists "could not ", " while checking duplicate key users_email_key".
    + left. by exists "could not connect while checking ", " users_email_key".
  - destruct (C10_connectivity_is_matched_before_uniqueness drizzle
                (Sample.world
                   (Sample.insert_throws
                      (Error "duplicate key value violates unique constraint users_email_key")))
                (Error "duplicate key value violates unique constraint users_email_key"))
      as [_ Hmessage]; [vm_compute; reflexivity | reflexivity |].
    destruct (Hmessage ltac:(discriminate) _ eq_refl) as (_ & Hunique & _).
    apply Hunique.
    + intros [H|H]; apply includes_contains in H; discriminate H.
    + left. by exists "", " value violates unique constraint users_email_key".
Defined.

(** * Further properties of the handlers *)

Ltac in_calls H :=
  repeat (apply elem_of_cons in H as [H|H]; [try discriminate H|]);
  try (by apply elem_of_nil in H).

Ltac find_call := repeat first [apply list_elem_of_here | apply list_elem_of_further].

Lemma calls_in_order (v : variant) (w : World) :
  (call_name <$> calls (handle v w).1) `prefix_of` pipeline v.
Proof.
  rewrite handle_calls. destruct v; cbn [try_block pipeline].
  - unfold Supabase.try_block, registerUserSchema_parse.
    exec_any; cbn [calls fst fmap list_fmap call_name]; eexists; reflexivity.
  - unfold Drizzle.try_block, Drizzle.connection_test, registerUserSchema_parse.
    exec_any; cbn [calls fst fmap list_fmap call_name]; eexists; reflexivity.
Qed.

(** X1. Whatever the collaborators answer, the calls of a request are an
    initial segment of the pipeline of its handler, in that order (body,
    lookup, hash, insert, and for the Supabase handler code, update, template,
    email), and no call is made twice: the handlers skip nothing, reorder
    nothing and retry nothing, and the catch block calls no collaborator. *)
Theorem X1_calls_follow_the_pipeline (v : variant) (w : World) :
  (call_name <$> calls (handle v w).1) `prefix_of` pipeline v ∧
  NoDup (calls (handle v w).1).
Proof. split; [apply calls_in_order | apply calls_once]. Qed.

Lemma try_block_status (v : variant) (w : World) (tr : list event) (r : response) :
  run w (try_block v w) = (tr, Normal r) →
  (status r = 201 ∧ field (json r) "success" = VBool true) ∨
  ((status r = 400 ∨ status r = 500) ∧ field (json r) "success" = VBool false).
Proof.
  destruct v; cbn [try_block].
  - unfold Supabase.try_block, registerUserSchema_parse.
    exec_any; try (intros [=]; fail); intros [= _ <-]; cbn [status NextResponse_json];
      first [left; split; reflexivity | right; split; [auto|reflexivity]].
  - unfold Drizzle.try_block, Drizzle.connection_test, registerUserSchema_parse.
    exec_any; try (intros [=]; fail); intros [= _ <-]; cbn [status NextResponse_json];
      first [left; split; reflexivity | right; split; [auto|reflexivity]].
Qed.

(** X2. Every response of a handler has status 201, 400 or 500, and its
    success flag is true exactly when the status is 201. *)
Theorem X2_success_flag_agrees_with_status (v : variant) (w : World) (r : response) :
  (handle v w).2 = Normal r →
  (status r = 201 ∧ field (json r) "success" = VBool true) ∨
  ((status r = 400 ∨ status r = 500) ∧ field (json r) "success" = VBool false).
Proof.
  rewrite handle_unfold, run_try_catch.
  destruct (run w (try_block v w)) as [tr [a|e]] eqn:Htry; cbn [snd].
  - intros [= ->]. by apply (try_block_status v w tr).
  - destruct (run w (catch_block w e)) as [tr' [a|e']] eqn:Hcatch; cbn [snd]; [|done].
    intros [= ->]. right. by apply (catch_block_failure w e tr').
Qed.

Lemma X2_witness :
  (status (Supabase.created (Sample.supabase_steps Sample.fresh)) = 201 ∧
   field (json (Supabase.created (Sample.supabase_steps Sample.fresh))) "success"
     = VBool true) ∨
  ((status (Supabase.created (Sample.supabase_steps Sample.fresh)) = 400 ∨
    status (Supabase.created (Sample.supabase_steps Sample.fresh)) = 500) ∧
   field (json (Supabase.created (Sample.supabase_steps Sample.fresh))) "success"
     = VBool false).
Proof.
  apply (X2_success_flag_agrees_with_status supabase (Sample.world Sample.fresh)).
  vm_compute; reflexivity.
Defined.

(** X3. An exception leaves a handler exactly when its try block throws a
    value the catch block cannot classify ([null], [undefined], or a value not
    named ZodError whose message has no [includes] to call): then, and only
    then, the request gets no response. *)
Theorem X3_exceptions_that_escape (v : variant) (w : World) :
  (∃ x, (handle v w).2 = Throw x) ↔ ∃ e, throws v w e ∧ classifiable e = false.
Proof.
  split.
  - intros [x Hx].
    destruct (run w (try_block v w)) as [tr [a|e]] eqn:Htry.
    + rewrite (handle_returns v w a) in Hx; [done|by rewrite Htry].
    + assert (throws v w e) as Hthrows by (unfold throws; by rewrite Htry).
      exists e. split; [done|].
      destruct (classifiable e) eqn:Hclass; [|done].
      destruct (handle_classifies v w e Hthrows Hclass) as (r & _ & Hr). congruence.
  - intros (e & Hthrows & Hclass). by apply (handle_escapes v w e).
Qed.

Lemma connect_in_test_message (text : string) :
  includes "connect" ("Database connection test failed: " +:+ text) = true.
Proof.
  apply includes_substring. by exists "Database ", ("ion test failed: " +:+ text).
Qed.

Lemma drizzle_probe_throws (w : World) (body : value) (data : RegisterData)
    (dbError : value) :
  Drizzle.validates w body data →
  answer w getDb = Normal tt →
  answer w db_select_users_limit_1 = Throw dbError →
  nullish dbError = false →
  (run w (Drizzle.try_block w)).2 =
    match ToString w (field dbError "message") with
    | Normal text => Throw (Error ("Database connection test failed: " +:+ text))
    | Throw x => Throw x
    end ∧
  calls (run w (Drizzle.try_block w)).1 = [request_json; getDb; db_select_users_limit_1].
Proof.
  intros ((Hurl & Hkey) & Hjson & Hvalid) Hdb Hprobe HdbError.
  unfold Drizzle.try_block, Drizzle.connection_test, registerUserSchema_parse.
  exec. unfold interpolate.
  destruct (ToString w (field dbError "message")); exec; split; reflexivity.
Qed.

Lemma failed_connection_test_response (w : World) (text : string) :
  throws drizzle w (Error ("Database connection test failed: " +:+ text)) →
  (Drizzle.handle w).2 = Normal connection_failed.
Proof.
  intros Hthrows.
  set (e := Error ("Database connection test failed: " +:+ text)) in *.
  change (Drizzle.handle w) with (handle drizzle w).
  destruct (handle_classifies drizzle w e Hthrows) as (r & Hr & ->).
  { by apply (classifiable_string e _ eq_refl eq_refl). }
  unfold rules in Hr.
  rewrite (mentions_string e _ "connect" eq_refl), connect_in_test_message in Hr.
  change (is_ZodError e) with false in Hr. cbn [first_match orb] in Hr.
  by injection Hr as <-.
Qed.

(** X4. In the Drizzle handler, when the test query throws a value other than
    null or undefined, the handler interpolates the message of that value in
    the message of a new Error.  When the message converts to a string, the
    new Error is thrown and the request is answered with the 500 "Database
    connection failed" response, whatever the name and the message of the
    value thrown by the query, because the message of the new Error contains
    "connect"; this is so whenever the message is undefined, null, a boolean
    or a string.  When the conversion of the message throws, the exception of
    the conversion is what the try block throws, in place of the new Error.
    In both cases the calls stop at the test query: neither the lookup nor the
    insert is reached. *)
Theorem X4_failed_connection_test_is_a_connection_failure
    (w : World) (body : value) (data : RegisterData) (dbError : value) :
  Drizzle.validates w body data →
  answer w getDb = Normal tt →
  answer w db_select_users_limit_1 = Throw dbError →
  nullish dbError = false →
  calls (Drizzle.handle w).1 = [request_json; getDb; db_select_users_limit_1] ∧
  (∀ text, ToString w (field dbError "message") = Normal text →
     throws drizzle w (Error ("Database connection test failed: " +:+ text)) ∧
     (Drizzle.handle w).2 = Normal connection_failed) ∧
  (∀ x, ToString w (field dbError "message") = Throw x → throws drizzle w x) ∧
  match field dbError "message" with
  | VUndefined | VNull | VBool _ | VStr _ => (Drizzle.handle w).2 = Normal connection_failed
  | VNum _ | VArr _ | VObj _ => True
  end.
Proof.
  intros Hvalid Hdb Hprobe HdbError.
  destruct (drizzle_probe_throws w body data dbError Hvalid Hdb Hprobe HdbError)
    as [Hthrows Hcalls].
  assert (∀ text, ToString w (field dbError "message") = Normal text →
            throws drizzle w (Error ("Database connection test failed: " +:+ text)) ∧
            (Drizzle.handle w).2 = Normal connection_failed) as Htext.
  { intros text Htext. rewrite Htext in Hthrows.
    split; [exact Hthrows|]. by apply (failed_connection_test_response w text). }
  split; [|split; [|split]].
  - change (Drizzle.handle w) with (handle drizzle w).
    rewrite handle_calls. exact Hcalls.
  - exact Htext.
  - intros x Hx. by rewrite Hx in Hthrows.
  - destruct (field dbError "message") as [| |b| |m| |] eqn:Hm; try done.
    all: by eapply Htext.
Qed.

Lemma X4_witness :
  (Drizzle.handle
     (answering Sample.fresh
        (failing_probe Sample.fresh (js_error "ZodError" "duplicate key")))).2
    = Normal connection_failed ∧
  calls (Drizzle.handle
           (answering Sample.fresh
              (failing_probe Sample.fresh (js_error "ZodError" "duplicate key")))).1
    = [request_json; getDb; db_select_users_limit_1].
Proof.
  destruct (X4_failed_connection_test_is_a_connection_failure
              (answering Sample.fresh
                 (failing_probe Sample.fresh (js_error "ZodError" "duplicate key")))
              Sample.payload (Sample.data (own_props Sample.payload))
              (js_error "ZodError" "duplicate key"))
    as (Hcalls & Htext & _).
  - repeat split; vm_compute; reflexivity.
  - reflexivity.
  - reflexivity.
  - reflexivity.
  - split; [|exact Hcalls]. by apply (Htext "duplicate key").
Defined.

(** A message that cannot be converted: the TypeError of the conversion takes
    the place of the connection error, and the answer is the generic 500. *)
Example failed_connection_test_without_text :
  throws drizzle (answering Sample.fresh (failing_probe Sample.fresh error_without_text))
    (TypeError "Cannot convert object to primitive value") ∧
  (Drizzle.handle
     (answering Sample.fresh (failing_probe Sample.fresh error_without_text))).2
    = Normal (internal_server_error VUndefined).
Proof. split; vm_compute; reflexivity. Qed.

Lemma missing_falsy (w : World) (name : string) :
  missing w name ↔ truthy (env w name) = false.
Proof.
  unfold missing, env. destruct (process_env w name) as [[|c s]|]; simpl.
  - split; [done|]. by right.
  - split; [|done]. by intros [H|H].
  - split; [done|]. by left.
Qed.

Lemma supabase_missing_url (w : World) :
  truthy (env w "SUPABASE_URL") = false →
  Supabase.handle w =
    ([ELog console_log "🔍 Registration API called" [];
      ELog console_error "❌ SUPABASE_URL not set" []],
     Normal (failure "Supabase configuration missing" 500)).
Proof.
  intros H. unfold Supabase.handle, Supabase.POST, Supabase.try_block. exec. reflexivity.
Qed.

Lemma supabase_missing_key (w : World) :
  truthy (env w "SUPABASE_URL") = true →
  truthy (env w "SUPABASE_ANON_KEY") = false →
  Supabase.handle w =
    ([ELog console_log "🔍 Registration API called" [];
      ELog console_error "❌ SUPABASE_ANON_KEY not set" []],
     Normal (failure "Supabase anon key missing" 500)).
Proof.
  intros H1 H2. unfold Supabase.handle, Supabase.POST, Supabase.try_block. exec. reflexivity.
Qed.

Lemma drizzle_missing_database_url (w : World) :
  truthy (env w "DATABASE_URL") = false →
  Drizzle.handle w =
    ([ELog console_log "🔍 Registration API called" [];
      ELog console_error "❌ DATABASE_URL not set" []],
     Normal (failure "Database configuration missing" 500)).
Proof.
  intros H. unfold Drizzle.handle, Drizzle.POST, Drizzle.try_block. exec. reflexivity.
Qed.

Lemma drizzle_missing_url (w : World) :
  truthy (env w "DATABASE_URL") = true →
  truthy (env w "SUPABASE_URL") = false →
  Drizzle.handle w =
    ([ELog console_log "🔍 Registration API called" [];
      ELog console_error "❌ SUPABASE_URL not set" []],
     Normal (failure "Supabase configuration missing" 500)).
Proof.
  intros H1 H2. unfold Drizzle.handle, Drizzle.POST, Drizzle.try_block. exec. reflexivity.
Qed.

(** X5. The settings are checked in the order of the source, and a setting
    that is set to the empty string counts as missing like one that is unset:
    the first missing setting decides the message of the 500 response
    (SUPABASE_URL then SUPABASE_ANON_KEY in the Supabase handler, DATABASE_URL
    then SUPABASE_URL in the Drizzle handler), one console.error line names it,
    and no collaborator is called. *)
Theorem X5_first_missing_setting_decides_the_message :
  (∀ w, missing w "SUPABASE_URL" →
     (Supabase.handle w).2 = Normal (failure "Supabase configuration missing" 500) ∧
     calls (Supabase.handle w).1 = [] ∧
     logged console_error (Supabase.handle w).1 = ["❌ SUPABASE_URL not set"]) ∧
  (∀ w, ¬ missing w "SUPABASE_URL" → missing w "SUPABASE_ANON_KEY" →
     (Supabase.handle w).2 = Normal (failure "Supabase anon key missing" 500) ∧
     calls (Supabase.handle w).1 = [] ∧
     logged console_error (Supabase.handle w).1 = ["❌ SUPABASE_ANON_KEY not set"]) ∧
  (∀ w, missing w "DATABASE_URL" →
     (Drizzle.handle w).2 = Normal (failure "Database configuration missing" 500) ∧
     calls (Drizzle.handle w).1 = [] ∧
     logged console_error (Drizzle.handle w).1 = ["❌ DATABASE_URL not set"]) ∧
  (∀ w, ¬ missing w "DATABASE_URL" → missing w "SUPABASE_URL" →
     (Drizzle.handle w).2 = Normal (failure "Supabase configuration missing" 500) ∧
     calls (Drizzle.handle w).1 = [] ∧
     logged console_error (Drizzle.handle w).1 = ["❌ SUPABASE_URL not set"]).
Proof.
  split; [|split; [|split]].
  - intros w H%missing_falsy. by rewrite (supabase_missing_url w H).
  - intros w H1 H2%missing_falsy. rewrite missing_falsy in H1.
    apply not_false_is_true in H1. by rewrite (supabase_missing_key w H1 H2).
  - intros w H%missing_falsy. by rewrite (drizzle_missing_database_url w H).
  - intros w H1 H2%missing_falsy. rewrite missing_falsy in H1.
    apply not_false_is_true in H1. by rewrite (drizzle_missing_url w H1 H2).
Qed.

Lemma or_null_cases (o : option string) :
  or_value (optional o) VNull =
  match o with
  | Some (String c s) => VStr (String c s)
  | _ => VNull
  end.
Proof. by destruct o as [[|c s]|]. Qed.

Lemma X5_witness :
  (Supabase.handle (Sample.world empty_url)).2
    = Normal (failure "Supabase configuration missing" 500) ∧
  (Drizzle.handle (Sample.world empty_url)).2
    = Normal (failure "Supabase configuration missing" 500).
Proof.
  split.
  - apply (proj1 X5_first_missing_setting_decides_the_message (Sample.world empty_url)).
    right. reflexivity.
  - apply (proj2 (proj2 (proj2 X5_first_missing_setting_decides_the_message))
             (Sample.world empty_url)).
    + intros [H|H]; vm_compute in H; discriminate H.
    + right. reflexivity.
Defined.

Lemma or_null_stored (o : option string) :
  null_unless_text o (or_value (optional o) VNull).
Proof.
  rewrite or_null_cases. destruct o as [[|c s]|]; repeat split; try done.
  - by intros text [= <-] Hne.
  - by intros [H|H].
  - by intros text [= <-] _.
Qed.

Lemma optional_passed_on (o : option string) : passed_on o (optional o).
Proof. destruct o as [s|]; split; try done. by intros text [= <-]. Qed.

(** X6. In the record of the Supabase handler each optional field of the
    validated data goes to its own column (lastName to last_name, phone to
    phone, schoolId to school_id, businessRegNumber to business_reg_number,
    address to address, profileImageUrl to profile_image_url), as null when
    the field is absent or the empty string and as the text given otherwise:
    never undefined and never the empty string.  The Drizzle handler passes
    lastName, phone, schoolId and businessRegNumber on as they are, undefined
    when absent and an empty string kept, and its record has neither address
    nor profileImageUrl. *)
Theorem X6_optional_fields_of_the_record (data : RegisterData) (hash created_at : string) :
  (null_unless_text (lastName data)
     (field (Supabase.new_user_record data hash created_at) "last_name") ∧
   null_unless_text (phone data)
     (field (Supabase.new_user_record data hash created_at) "phone") ∧
   null_unless_text (schoolId data)
     (field (Supabase.new_user_record data hash created_at) "school_id") ∧
   null_unless_text (businessRegNumber data)
     (field (Supabase.new_user_record data hash created_at) "business_reg_number") ∧
   null_unless_text (address data)
     (field (Supabase.new_user_record data hash created_at) "address") ∧
   null_unless_text (profileImageUrl data)
     (field (Supabase.new_user_record data hash created_at) "profile_image_url")) ∧
  (passed_on (lastName data) (field (Drizzle.new_user_values data hash) "lastName") ∧
   passed_on (phone data) (field (Drizzle.new_user_values data hash) "phone") ∧
   passed_on (schoolId data) (field (Drizzle.new_user_values data hash) "schoolId") ∧
   passed_on (businessRegNumber data)
     (field (Drizzle.new_user_values data hash) "businessRegNumber") ∧
   field (Drizzle.new_user_values data hash) "address" = VUndefined ∧
   field (Drizzle.new_user_values data hash) "profileImageUrl" = VUndefined).
Proof.
  split.
  - split; [exact (or_null_stored (lastName data))|].
    split; [exact (or_null_stored (phone data))|].
    split; [exact (or_null_stored (schoolId data))|].
    split; [exact (or_null_stored (businessRegNumber data))|].
    split; [exact (or_null_stored (address data))|].
    exact (or_null_stored (profileImageUrl data)).
  - split; [exact (optional_passed_on (lastName data))|].
    split; [exact (optional_passed_on (phone data))|].
    split; [exact (optional_passed_on (schoolId data))|].
    split; [exact (optional_passed_on (businessRegNumber data))|].
    split; reflexivity.
Qed.

(** X7. Nothing is inserted unless the settings are present, the payload has
    passed the schema, the lookup by email has found no user and the password
    has been hashed: in every run, an insert call carries the record built from
    the validated data, and its password-hash field is the answer of
    [bcrypt.hash] on the validated password with 12 rounds.  Stated for both
    handlers (the Drizzle handler also requires the connection test). *)
Theorem X7_insert_only_after_validation_lookup_and_hash :
  (∀ (w : World) (user : value),
     db_users_create user ∈ calls (Supabase.handle w).1 →
     ∃ s, supabase_reaches_insert w s ∧
          user = Supabase.stored w s ∧
          field user "password_hash" = VStr (Supabase.passwordHash s)) ∧
  (∀ (w : World) (user : value),
     db_insert_users_returning user ∈ calls (Drizzle.handle w).1 →
     ∃ s, drizzle_reaches_insert w s ∧
          user = Drizzle.stored s ∧
          field user "passwordHash" = VStr (Drizzle.passwordHash s)).
Proof.
  split; intros w user.
  - change (Supabase.handle w) with (handle supabase w).
    rewrite handle_calls. cbn [try_block].
    unfold Supabase.try_block, registerUserSchema_parse.
    exec_any; cbn [calls fst]; intros Hin; in_calls Hin.
    all: injection Hin as ->.
    all: eexists (Supabase.Build_steps _ _ _ _ _ VUndefined 0%Q 0 VUndefined "" VUndefined).
    all: unfold supabase_reaches_insert, Supabase.validates, Supabase.configured,
           Supabase.stored; cbn.
    all: repeat split; try eassumption; reflexivity.
  - change (Drizzle.handle w) with (handle drizzle w).
    rewrite handle_calls. cbn [try_block].
    unfold Drizzle.try_block, Drizzle.connection_test, registerUserSchema_parse.
    exec_any; cbn [calls fst]; intros Hin; in_calls Hin.
    all: injection Hin as ->.
    all: eexists (Drizzle.Build_steps _ _ _ _ _ []).
    all: unfold drizzle_reaches_insert, Drizzle.validates, Drizzle.configured,
           Drizzle.connects, Drizzle.stored; cbn.
    all: repeat match goal with u : answer_type getDb |- _ => destruct u end.
    all: repeat split; try eassumption; reflexivity.
Qed.

Lemma X7_witness :
  ∃ s, supabase_reaches_insert (Sample.world Sample.fresh) s ∧
       Supabase.stored (Sample.world Sample.fresh) (Sample.supabase_steps Sample.fresh)
         = Supabase.stored (Sample.world Sample.fresh) s ∧
       field (Supabase.stored (Sample.world Sample.fresh)
                (Sample.supabase_steps Sample.fresh)) "password_hash"
         = VStr (Supabase.passwordHash s).
Proof.
  apply (proj1 X7_insert_only_after_validation_lookup_and_hash (Sample.world Sample.fresh)).
  do 4 apply list_elem_of_further. apply list_elem_of_here.
Defined.

(** X8. The code of the verification email is the code of the update: in
    every run of the Supabase handler in which the email template is called
    with a code, that code is the one computed from the reading of
    [Math.random()], and the update has been called before with that code as
    verification_code (whatever the update then answered). *)
Theorem X8_emailed_code_is_the_code_of_the_update (w : World) (code userName : string) :
  generateVerificationEmail code userName ∈ calls (Supabase.handle w).1 →
  ∃ (random : Q) (fields id : value),
    answer w Math_random = Normal random ∧
    code = Supabase.verificationCode random ∧
    supabase_users_update fields id ∈ calls (Supabase.handle w).1 ∧
    field fields "verification_code" = VStr code.
Proof.
  change (Supabase.handle w) with (handle supabase w).
  rewrite handle_calls. cbn [try_block].
  unfold Supabase.try_block, registerUserSchema_parse.
  exec_any; cbn [calls fst]; intros Hin; in_calls Hin.
  all: injection Hin as -> ->.
  all: eexists _, _, _; split; [reflexivity|]; split; [reflexivity|].
  all: split; [find_call | reflexivity].
Qed.

Lemma X8_witness :
  ∃ (random : Q) (fields id : value),
    answer (Sample.world Sample.degraded) Math_random = Normal random ∧
    "100000" = Supabase.verificationCode random ∧
    supabase_users_update fields id
      ∈ calls (Supabase.handle (Sample.world Sample.degraded)).1 ∧
    field fields "verification_code" = VStr "100000".
Proof.
  apply (X8_emailed_code_is_the_code_of_the_update (Sample.world Sample.degraded)
           "100000" "A").
  do 8 apply list_elem_of_further. apply list_elem_of_here.
Defined.


Lemma handle_failure (v : variant) (w : World) (e : value) :
  throws v w e →
  classifiable e = true →
  ∃ r, first_match (rules w e) = Some r ∧
       (handle v w).2 = Normal r ∧
       (status r = 400 ∨ status r = 500) ∧
       field (json r) "success" = VBool false.
Proof.
  intros Hthrows Hclass.
  destruct (handle_classifies v w e Hthrows Hclass) as (r & Hfirst & Hr).
  exists r. split; [done|]. split; [done|].
  rewrite (handle_throws v w e Hthrows) in Hr.
  destruct (run w (catch_block w e)) as [tr c] eqn:Hrun. cbn [snd] in Hr. subst c.
  by apply (catch_block_failure w e tr).
Qed.

Lemma supabase_update_throws (w : World) (s : Supabase.steps) (e : value) :
  Supabase.inserts w s →
  answer w Math_random = Normal (Supabase.random s) →
  answer w Date_now = Normal (Supabase.now s) →
  answer w (supabase_users_update (Supabase.verification w s)
              (field (Supabase.newUser s) "id")) = Throw e →
  (run w (Supabase.try_block w)).2 = Throw e ∧
  calls (run w (Supabase.try_block w)).1 = take 8 (Supabase.registration_calls w s).
Proof.
  intros (((Hurl & Hkey) & Hjson & Hvalid) & Hfind & Hfresh & Hhash & Hdate & Hcreate & Hrow)
         Hrandom Hnow Hupdate.
  unfold Supabase.try_block, registerUserSchema_parse.
  unfold Supabase.stored, Supabase.verification in *.
  exec. split; reflexivity.
Qed.

Lemma supabase_email_throws (w : World) (s : Supabase.steps) (e : value) :
  Supabase.inserts w s →
  answer w Math_random = Normal (Supabase.random s) →
  answer w Date_now = Normal (Supabase.now s) →
  answer w (supabase_users_update (Supabase.verification w s)
              (field (Supabase.newUser s) "id")) = Normal (Supabase.updated s) →
  nullish (Supabase.updated s) = false →
  answer w (generateVerificationEmail (Supabase.verificationCode (Supabase.random s))
              (Supabase.userName w (Supabase.validatedData s))) = Normal (Supabase.html s) →
  answer w (sendEmail (Supabase.verification_mail (Supabase.validatedData s)
                         (Supabase.html s))) = Throw e →
  (run w (Supabase.try_block w)).2 = Throw e ∧
  calls (run w (Supabase.try_block w)).1 = Supabase.registration_calls w s.
Proof.
  intros (((Hurl & Hkey) & Hjson & Hvalid) & Hfind & Hfresh & Hhash & Hdate & Hcreate & Hrow)
         Hrandom Hnow Hupdate Hupdated Hhtml Hsend.
  unfold Supabase.try_block, registerUserSchema_parse.
  unfold Supabase.stored, Supabase.verification in *.
  exec_all; split; reflexivity.
Qed.

(** X9. There is no rollback: when the verification-code update or the email
    helper throws (a classifiable value) after the insert has answered a row,
    the request is answered with a failure (status 400 or 500, success:false)
    although the user has been inserted; the calls stop at the collaborator that
    threw and nothing undoes the insert. *)
Theorem X9_no_rollback_after_the_insert :
  (∀ (w : World) (s : Supabase.steps) (e : value),
     Supabase.inserts w s →
     answer w Math_random = Normal (Supabase.random s) →
     answer w Date_now = Normal (Supabase.now s) →
     answer w (supabase_users_update (Supabase.verification w s)
                 (field (Supabase.newUser s) "id")) = Throw e →
     classifiable e = true →
     ∃ r, (Supabase.handle w).2 = Normal r ∧
          (status r = 400 ∨ status r = 500) ∧
          field (json r) "success" = VBool false ∧
          calls (Supabase.handle w).1 = take 8 (Supabase.registration_calls w s)) ∧
  (∀ (w : World) (s : Supabase.steps) (e : value),
     Supabase.inserts w s →
     answer w Math_random = Normal (Supabase.random s) →
     answer w Date_now = Normal (Supabase.now s) →
     answer w (supabase_users_update (Supabase.verification w s)
                 (field (Supabase.newUser s) "id")) = Normal (Supabase.updated s) →
     nullish (Supabase.updated s) = false →
     answer w (generateVerificationEmail (Supabase.verificationCode (Supabase.random s))
                 (Supabase.userName w (Supabase.validatedData s)))
       = Normal (Supabase.html s) →
     answer w (sendEmail (Supabase.verification_mail (Supabase.validatedData s)
                            (Supabase.html s))) = Throw e →
     classifiable e = true →
     ∃ r, (Supabase.handle w).2 = Normal r ∧
          (status r = 400 ∨ status r = 500) ∧
          field (json r) "success" = VBool false ∧
          calls (Supabase.handle w).1 = Supabase.registration_calls w s).
Proof.
  split.
  - intros w s e Hs Hrandom Hnow Hupdate Hclass.
    destruct (supabase_update_throws w s e Hs Hrandom Hnow Hupdate) as [Hthrows Hcalls].
    destruct (handle_failure supabase w e Hthrows Hclass) as (r & _ & Hr & Hstatus & Hsuccess).
    exists r. repeat split; try done.
    change (Supabase.handle w) with (handle supabase w). by rewrite handle_calls.
  - intros w s e Hs Hrandom Hnow Hupdate Hupdated Hhtml Hsend Hclass.
    destruct (supabase_email_throws w s e Hs Hrandom Hnow Hupdate Hupdated Hhtml Hsend)
      as [Hthrows Hcalls].
    destruct (handle_failure supabase w e Hthrows Hclass) as (r & _ & Hr & Hstatus & Hsuccess).
    exists r. repeat split; try done.
    change (Supabase.handle w) with (handle supabase w). by rewrite handle_calls.
Qed.

Lemma X9_witness :
  (∃ r, (Supabase.handle (Sample.world update_throws)).2 = Normal r ∧
        (status r = 400 ∨ status r = 500) ∧
        field (json r) "success" = VBool false ∧
        calls (Supabase.handle (Sample.world update_throws)).1
          = take 8 (Supabase.registration_calls (Sample.world update_throws)
                      (Sample.supabase_steps update_throws))) ∧
  (∃ r, (Supabase.handle (Sample.world Sample.email_throws)).2 = Normal r ∧
        (status r = 400 ∨ status r = 500) ∧
        field (json r) "success" = VBool false ∧
        calls (Supabase.handle (Sample.world Sample.email_throws)).1
          = Supabase.registration_calls (Sample.world Sample.email_throws)
              (Sample.supabase_steps Sample.email_throws)).
Proof.
  split.
  - apply (proj1 X9_no_rollback_after_the_insert (Sample.world update_throws)
             (Sample.supabase_steps update_throws) (Error "connect ETIMEDOUT")).
    + repeat split; vm_compute; reflexivity.
    + reflexivity.
    + reflexivity.
    + vm_compute; reflexivity.
    + reflexivity.
  - apply (proj2 X9_no_rollback_after_the_insert (Sample.world Sample.email_throws)
             (Sample.supabase_steps Sample.email_throws) (Error "SMTP timeout")).
    + repeat split; vm_compute; reflexivity.
    + reflexivity.
    + reflexivity.
    + vm_compute; reflexivity.
    + reflexivity.
    + vm_compute; reflexivity.
    + vm_compute; reflexivity.
    + reflexivity.
Defined.

Lemma rules_generic (w : World) (e : value) :
  is_ZodError e = false →
  mentions e "connect" = false → mentions e "ENOTFOUND" = false →
  mentions e "duplicate key" = false → mentions e "unique constraint" = false →
  mentions e "relation" = false →
  first_match (rules w e)
    = Some (internal_server_error
              (if strict_eq_string (env w "NODE_ENV") "development"
               then field e "message" else VUndefined)).
Proof. unfold rules. by intros -> -> -> -> -> ->. Qed.

Lemma missing_row_response (v : variant) (w : World) (text : string) :
  throws v w (TypeError text) →
  includes "connect" text = false → includes "ENOTFOUND" text = false →
  includes "duplicate key" text = false → includes "unique constraint" text = false →
  includes "relation" text = false →
  ∃ r, (handle v w).2 = Normal r ∧
       status r = 500 ∧
       field (json r) "message" = VStr "Internal server error".
Proof.
  intros Hthrows H1 H2 H3 H4 H5.
  destruct (handle_classifies v w (TypeError text) Hthrows) as (r & Hfirst & Hr).
  { by apply (classifiable_string _ text). }
  rewrite rules_generic in Hfirst;
    rewrite ?(mentions_string (TypeError text) text _ eq_refl); try done.
  injection Hfirst as <-. exists (internal_server_error
    (if strict_eq_string (env w "NODE_ENV") "development"
     then field (TypeError text) "message" else VUndefined)).
  by repeat split.
Qed.

(** X10. An insert that answers without a row (null or undefined from
    [db.users.create], an empty list or such a first element from
    [returning()]) is not taken for a success: reading the email of the new
    user throws, and the request is answered with the generic 500 "Internal
    server error" after the insert has been called. *)
Theorem X10_insert_without_row_is_a_server_error :
  (∀ (w : World) (s : Supabase.steps) (row : value),
     supabase_reaches_insert w s →
     answer w (db_users_create (Supabase.stored w s)) = Normal row →
     nullish row = true →
     ∃ r, (Supabase.handle w).2 = Normal r ∧
          status r = 500 ∧
          field (json r) "message" = VStr "Internal server error" ∧
          calls (Supabase.handle w).1 = take 5 (Supabase.registration_calls w s)) ∧
  (∀ (w : World) (s : Drizzle.steps) (rows : list value),
     drizzle_reaches_insert w s →
     answer w (db_insert_users_returning (Drizzle.stored s)) = Normal rows →
     nullish (Drizzle.first rows) = true →
     ∃ r, (Drizzle.handle w).2 = Normal r ∧
          status r = 500 ∧
          field (json r) "message" = VStr "Internal server error" ∧
          calls (Drizzle.handle w).1 = Drizzle.registration_calls s).
Proof.
  split.
  - intros w s row (((Hurl & Hkey) & Hjson & Hvalid) & Hfind & Hfresh & Hhash & Hdate)
      Hcreate Hrow.
    unfold Supabase.stored in *.
    assert (∃ text,
              (run w (Supabase.try_block w)).2 = Throw (TypeError text) ∧
              calls (run w (Supabase.try_block w)).1
                = take 5 (Supabase.registration_calls w s) ∧
              (text = "Cannot read properties of undefined (reading 'email')" ∨
               text = "Cannot read properties of null (reading 'email')"))
      as (text & Hthrows & Hcalls & Htext).
    { unfold Supabase.try_block, registerUserSchema_parse.
      destruct row; try discriminate Hrow; exec; eexists; repeat split; auto. }
    destruct (missing_row_response supabase w text Hthrows) as (r & Hr & Hstatus & Hmessage);
      try (by destruct Htext as [-> | ->]).
    exists r. repeat split; try done.
    change (Supabase.handle w) with (handle supabase w). by rewrite handle_calls.
  - intros w s rows (((Hdb & Hurl) & Hjson & Hvalid) & (Hget & Hprobe) & Hfind & Hfresh & Hhash)
      Hinsert Hrow.
    unfold Drizzle.stored in *.
    assert (∃ text,
              (run w (Drizzle.try_block w)).2 = Throw (TypeError text) ∧
              calls (run w (Drizzle.try_block w)).1 = Drizzle.registration_calls s ∧
              (text = "Cannot read properties of undefined (reading 'email')" ∨
               text = "Cannot read properties of null (reading 'email')"))
      as (text & Hthrows & Hcalls & Htext).
    { unfold Drizzle.try_block, Drizzle.connection_test, registerUserSchema_parse.
      exec. destruct (Drizzle.first rows); try discriminate Hrow;
        eexists; repeat split; auto. }
    destruct (missing_row_response drizzle w text Hthrows) as (r & Hr & Hstatus & Hmessage);
      try (by destruct Htext as [-> | ->]).
    exists r. repeat split; try done.
    change (Drizzle.handle w) with (handle drizzle w). by rewrite handle_calls.
Qed.

Lemma X10_witness :
  (∃ r, (Supabase.handle (answering Sample.fresh (empty_insert Sample.fresh))).2 = Normal r ∧
        status r = 500 ∧
        field (json r) "message" = VStr "Internal server error" ∧
        calls (Supabase.handle (answering Sample.fresh (empty_insert Sample.fresh))).1
          = take 5 (Supabase.registration_calls
                      (answering Sample.fresh (empty_insert Sample.fresh))
                      (Sample.supabase_steps Sample.fresh))) ∧
  (∃ r, (Drizzle.handle (answering Sample.fresh (empty_insert Sample.fresh))).2 = Normal r ∧
        status r = 500 ∧
        field (json r) "message" = VStr "Internal server error" ∧
        calls (Drizzle.handle (answering Sample.fresh (empty_insert Sample.fresh))).1
          = Drizzle.registration_calls (Sample.drizzle_steps Sample.fresh)).
Proof.
  split.
  - apply (proj1 X10_insert_without_row_is_a_server_error
             (answering Sample.fresh (empty_insert Sample.fresh))
             (Sample.supabase_steps Sample.fresh) VNull).
    + repeat split; vm_compute; reflexivity.
    + reflexivity.
    + reflexivity.
  - apply (proj2 X10_insert_without_row_is_a_server_error
             (answering Sample.fresh (empty_insert Sample.fresh))
             (Sample.drizzle_steps Sample.fresh) []).
    + repeat split; vm_compute; reflexivity.
    + reflexivity.
    + reflexivity.
Defined.


Lemma supabase_insert_throws (w : World) (s : Supabase.steps) (e : value) :
  supabase_reaches_insert w s →
  answer w (db_users_create (Supabase.stored w s)) = Throw e →
  (run w (Supabase.try_block w)).2 = Throw e ∧
  calls (run w (Supabase.try_block w)).1 = take 5 (Supabase.registration_calls w s).
Proof.
  intros (((Hurl & Hkey) & Hjson & Hvalid) & Hfind & Hfresh & Hhash & Hdate) Hcreate.
  unfold Supabase.try_block, registerUserSchema_parse.
  unfold Supabase.stored in *.
  exec. split; reflexivity.
Qed.

Lemma drizzle_insert_throws (w : World) (s : Drizzle.steps) (e : value) :
  drizzle_reaches_insert w s →
  answer w (db_insert_users_returning (Drizzle.stored s)) = Throw e →
  (run w (Drizzle.try_block w)).2 = Throw e ∧
  calls (run w (Drizzle.try_block w)).1 = Drizzle.registration_calls s.
Proof.
  intros (((Hdb & Hurl) & Hjson & Hvalid) & (Hget & Hprobe) & Hfind & Hfresh & Hhash) Hinsert.
  unfold Drizzle.try_block, Drizzle.connection_test, registerUserSchema_parse.
  unfold Drizzle.stored in *.
  exec. split; reflexivity.
Qed.

Lemma rules_uniqueness (w : World) (e : value) (m : string) :
  is_ZodError e = false →
  field e "message" = VStr m →
  includes "connect" m = false → includes "ENOTFOUND" m = false →
  includes "duplicate key" m = true ∨ includes "unique constraint" m = true →
  first_match (rules w e) = Some email_already_exists.
Proof.
  intros Hzod Hm H1 H2 H3. unfold rules.
  rewrite Hzod, !(mentions_string e m _ Hm), H1, H2. cbn [first_match orb].
  by destruct H3 as [-> | ->]; rewrite ?orb_true_r.
Qed.

(** X11. The uniqueness constraint of the store is the safety net of the
    lookup: when the lookup finds no user but the insert throws an error whose
    message contains "duplicate key" or "unique constraint" (and no
    connectivity substring), the request is answered 400 "Email already
    exists"; the password has been hashed and nothing is called after the
    insert.  Stated for both handlers. *)
Theorem X11_uniqueness_violation_at_the_insert :
  (∀ (w : World) (s : Supabase.steps) (e : value) (m : string),
     supabase_reaches_insert w s →
     answer w (db_users_create (Supabase.stored w s)) = Throw e →
     nullish e = false → is_ZodError e = false → field e "message" = VStr m →
     includes "connect" m = false → includes "ENOTFOUND" m = false →
     includes "duplicate key" m = true ∨ includes "unique constraint" m = true →
     (Supabase.handle w).2 = Normal email_already_exists ∧
     calls (Supabase.handle w).1 = take 5 (Supabase.registration_calls w s)) ∧
  (∀ (w : World) (s : Drizzle.steps) (e : value) (m : string),
     drizzle_reaches_insert w s →
     answer w (db_insert_users_returning (Drizzle.stored s)) = Throw e →
     nullish e = false → is_ZodError e = false → field e "message" = VStr m →
     includes "connect" m = false → includes "ENOTFOUND" m = false →
     includes "duplicate key" m = true ∨ includes "unique constraint" m = true →
     (Drizzle.handle w).2 = Normal email_already_exists ∧
     calls (Drizzle.handle w).1 = Drizzle.registration_calls s).
Proof.
  split.
  - intros w s e m Hs Hcreate He Hzod Hm H1 H2 H3.
    destruct (supabase_insert_throws w s e Hs Hcreate) as [Hthrows Hcalls].
    change (Supabase.handle w) with (handle supabase w). split.
    + destruct (handle_classifies supabase w e Hthrows) as (r & Hfirst & ->).
      { by apply (classifiable_string e m). }
      rewrite (rules_uniqueness w e m) in Hfirst by done. by injection Hfirst as <-.
    + by rewrite handle_calls.
  - intros w s e m Hs Hcreate He Hzod Hm H1 H2 H3.
    destruct (drizzle_insert_throws w s e Hs Hcreate) as [Hthrows Hcalls].
    change (Drizzle.handle w) with (handle drizzle w). split.
    + destruct (handle_classifies drizzle w e Hthrows) as (r & Hfirst & ->).
      { by apply (classifiable_string e m). }
      rewrite (rules_uniqueness w e m) in Hfirst by done. by injection Hfirst as <-.
    + by rewrite handle_calls.
Qed.

Lemma X11_witness :
  (Supabase.handle
     (Sample.world
        (Sample.insert_throws
           (Error "duplicate key value violates unique constraint users_email_key")))).2
    = Normal email_already_exists ∧
  (Drizzle.handle
     (Sample.world
        (Sample.insert_throws
           (Error "duplicate key value violates unique constraint users_email_key")))).2
    = Normal email_already_exists.
Proof.
  split.
  - apply (proj1 X11_uniqueness_violation_at_the_insert
             (Sample.world
                (Sample.insert_throws
                   (Error "duplicate key value violates unique constraint users_email_key")))
             (Sample.supabase_steps
                (Sample.insert_throws
                   (Error "duplicate key value violates unique constraint users_email_key")))
             (Error "duplicate key value violates unique constraint users_email_key")
             "duplicate key value violates unique constraint users_email_key").
    + repeat split; vm_compute; reflexivity.
    + reflexivity.
    + reflexivity.
    + reflexivity.
    + reflexivity.
    + reflexivity.
    + reflexivity.
    + left. reflexivity.
  - apply (proj2 X11_uniqueness_violation_at_the_insert
             (Sample.world
                (Sample.insert_throws
                   (Error "duplicate key value violates unique constraint users_email_key")))
             (Sample.drizzle_steps
                (Sample.insert_throws
                   (Error "duplicate key value violates unique constraint users_email_key")))
             (Error "duplicate key value violates unique constraint users_email_key")
             "duplicate key value violates unique constraint users_email_key").
    + repeat split; vm_compute; reflexivity.
    + reflexivity.
    + reflexivity.
    + reflexivity.
    + reflexivity.
    + reflexivity.
    + reflexivity.
    + left. reflexivity.
Defined.

Lemma logged_app (lvl : level) (tr tr' : list event) :
  logged lvl (tr ++ tr') = (logged lvl tr ++ logged lvl tr')%list.
Proof.
  induction tr as [|[c|l text args] tr IH]; simpl; [done..|].
  destruct lvl, l; simpl; by rewrite IH.
Qed.

Lemma catch_block_logs (w : World) (e : value) :
  ∃ lines, logged console_error (run w (catch_block w e)).1
           = "❌ Registration error details:" :: lines.
Proof.
  unfold catch_block. rewrite run_bind. cbn [console run].
  match goal with |- context [run w ?p] => destruct (run w p) as [tr r] end.
  cbn. eauto.
Qed.

Lemma try_block_error_logged (v : variant) (w : World) (tr : list event) (r : response) :
  run w (try_block v w) = (tr, Normal r) →
  status r = 500 →
  logged console_error tr ≠ [].
Proof.
  destruct v; cbn [try_block].
  - unfold Supabase.try_block, registerUserSchema_parse.
    exec_any; try (intros [=]; fail); intros [= <- <-]; cbn; done.
  - unfold Drizzle.try_block, Drizzle.connection_test, registerUserSchema_parse.
    exec_any; try (intros [=]; fail); intros [= <- <-]; cbn; done.
Qed.

(** X12. No 500 response goes unlogged: every request answered with status
    500 has written at least one console.error line (the missing setting, or
    the thrown value in the catch block). *)
Theorem X12_every_500_is_logged_as_an_error (v : variant) (w : World) (r : response) :
  (handle v w).2 = Normal r →
  status r = 500 →
  logged console_error (handle v w).1 ≠ [].
Proof.
  rewrite handle_unfold, run_try_catch.
  destruct (run w (try_block v w)) as [tr [a|e]] eqn:Htry; cbn [fst snd].
  - intros [= ->] Hstatus. cbn. by apply (try_block_error_logged v w tr r).
  - destruct (catch_block_logs w e) as [lines Hlines].
    destruct (run w (catch_block w e)) as [tr' c]. cbn [fst snd] in *.
    intros _ _. cbn. rewrite logged_app, Hlines.
    by destruct (logged console_error tr).
Qed.

Lemma X12_witness :
  logged console_error (handle supabase (Sample.world Sample.unconfigured)).1 ≠ [].
Proof.
  apply (X12_every_500_is_logged_as_an_error supabase (Sample.world Sample.unconfigured)
           (failure "Supabase configuration missing" 500)).
  - reflexivity.
  - reflexivity.
Defined.


Lemma request_throws_run (v : variant) (w : World) (e : value) :
  configured v w →
  answer w request_json = Throw e →
  (run w (try_block v w)).2 = Throw e ∧
  calls (run w (try_block v w)).1 = [request_json].
Proof.
  destruct v; intros [H1 H2] Hjson; cbn [try_block].
  - unfold Supabase.try_block. exec. split; reflexivity.
  - unfold Drizzle.try_block. exec. split; reflexivity.
Qed.

(** X13. A request whose body cannot be read is a server error, not a bad
    request: when [request.json()] throws an error that the first four rules do
    not take (as the SyntaxError of a malformed JSON body), the request is
    answered with the generic 500, not with a 400, and the schema, the database
    and the other collaborators are not reached. *)
Theorem X13_unreadable_body_is_a_server_error (v : variant) (w : World) (e : value) (m : string) :
  configured v w →
  answer w request_json = Throw e →
  nullish e = false → is_ZodError e = false → field e "message" = VStr m →
  includes "connect" m = false → includes "ENOTFOUND" m = false →
  includes "duplicate key" m = false → includes "unique constraint" m = false →
  includes "relation" m = false →
  (handle v w).2
    = Normal (internal_server_error
                (if strict_eq_string (env w "NODE_ENV") "development"
                 then VStr m else VUndefined)) ∧
  calls (handle v w).1 = [request_json].
Proof.
  intros Hconf Hjson He Hzod Hm H1 H2 H3 H4 H5.
  destruct (request_throws_run v w e Hconf Hjson) as [Hthrows Hcalls].
  split; [|by rewrite handle_calls].
  destruct (handle_classifies v w e Hthrows) as (r & Hfirst & ->).
  { by apply (classifiable_string e m). }
  rewrite rules_generic in Hfirst; rewrite ?(mentions_string e m _ Hm); try done.
  rewrite Hm in Hfirst. by injection Hfirst as <-.
Qed.

Lemma X13_witness :
  (handle supabase
     (Sample.world
        (Sample.request_throws (js_error "SyntaxError" "Unexpected end of JSON input")))).2
    = Normal (internal_server_error VUndefined) ∧
  calls (handle supabase
           (Sample.world
              (Sample.request_throws
                 (js_error "SyntaxError" "Unexpected end of JSON input")))).1
    = [request_json].
Proof.
  apply (X13_unreadable_body_is_a_server_error supabase
           (Sample.world
              (Sample.request_throws (js_error "SyntaxError" "Unexpected end of JSON input")))
           (js_error "SyntaxError" "Unexpected end of JSON input")
           "Unexpected end of JSON input").
  - split; vm_compute; reflexivity.
  - reflexivity.
  - reflexivity.
  - reflexivity.
  - reflexivity.
  - reflexivity.
  - reflexivity.
  - reflexivity.
  - reflexivity.
  - reflexivity.
Defined.

(** X14. The log line of the received body never shows the password of the
    body: whatever the body is (an object, an array, a string, null), the
    logged object has "[HIDDEN]" as password and every other own property of
    the body unchanged, and the logging does not throw. *)
Theorem X14_password_is_hidden_in_the_request_log (v : variant) (w : World) (body : value) :
  configured v w →
  answer w request_json = Normal body →
  ∃ shown : gmap string value,
    ELog console_log "📝 Request body received:" [VObj shown] ∈ (handle v w).1 ∧
    shown !! "password" = Some (VStr "[HIDDEN]") ∧
    ∀ k, k ≠ "password" → shown !! k = own_props body !! k.
Proof.
  intros Hconf Hjson.
  exists (<["password" := VStr "[HIDDEN]"]> (own_props body)).
  split; [|split; [apply lookup_insert_eq | intros k Hk; by apply lookup_insert_ne]].
  destruct v; destruct Hconf as [H1 H2]; cbn [handle].
  - unfold Supabase.handle, Supabase.POST, Supabase.try_block. exec.
    match goal with |- context [run w ?p] => destruct (run w p) as [tr r] end.
    cbn [fst]. find_call.
  - unfold Drizzle.handle, Drizzle.POST, Drizzle.try_block. exec.
    match goal with |- context [run w ?p] => destruct (run w p) as [tr r] end.
    cbn [fst]. find_call.
Qed.

Lemma X14_witness :
  ∃ shown : gmap string value,
    ELog console_log "📝 Request body received:" [VObj shown]
      ∈ (handle drizzle (Sample.world Sample.fresh)).1 ∧
    shown !! "password" = Some (VStr "[HIDDEN]") ∧
    ∀ k, k ≠ "password" → shown !! k = own_props Sample.payload !! k.
Proof.
  apply (X14_password_is_hidden_in_the_request_log drizzle (Sample.world Sample.fresh)).
  - split; vm_compute; reflexivity.
  - reflexivity.
Defined.
